(** * Community-Chatbot: ledger, calendar, extractor and conversation controller

    A shallow embedding of [config.py], [sheets_manager.py],
    [calendar_manager.py], [nlp_processor.py] and the conversation handlers of
    [main.py], followed by the properties of the specification that were
    checked against it.

    Conventions.
    - A Python [str] is a [string]; the character classes of [str.strip],
      [str.lower] and the regular expression [\d] are taken on ASCII.
    - A naive [datetime.datetime] is the number of microseconds that separate
      it from midnight of proleptic-Gregorian ordinal 0, so that
      [toordinal], [weekday], comparison and [timedelta] arithmetic are the
      integer operations of the interpreter's [datetime] module.
      A datetime localized to Europe/Rome is its wall-clock time: the zone
      object stays attached through [timedelta] arithmetic.
    - A function that returns the pair [(success, payload)] returns a Rocq
      pair; a call that lets an exception escape returns [None], and a
      handler that does so ends in [Raise].
    - The remote services (worksheet, calendar, language model) are explicit
      arguments: what they hold or answer at the time of the call.
    - The libraries the code calls ([float], [dateutil.parser.parse]) are
      class parameters; the examples instantiate them. *)

From Stdlib Require Import ZArith QArith String Ascii List Lia Bool.
From stdpp Require Import base option list strings pretty gmap.

Local Open Scope string_scope.
Local Open Scope Z_scope.

(* ===================================================================== *)
(** * config.py *)
(* ===================================================================== *)

Module config.

Definition EXPENSES_SPREADSHEET_NAME : string := "Expense Tracker".
Definition EXPENSES_WORKSHEET_NAME : string := "Expenses".

Definition EXPENSE_CATEGORIES : list string :=
  [ "Alimentari"; "Trasporti"; "Casa"; "Bollette"; "Salute";
    "Intrattenimento"; "Abbigliamento"; "Regali"; "Altro" ].

Definition CALENDAR_ID : string := "primary".
Definition OPENAI_MODEL : string := "gpt-3.5-turbo".
Definition MAX_MESSAGE_LENGTH : Z := 4096.

End config.

(* ===================================================================== *)
(** * The operations of [str], [re] and [int] that the handlers use *)
(* ===================================================================== *)

Module Py.

(** [sep.join(parts)] *)
Fixpoint join (sep : string) (parts : list string) : string :=
  match parts with
  | [] => ""
  | [p] => p
  | p :: ps => p +:+ sep +:+ join sep ps
  end.

(** [s.startswith(p)] *)
Fixpoint startswith (p s : string) : bool :=
  match p, s with
  | EmptyString, _ => true
  | String a p', String b s' => if Ascii.eqb a b then startswith p' s' else false
  | String _ _, EmptyString => false
  end.

(** [sub in s] *)
Fixpoint contains (sub s : string) : bool :=
  startswith sub s ||
  match s with
  | EmptyString => false
  | String _ s' => contains sub s'
  end.

(** The left-to-right scan of [s.replace(old, new)] for a non-empty [old]:
    [skip] counts the characters of a matched occurrence still to drop. *)
Fixpoint replace_scan (old new : string) (skip : nat) (s : string) : string :=
  match s with
  | EmptyString => EmptyString
  | String c s' =>
      match skip with
      | S k => replace_scan old new k s'
      | O =>
          if startswith old s
          then new +:+ replace_scan old new (Nat.pred (String.length old)) s'
          else String c (replace_scan old new O s')
      end
  end.

(** With an empty [old], Python puts [new] before every character and at
    the end. *)
Fixpoint intersperse (new s : string) : string :=
  match s with
  | EmptyString => new
  | String c s' => new +:+ String c (intersperse new s')
  end.

(** [s.replace(old, new)] *)
Definition replace (old new s : string) : string :=
  match old with
  | EmptyString => intersperse new s
  | String _ _ => replace_scan old new O s
  end.

(** [c.isspace()] on ASCII *)
Definition isspace (c : ascii) : bool :=
  let n := Z.of_nat (nat_of_ascii c) in
  ((9 <=? n) && (n <=? 13)) || ((28 <=? n) && (n <=? 32)).

Fixpoint lstrip (s : string) : string :=
  match s with
  | String c s' => if isspace c then lstrip s' else s
  | EmptyString => EmptyString
  end.

Definition rstrip (s : string) : string :=
  String.rev (lstrip (String.rev s)).

(** [s.strip()] *)
Definition strip (s : string) : string := rstrip (lstrip s).

Definition lower_char (c : ascii) : ascii :=
  let n := nat_of_ascii c in
  if ((65 <=? n) && (n <=? 90))%nat then ascii_of_nat (n + 32) else c.

(** [s.lower()] on ASCII *)
Fixpoint lower (s : string) : string :=
  match s with
  | EmptyString => EmptyString
  | String c s' => String (lower_char c) (lower s')
  end.

(** [\d] on ASCII *)
Definition isdigit (c : ascii) : bool :=
  let n := nat_of_ascii c in ((48 <=? n) && (n <=? 57))%nat.

Fixpoint all_digits (s : string) : bool :=
  match s with
  | EmptyString => true
  | String c s' => isdigit c && all_digits s'
  end.

(** The longest run of digits at the head of [s]. *)
Fixpoint take_digits (s : string) : string :=
  match s with
  | String c s' => if isdigit c then String c (take_digits s') else EmptyString
  | EmptyString => EmptyString
  end.

(** [re.search(r'\d+', s)]: the group of the leftmost match, if any. *)
Fixpoint search_digits (s : string) : option string :=
  match s with
  | EmptyString => None
  | String c s' => if isdigit c then Some (take_digits s) else search_digits s'
  end.

(** [re.match(r'^(\d+)$', s)]: group 1 of the match, if any.  Without
    [re.MULTILINE], [$] also matches just before a final line feed. *)
Definition match_digits (s : string) : option string :=
  let d := take_digits s in
  let rest := String.substring (String.length d) (String.length s - String.length d) s in
  if (String.length d =? 0)%nat then None
  else if String.eqb rest "" || String.eqb rest (String "010"%char "") then Some d
  else None.

Definition digit_value (c : ascii) : Z := Z.of_nat (nat_of_ascii c) - 48.

Fixpoint int_acc (acc : Z) (s : string) : Z :=
  match s with
  | EmptyString => acc
  | String c s' => int_acc (10 * acc + digit_value c) s'
  end.

(** [int(s)] for a string of digits *)
Definition int (s : string) : Z := int_acc 0 s.

End Py.

(* ===================================================================== *)
(** * The interpreter's [datetime] *)
(* ===================================================================== *)

Module PyDatetime.

(** A naive datetime: microseconds since midnight of ordinal 0. *)
Definition datetime : Type := Z.

Definition US_PER_SECOND : Z := 1000000.
Definition US_PER_HOUR : Z := 3600 * US_PER_SECOND.
Definition US_PER_DAY : Z := 24 * US_PER_HOUR.

Definition is_leap (year : Z) : bool :=
  (year mod 4 =? 0) && (negb (year mod 100 =? 0) || (year mod 400 =? 0)).

Definition days_before_year (year : Z) : Z :=
  let y := year - 1 in y * 365 + y / 4 - y / 100 + y / 400.

Definition DAYS_IN_MONTH : list Z :=
  [ -1; 31; 28; 31; 30; 31; 30; 31; 31; 30; 31; 30; 31 ].

Definition DAYS_BEFORE_MONTH : list Z :=
  [ -1; 0; 31; 59; 90; 120; 151; 181; 212; 243; 273; 304; 334 ].

Definition days_in_month (year month : Z) : Z :=
  if (month =? 2) && is_leap year then 29
  else nth (Z.to_nat month) DAYS_IN_MONTH 0.

Definition days_before_month (year month : Z) : Z :=
  nth (Z.to_nat month) DAYS_BEFORE_MONTH 0
  + (if (2 <? month) && is_leap year then 1 else 0).

Definition ymd2ord (year month day : Z) : Z :=
  days_before_year year + days_before_month year month + day.

Definition DI400Y : Z := days_before_year 401.
Definition DI100Y : Z := days_before_year 101.
Definition DI4Y : Z := days_before_year 5.

Definition ord2ymd (ordinal : Z) : Z * Z * Z :=
  let n := ordinal - 1 in
  let n400 := n / DI400Y in
  let n := n mod DI400Y in
  let year := n400 * 400 + 1 in
  let n100 := n / DI100Y in
  let n := n mod DI100Y in
  let n4 := n / DI4Y in
  let n := n mod DI4Y in
  let n1 := n / 365 in
  let n := n mod 365 in
  let year := year + n100 * 100 + n4 * 4 + n1 in
  if (n1 =? 4) || (n100 =? 4) then (year - 1, 12, 31)
  else
    let leapyear := (n1 =? 3) && (negb (n4 =? 24) || (n100 =? 3)) in
    let month := Z.shiftr (n + 50) 5 in
    let preceding :=
      nth (Z.to_nat month) DAYS_BEFORE_MONTH 0
      + (if (2 <? month) && leapyear then 1 else 0) in
    if n <? preceding then
      let month := month - 1 in
      let preceding :=
        preceding
        - (nth (Z.to_nat month) DAYS_IN_MONTH 0
           + (if (month =? 2) && leapyear then 1 else 0)) in
      (year, month, n - preceding + 1)
    else (year, month, n - preceding + 1).

Definition MINORDINAL : Z := 1.
Definition MAXORDINAL : Z := 3652059.

(** [datetime.datetime(year, month, day, hour, minute, second, microsecond)] *)
Definition make (year month day hour minute second microsecond : Z) : datetime :=
  ymd2ord year month day * US_PER_DAY
  + ((hour * 60 + minute) * 60 + second) * US_PER_SECOND + microsecond.

Definition toordinal (t : datetime) : Z := t / US_PER_DAY.
Definition time_of_day (t : datetime) : Z := t mod US_PER_DAY.

Definition year (t : datetime) : Z := (ord2ymd (toordinal t)).1.1.
Definition month (t : datetime) : Z := (ord2ymd (toordinal t)).1.2.
Definition day (t : datetime) : Z := (ord2ymd (toordinal t)).2.

(** [t.weekday()]: Monday is 0. *)
Definition weekday (t : datetime) : Z := (toordinal t + 6) mod 7.

(** The values a [datetime] can hold: years 1 to 9999. *)
Definition representable (t : Z) : bool :=
  (MINORDINAL * US_PER_DAY <=? t) && (t <? (MAXORDINAL + 1) * US_PER_DAY).

(** [datetime.timedelta(days=d, hours=h)] in microseconds *)
Definition timedelta (days hours : Z) : Z := days * US_PER_DAY + hours * US_PER_HOUR.

(** [t + delta]; [None] is the [OverflowError] of a result out of range. *)
Definition add (t : datetime) (delta : Z) : option datetime :=
  if representable (t + delta) then Some (t + delta) else None.

(** [t - delta] *)
Definition sub (t : datetime) (delta : Z) : option datetime := add t (- delta).

End PyDatetime.

Import PyDatetime.

(** The interpreter's [float]: its values, [float(s)] on a string ([None] is
    the [ValueError] of a string that is not a number) and [str(x)]. *)
Class PyFloat := {
  float : Type;
  float_of_str : string → option float;
  float_str : float → string
}.

(* ===================================================================== *)
(** * sheets_manager.py *)
(* ===================================================================== *)

Module sheets_manager.
Section Ledger.
Context `{PyFloat}.

(** One record of [worksheet.get_all_records()].  [Data] is what
    [pd.to_datetime(_, format='%d/%m/%Y')] makes of the cell: midnight of
    the written day, or [None] when the conversion raises.  A cell that the
    conversion reads as missing (an empty cell, which becomes [NaT] without
    raising) is not among the cells modelled. *)
Record record := {
  Data : option datetime;
  Importo : float;
  Categoria : string;
  Descrizione : string
}.

(** What the spreadsheet service gives at the time of the call:
    [get_or_create_expense_sheet()] is [None], or a call on the opened
    spreadsheet raises, or the worksheet holds these records. *)
Inductive service :=
| NoSpreadsheet
| ApiError
| Worksheet (records : list record).

(** The amount argument of [add_expense], as a caller can pass it. *)
Inductive amount_arg :=
| AmountFloat (x : float)
| AmountStr (s : string)
| AmountNone.

Definition invalid_category_message : string :=
  "Categoria non valida. Categorie disponibili: "
  +:+ Py.join ", " config.EXPENSE_CATEGORIES.

(** [category not in config.EXPENSE_CATEGORIES]; [None] is in no list of
    strings. *)
Definition not_in_categories (category : option string) : bool :=
  match category with
  | None => true
  | Some c => negb (bool_decide (c ∈ config.EXPENSE_CATEGORIES))
  end.

(** [str(category)] inside an f-string *)
Definition str_opt (s : option string) : string := default "None" s.

(** [float(amount)] *)
Inductive float_result :=
| FloatValue (x : float)
| ValueError
| TypeError.

Definition float_call (amount : amount_arg) : float_result :=
  match amount with
  | AmountFloat x => FloatValue x
  | AmountStr s => match float_of_str s with Some x => FloatValue x | None => ValueError end
  | AmountNone => TypeError
  end.

(** [add_expense(amount, category, description)] called at time [now].
    The date cell is written with [strftime("%d/%m/%Y")] and read back by
    [to_datetime] as midnight of that day.  The result is [None] when
    [float(amount)] raises [TypeError], which the function does not catch. *)
Definition add_expense (svc : service) (now : datetime)
    (amount : amount_arg) (category : option string) (description : string)
    : option ((bool * string) * service) :=
  if not_in_categories category then Some ((false, invalid_category_message), svc)
  else
    match float_call amount with
    | TypeError => None
    | ValueError => Some ((false, "L'importo deve essere un numero."), svc)
    | FloatValue amount =>
        match svc with
        | NoSpreadsheet => Some ((false, "Impossibile accedere al foglio delle spese."), svc)
        | ApiError => Some ((false, "Errore nell'aggiunta della spesa."), svc)
        | Worksheet records =>
            let new_row := {| Data := Some (toordinal now * US_PER_DAY);
                              Importo := amount;
                              Categoria := str_opt category;
                              Descrizione := description |} in
            Some ((true, "Spesa di " +:+ float_str amount +:+ "€ aggiunta nella categoria '"
                          +:+ str_opt category +:+ "'."),
                  Worksheet (records ++ [new_row]))
        end
    end.

(** The second component of [get_expense_report]'s result: a fixed text,
    or the report rendered from the rows that passed the filters (their
    total and, when [breakdown] is set, the sums by category). *)
Inductive payload :=
| Text (message : string)
| Report (period_text category_text : string) (df : list record) (breakdown : bool).

(** [df['Data'] = pd.to_datetime(df['Data'], format='%d/%m/%Y')]: raises as
    soon as the conversion of one cell raises. *)
Fixpoint to_datetime (records : list record) : option (list (datetime * record)) :=
  match records with
  | [] => Some []
  | r :: rs =>
      match Data r, to_datetime rs with
      | Some d, Some ds => Some ((d, r) :: ds)
      | _, _ => None
      end
  end.

(** The date filter of [get_expense_report]; [None] when computing the
    bound raises.  The text is [period_text]. *)
Definition filter_period (now : datetime) (period : string)
    (df : list (datetime * record)) : option (list (datetime * record) * string) :=
  if String.eqb period "day" then
    Some (filter (λ r, toordinal r.1 = toordinal now) df, "oggi")
  else if String.eqb period "week" then
    match sub now (timedelta (weekday now) 0) with
    | None => None
    | Some start_of_week =>
        Some (filter (λ r, start_of_week ≤ r.1) df, "questa settimana")
    end
  else if String.eqb period "month" then
    let df := filter (λ r, month r.1 = month now) df in
    let df := filter (λ r, year r.1 = year now) df in
    Some (df, "questo mese")
  else if String.eqb period "year" then
    Some (filter (λ r, year r.1 = year now) df, "quest'anno")
  else Some (df, "totali").

(** Truth value of an optional string: [None] and [""] are false. *)
Definition truthy_str (s : option string) : bool :=
  match s with
  | None | Some EmptyString => false
  | Some (String _ _) => true
  end.

(** [get_expense_report(period, category)] called at time [now]. *)
Definition get_expense_report (svc : service) (now : datetime)
    (period : string) (category : option string) : bool * payload :=
  match svc with
  | NoSpreadsheet => (false, Text "Impossibile accedere al foglio delle spese.")
  | ApiError => (false, Text "Errore nella generazione del report.")
  | Worksheet [] => (true, Text "Nessuna spesa registrata.")
  | Worksheet records =>
      match to_datetime records with
      | None => (false, Text "Errore nella generazione del report.")
      | Some df =>
          match filter_period now period df with
          | None => (false, Text "Errore nella generazione del report.")
          | Some (df, period_text) =>
              if truthy_str category then
                if not_in_categories category
                then (false, Text invalid_category_message)
                else
                  let df := filter (λ r, Categoria r.2 = str_opt category) df in
                  let category_text := " nella categoria '" +:+ str_opt category +:+ "'" in
                  match df with
                  | [] => (true, Text ("Nessuna spesa " +:+ period_text +:+ category_text +:+ "."))
                  | _ => (true, Report period_text category_text (snd <$> df) false)
                  end
              else
                match df with
                | [] => (true, Text ("Nessuna spesa " +:+ period_text +:+ "."))
                | _ => (true, Report period_text "" (snd <$> df) true)
                end
          end
      end
  end.

(** The rows a result reports on. *)
Definition reported_rows (result : bool * payload) : list record :=
  match result.2 with
  | Report _ _ df _ => df
  | Text _ => []
  end.

End Ledger.
End sheets_manager.

(* ===================================================================== *)
(** * Dynamically typed values *)
(* ===================================================================== *)

(** What [json.loads] returns, plus the [datetime] objects the extractor
    puts in place of the time strings. *)
#[warnings="-register-all"]
Inductive pyval :=
| PNone
| PBool (b : bool)
| PNum (x : Q)
| PStr (s : string)
| PList (items : list pyval)
| PDict (entries : gmap string pyval)
| PDatetime (t : datetime).

(** [bool(v)] *)
Definition truthy (v : pyval) : bool :=
  match v with
  | PNone => false
  | PBool b => b
  | PNum x => negb (Qnum x =? 0)
  | PStr s => negb (String.eqb s "")
  | PList items => match items with [] => false | _ => true end
  | PDict entries => match map_to_list entries with [] => false | _ => true end
  | PDatetime _ => true
  end.

(** [v is None] *)
Definition is_None (v : pyval) : bool :=
  match v with PNone => true | _ => false end.

(** [d.get(key)]: [None] for a missing key. *)
Definition dict_get (d : gmap string pyval) (key : string) : pyval :=
  default PNone (d !! key).

(** [d.get(key, '')] *)
Definition dict_get_or_empty (d : gmap string pyval) (key : string) : pyval :=
  default (PStr "") (d !! key).

(** A user-facing text: [Caught prefix] is [prefix] followed by [str(e)] of
    the exception caught, and [Quoted before v after] is the f-string
    [before{v}after]. *)
Inductive message :=
| Msg (text : string)
| Caught (prefix : string)
| Quoted (before : string) (v : option pyval) (after : string).

(* ===================================================================== *)
(** * calendar_manager.py *)
(* ===================================================================== *)

Module calendar_manager.

(** An event resource of the calendar service.  A text key that the
    resource does not have is [None].  The two [dateTime] strings are held
    as the datetimes they are the [isoformat()] of. *)
Record event := {
  summary : option pyval;
  location : option pyval;
  description : option pyval;
  start_dateTime : option datetime;
  start_timeZone : option string;
  end_dateTime : option datetime;
  end_timeZone : option string;
  reminders_useDefault : option bool
}.

(** The calendar at the time of the call: [get_calendar_service()] is
    [None], or every request raises [HttpError], or the calendar holds these
    events by id.  A request for an id the calendar does not hold raises
    [HttpError]. *)
Inductive service :=
| NoService
| HttpFailure
| Calendar (events : gmap string event).

Inductive payload :=
| Message (m : message)
| EventId (id : string).

Definition no_service : message := Msg "Impossibile accedere al servizio Calendar.".

(** [v.isoformat()]: only a datetime has it. *)
Definition isoformat (v : pyval) : option datetime :=
  match v with
  | PDatetime t => Some t
  | _ => None
  end.

(** [start_time + datetime.timedelta(hours=1)]; [None] when it raises. *)
Definition plus_one_hour (start_time : pyval) : option pyval :=
  match start_time with
  | PDatetime t => PDatetime <$> add t (timedelta 0 1)
  | _ => None
  end.

(** [create_event(summary, start_time, end_time, description, location)];
    [new_id] is the id the service gives to the inserted event. *)
Definition create_event (svc : service) (new_id : string)
    (summary start_time end_time description location : pyval)
    : (bool * payload) * service :=
  match svc with
  | NoService => ((false, Message no_service), svc)
  | HttpFailure | Calendar _ =>
      let body :=
        end_time ← (if is_None end_time then plus_one_hour start_time else Some end_time);
        start_time_str ← isoformat start_time;
        end_time_str ← isoformat end_time;
        Some {| summary := Some summary;
                location := Some location;
                description := Some description;
                start_dateTime := Some start_time_str;
                start_timeZone := Some "Europe/Rome";
                end_dateTime := Some end_time_str;
                end_timeZone := Some "Europe/Rome";
                reminders_useDefault := Some true |} in
      match body, svc with
      | None, _ => ((false, Message (Msg "Errore imprevisto nella creazione dell'evento.")), svc)
      | Some event, Calendar events =>
          ((true, EventId new_id), Calendar (<[new_id := event]> events))
      | Some _, _ => ((false, Message (Caught "Errore nella creazione dell'evento: ")), svc)
      end
  end.

Definition set_summary (v : pyval) (e : event) : event :=
  {| summary := Some v; location := location e; description := description e;
     start_dateTime := start_dateTime e; start_timeZone := start_timeZone e;
     end_dateTime := end_dateTime e; end_timeZone := end_timeZone e;
     reminders_useDefault := reminders_useDefault e |}.

Definition set_description (v : pyval) (e : event) : event :=
  {| summary := summary e; location := location e; description := Some v;
     start_dateTime := start_dateTime e; start_timeZone := start_timeZone e;
     end_dateTime := end_dateTime e; end_timeZone := end_timeZone e;
     reminders_useDefault := reminders_useDefault e |}.

Definition set_location (v : pyval) (e : event) : event :=
  {| summary := summary e; location := Some v; description := description e;
     start_dateTime := start_dateTime e; start_timeZone := start_timeZone e;
     end_dateTime := end_dateTime e; end_timeZone := end_timeZone e;
     reminders_useDefault := reminders_useDefault e |}.

Definition set_start_dateTime (t : datetime) (e : event) : event :=
  {| summary := summary e; location := location e; description := description e;
     start_dateTime := Some t; start_timeZone := start_timeZone e;
     end_dateTime := end_dateTime e; end_timeZone := end_timeZone e;
     reminders_useDefault := reminders_useDefault e |}.

Definition set_end_dateTime (t : datetime) (e : event) : event :=
  {| summary := summary e; location := location e; description := description e;
     start_dateTime := start_dateTime e; start_timeZone := start_timeZone e;
     end_dateTime := Some t; end_timeZone := end_timeZone e;
     reminders_useDefault := reminders_useDefault e |}.

(** [if v: event[...]['dateTime'] = v.isoformat()]: a false value is
    skipped; a true value that is not a datetime has no [isoformat] and
    raises [AttributeError] ([None]). *)
Definition assign_time (set : datetime → event → event) (v : pyval) (e : event)
    : option event :=
  if truthy v then
    match v with
    | PDatetime t => Some (set t e)
    | _ => None
    end
  else Some e.

(** The field assignments of [update_event], in the order of the source. *)
Definition apply_update (summary start_time end_time description location : pyval)
    (e : event) : option event :=
  let e := if truthy summary then set_summary summary e else e in
  let e := if negb (is_None description) then set_description description e else e in
  let e := if negb (is_None location) then set_location location e else e in
  e ← assign_time set_start_dateTime start_time e;
  assign_time set_end_dateTime end_time e.

(** [update_event(event_id, summary, start_time, end_time, description,
    location)] *)
Definition update_event (svc : service) (event_id : string)
    (summary start_time end_time description location : pyval)
    : (bool * message) * service :=
  match svc with
  | NoService => ((false, no_service), svc)
  | HttpFailure => ((false, Caught "Errore nell'aggiornamento dell'evento: "), svc)
  | Calendar events =>
      match events !! event_id with
      | None => ((false, Caught "Errore nell'aggiornamento dell'evento: "), svc)
      | Some event =>
          match apply_update summary start_time end_time description location event with
          | None => ((false, Msg "Errore imprevisto nell'aggiornamento dell'evento."), svc)
          | Some event =>
              ((true, Quoted "Evento '" (calendar_manager.summary event) "' aggiornato con successo."),
               Calendar (<[event_id := event]> events))
          end
      end
  end.

(** [delete_event(event_id)] *)
Definition delete_event (svc : service) (event_id : string)
    : (bool * message) * service :=
  match svc with
  | NoService => ((false, no_service), svc)
  | HttpFailure => ((false, Caught "Errore nell'eliminazione dell'evento: "), svc)
  | Calendar events =>
      match events !! event_id with
      | None => ((false, Caught "Errore nell'eliminazione dell'evento: "), svc)
      | Some event =>
          ((true, Quoted "Evento '"
                    (Some (default (PStr "Evento sconosciuto") (calendar_manager.summary event)))
                    "' eliminato con successo."),
           Calendar (delete event_id events))
      end
  end.

(** One entry of the list [get_upcoming_events] returns: the id, the
    title (or its default), the rendered start, the location and the
    description of an event. *)
Record listed := {
  id : string;
  l_summary : string;
  l_start : string;
  l_location : string;
  l_description : string
}.

(** The answer of the service to the listing request: no service, an
    [HttpError], another exception while the items are rendered, or the
    items, each already rendered as [get_upcoming_events] renders it. *)
Inductive listing :=
| ListNoService
| ListHttpError
| ListRaises
| Items (items : list listed).

Inductive events_payload :=
| EventsText (m : message)
| Events (events : list listed).

(** [get_upcoming_events(max_results)] *)
Definition get_upcoming_events (answer : listing) : bool * events_payload :=
  match answer with
  | ListNoService => (false, EventsText no_service)
  | ListHttpError => (false, EventsText (Caught "Errore nel recupero degli eventi: "))
  | ListRaises => (false, EventsText (Msg "Errore imprevisto nel recupero degli eventi."))
  | Items [] => (true, EventsText (Msg "Nessun evento in programma."))
  | Items events => (true, Events events)
  end.

Definition LF : string := String "010"%char "".

(** Lines 287-289: a description of more than 50 characters is cut to its
    first 47 followed by three dots (lengths as on ASCII text). *)
Definition shown_description (desc : string) : string :=
  if (50 <? String.length desc)%nat then String.substring 0 47 desc +:+ "..." else desc.

(** The text [format_events_message] adds for the event numbered [i]. *)
Definition event_entry (i : Z) (event : listed) : string :=
  "*" +:+ pretty i +:+ ". " +:+ l_summary event +:+ "*" +:+ LF
  +:+ "ğŸ“† " +:+ l_start event +:+ LF
  +:+ (if String.eqb (l_location event) "" then ""
       else "ğŸ“ " +:+ l_location event +:+ LF)
  +:+ (if String.eqb (l_description event) "" then ""
       else "ğŸ“ " +:+ shown_description (l_description event) +:+ LF)
  +:+ "ID: `" +:+ id event +:+ "`" +:+ LF +:+ LF.

(** [for i, event in enumerate(events, i): message += ...] *)
Fixpoint event_entries (i : Z) (events : list listed) : string :=
  match events with
  | [] => ""
  | event :: events => event_entry i event +:+ event_entries (i + 1) events
  end.

(** [format_events_message(events)]: a text passes through, a list is
    rendered. *)
Definition format_events_message (events : events_payload) : message :=
  match events with
  | EventsText m => m
  | Events events =>
      Msg ("ğŸ“… *Eventi in programma:*" +:+ LF +:+ LF +:+ event_entries 1 events)
  end.

End calendar_manager.

(** [dateutil.parser.parse] on a string; [None] when it raises. *)
Class DateParser := { parser_parse : string → option datetime }.

(* ===================================================================== *)
(** * nlp_processor.py *)
(* ===================================================================== *)

Module nlp_processor.
Section Extractor.
Context `{DateParser}.

(** What the language-model service does with a request: the call raises,
    or it answers [content], of which [loaded] is
    [json.loads(content.strip())] ([None] for [JSONDecodeError]). *)
Inductive completion :=
| ApiRaises
| Reply (content : string) (loaded : option pyval).

(** The requests sent to the service, each by the user text it carries. *)
Definition requests : Type := list string.

Inductive payload :=
| Message (m : message)
| Data (d : gmap string pyval)
| EventId (id : string).

Definition no_client : message :=
  Msg "Impossibile accedere al servizio OpenAI. Verifica la chiave API.".
Definition request_failed : message :=
  Caught "Errore nell'elaborazione della richiesta: ".
Definition not_json : message :=
  Msg "Errore nel parsing della risposta. Riprova con una richiesta più chiara.".

(** [rome_tz.localize(parser.parse(v))]: the parser takes strings only,
    and the zone is attached to the wall-clock time as it is. *)
Definition parse_local (v : pyval) : option datetime :=
  match v with
  | PStr s => parser_parse s
  | _ => None
  end.

(** The body of [parse_event_request] once the reply is a dict. *)
Definition new_event_of (event_data : gmap string pyval) : bool * payload :=
  if negb (truthy (dict_get event_data "summary")) then
    (false, Message (Msg "Non è stato possibile identificare il titolo dell'evento."))
  else if negb (truthy (dict_get event_data "start_time")) then
    (false, Message (Msg "Non è stato possibile identificare la data e l'ora dell'evento."))
  else
    match parse_local (dict_get event_data "start_time") with
    | None => (false, Message (Caught "Errore nel parsing della data di inizio: "))
    | Some start_time =>
        let event_data := <["start_time" := PDatetime start_time]> event_data in
        let parsed_end :=
          if truthy (dict_get event_data "end_time")
          then parse_local (dict_get event_data "end_time")
          else None in
        match parsed_end with
        | Some end_time =>
            (true, Data (<["end_time" := PDatetime end_time]> event_data))
        | None =>
            match add start_time (timedelta 0 1) with
            | Some end_time =>
                (true, Data (<["end_time" := PDatetime end_time]> event_data))
            | None => (false, Message request_failed)
            end
        end
    end.

(** [parse_event_request(text)]; [client] tells whether
    [get_openai_client()] gives a client. *)
Definition parse_event_request (client : bool) (answer : completion) (text : string)
    : (bool * payload) * requests :=
  if negb client then ((false, Message no_client), [])
  else
    match answer with
    | ApiRaises => ((false, Message request_failed), [text])
    | Reply _ None => ((false, Message not_json), [text])
    | Reply _ (Some (PDict event_data)) => (new_event_of event_data, [text])
    | Reply _ (Some _) => ((false, Message request_failed), [text])
    end.

(** [all(value is None for value in update_data.values())] *)
Definition all_None (update_data : gmap string pyval) : bool :=
  forallb (λ kv, is_None kv.2) (map_to_list update_data).

(** The body of [parse_event_update_request] once the reply is a dict. *)
Definition update_of (update_data : gmap string pyval) (event_id : string)
    : bool * payload :=
  if all_None update_data then
    (false, Message (Msg "Non è stato possibile identificare alcuna modifica da apportare all'evento."))
  else
    let parsed_start :=
      if truthy (dict_get update_data "start_time")
      then
        match parse_local (dict_get update_data "start_time") with
        | Some start_time => Some (<["start_time" := PDatetime start_time]> update_data)
        | None => None
        end
      else Some update_data in
    match parsed_start with
    | None => (false, Message (Caught "Errore nel parsing della nuova data di inizio: "))
    | Some update_data =>
        let update_data :=
          if truthy (dict_get update_data "end_time")
          then
            match parse_local (dict_get update_data "end_time") with
            | Some end_time => <["end_time" := PDatetime end_time]> update_data
            | None => <["end_time" := PNone]> update_data
            end
          else update_data in
        (true, Data (<["event_id" := PStr event_id]> update_data))
    end.

(** [parse_event_update_request(text, event_id)] *)
Definition parse_event_update_request (client : bool) (answer : completion)
    (text event_id : string) : (bool * payload) * requests :=
  if negb client then ((false, Message no_client), [])
  else
    match answer with
    | ApiRaises => ((false, Message request_failed), [text])
    | Reply _ None => ((false, Message not_json), [text])
    | Reply _ (Some (PDict update_data)) => (update_of update_data event_id, [text])
    | Reply _ (Some _) => ((false, Message request_failed), [text])
    end.

(** The [events] argument of [parse_event_deletion_request]: the text
    [get_upcoming_events] returned in place of a list, or the list. *)
Inductive candidates :=
| ErrorText (text : string)
| Candidates (events : list calendar_manager.listed).

Definition not_identified : message :=
  Msg "Non è stato possibile identificare quale evento eliminare. Prova a essere più specifico.".

(** What [parse_event_deletion_request] makes of the service's reply. *)
Definition deletion_target (events : list calendar_manager.listed) (content : string)
    : bool * payload :=
  let content := Py.lower (Py.strip content) in
  if Py.contains "non trovato" content then (false, Message not_identified)
  else
    match Py.search_digits content with
    | Some group =>
        let event_index := Py.int group - 1 in
        if (0 <=? event_index) && (event_index <? Z.of_nat (length events)) then
          match events !! Z.to_nat event_index with
          | Some event => (true, EventId (calendar_manager.id event))
          | None => (false, Message request_failed)
          end
        else (false, Message (Msg "Numero evento non valido."))
    | None => (false, Message not_identified)
    end.

(** [parse_event_deletion_request(text, events)] *)
Definition parse_event_deletion_request (client : bool) (answer : completion)
    (text : string) (events : candidates) : (bool * payload) * requests :=
  if negb client then ((false, Message no_client), [])
  else
    match events with
    | ErrorText e => ((false, Message (Msg e)), [])
    | Candidates [] => ((false, Message (Msg "Non ci sono eventi da eliminare.")), [])
    | Candidates events =>
        match answer with
        | ApiRaises => ((false, Message request_failed), [text])
        | Reply content _ => (deletion_target events content, [text])
        end
    end.

End Extractor.
End nlp_processor.

(* ===================================================================== *)
(** * main.py: the conversation handlers *)
(* ===================================================================== *)

Module main.
Section Controller.
Context `{PyFloat} `{DateParser}.

Import calendar_manager.

(** Conversation states *)
Definition EXPENSE_AMOUNT : Z := 0.
Definition EXPENSE_CATEGORY : Z := 1.
Definition EXPENSE_DESCRIPTION : Z := 2.
Definition CALENDAR_EVENT_DESCRIPTION : Z := 0.
Definition CALENDAR_EVENT_CONFIRMATION : Z := 1.
Definition CALENDAR_EVENT_SELECTION : Z := 0.
Definition CALENDAR_EVENT_UPDATE : Z := 1.
(** [ConversationHandler.END] *)
Definition END : Z := -1.

(** [context.user_data]: the keys the handlers write, each absent
    ([None]) or holding a value of the one type it is written with. *)
Record user_data := {
  expense_amount : option float;
  expense_category : option string;
  expense_description : option string;
  event_text : option string;
  event_data : option (gmap string pyval);
  events : option (list listed);
  event_id : option string;
  selected_event : option listed
}.

(** [context.user_data.clear()] leaves the empty dict. *)
Definition clear : user_data :=
  {| expense_amount := None; expense_category := None; expense_description := None;
     event_text := None; event_data := None; events := None; event_id := None;
     selected_event := None |}.

Definition set_expense_amount (v : float) (d : user_data) : user_data :=
  {| expense_amount := Some v; expense_category := expense_category d;
     expense_description := expense_description d; event_text := event_text d;
     event_data := event_data d; events := events d; event_id := event_id d;
     selected_event := selected_event d |}.

Definition set_expense_category (v : string) (d : user_data) : user_data :=
  {| expense_amount := expense_amount d; expense_category := Some v;
     expense_description := expense_description d; event_text := event_text d;
     event_data := event_data d; events := events d; event_id := event_id d;
     selected_event := selected_event d |}.

Definition set_expense_description (v : string) (d : user_data) : user_data :=
  {| expense_amount := expense_amount d; expense_category := expense_category d;
     expense_description := Some v; event_text := event_text d;
     event_data := event_data d; events := events d; event_id := event_id d;
     selected_event := selected_event d |}.

Definition set_event_text (v : string) (d : user_data) : user_data :=
  {| expense_amount := expense_amount d; expense_category := expense_category d;
     expense_description := expense_description d; event_text := Some v;
     event_data := event_data d; events := events d; event_id := event_id d;
     selected_event := selected_event d |}.

Definition set_event_data (v : gmap string pyval) (d : user_data) : user_data :=
  {| expense_amount := expense_amount d; expense_category := expense_category d;
     expense_description := expense_description d; event_text := event_text d;
     event_data := Some v; events := events d; event_id := event_id d;
     selected_event := selected_event d |}.

Definition set_events (v : list listed) (d : user_data) : user_data :=
  {| expense_amount := expense_amount d; expense_category := expense_category d;
     expense_description := expense_description d; event_text := event_text d;
     event_data := event_data d; events := Some v; event_id := event_id d;
     selected_event := selected_event d |}.

Definition set_event_id (v : string) (d : user_data) : user_data :=
  {| expense_amount := expense_amount d; expense_category := expense_category d;
     expense_description := expense_description d; event_text := event_text d;
     event_data := event_data d; events := events d; event_id := Some v;
     selected_event := selected_event d |}.

Definition set_selected_event (v : listed) (d : user_data) : user_data :=
  {| expense_amount := expense_amount d; expense_category := expense_category d;
     expense_description := expense_description d; event_text := event_text d;
     event_data := event_data d; events := events d; event_id := event_id d;
     selected_event := Some v |}.

(** An incoming update: a text message that is not a command, a command
    with its arguments, or the press of an inline button. *)
Inductive update :=
| Text (text : string)
| Command (name : string) (args : list string)
| CallbackQuery (data : string).

(** The services at the time of a handler call: the worksheet, the
    calendar, the answer to a listing request, whether an API key is set,
    the answer of the language model to a request, the id the calendar
    gives to an inserted event, and the clock. *)
Record world := {
  sheets : sheets_manager.service;
  calendar : calendar_manager.service;
  upcoming : calendar_manager.listing;
  openai_client : bool;
  answer : nlp_processor.completion;
  new_id : string;
  now : datetime
}.

Definition with_sheets (s : sheets_manager.service) (w : world) : world :=
  {| sheets := s; calendar := calendar w; upcoming := upcoming w;
     openai_client := openai_client w; answer := answer w; new_id := new_id w;
     now := now w |}.

Definition with_calendar (c : calendar_manager.service) (w : world) : world :=
  {| sheets := sheets w; calendar := c; upcoming := upcoming w;
     openai_client := openai_client w; answer := answer w; new_id := new_id w;
     now := now w |}.

(** What a handler sends.  A text is the concatenation of its parts; the
    inline keyboards are left out; the texts that render datetimes with
    [strftime] or enumerate events are named by the data they render. *)
Inductive output :=
| reply_text (text : list message)
| edit_message_text (text : list message)
| reply_confirmation (event_data : gmap string pyval)
| edit_created (event_data : gmap string pyval)
| reply_events (events : list listed) (suffix : string)
| edit_selected (event : listed)
| delete_wait_message
| query_answer.

(** How a handler ends: it returns the next state, or an exception
    escapes it. *)
Inductive ending :=
| Return (state : Z)
| Raise.

Record step := {
  next : ending;
  out : list output;
  data : user_data;
  after : world
}.

Definition nl : string := String "010"%char "".

Definition nlp_message (p : nlp_processor.payload) : list message :=
  match p with
  | nlp_processor.Message m => [m]
  | nlp_processor.Data _ => []
  | nlp_processor.EventId id => [Msg id]
  end.

(** ** Expense flow *)

Definition add_expense_start (w : world) (d : user_data) : step :=
  {| next := Return EXPENSE_AMOUNT;
     out := [reply_text [Msg "Inserisci l'importo della spesa:"]];
     data := d; after := w |}.

Definition add_expense_amount (w : world) (d : user_data) (text : string) : step :=
  match float_of_str (Py.replace "," "." text) with
  | Some amount =>
      {| next := Return EXPENSE_CATEGORY;
         out := [reply_text [Msg "Seleziona la categoria della spesa:"]];
         data := set_expense_amount amount d; after := w |}
  | None =>
      {| next := Return EXPENSE_AMOUNT;
         out := [reply_text [Msg "L'importo deve essere un numero. Riprova:"]];
         data := d; after := w |}
  end.

Definition add_expense_category (w : world) (d : user_data) (query_data : string) : step :=
  let category := Py.replace "cat_" "" query_data in
  {| next := Return EXPENSE_DESCRIPTION;
     out := [query_answer;
             edit_message_text
               [Msg ("Categoria selezionata: " +:+ category +:+ nl +:+ nl
                     +:+ "Inserisci una descrizione per la spesa (o invia /skip per saltare):")]];
     data := set_expense_category category d; after := w |}.

Definition add_expense_end (w : world) (d : user_data) (u : update) : step :=
  let amount :=
    match expense_amount d with
    | Some x => sheets_manager.AmountFloat x
    | None => sheets_manager.AmountNone
    end in
  let category := expense_category d in
  let description := default "" (expense_description d) in
  match sheets_manager.add_expense (sheets w) (now w) amount category description with
  | None => {| next := Raise; out := []; data := d; after := w |}
  | Some ((success, message), sheets') =>
      {| next := Return END;
         out := [match u with
                 | CallbackQuery _ => edit_message_text [Msg message]
                 | _ => reply_text [Msg message]
                 end];
         data := clear; after := with_sheets sheets' w |}
  end.

Definition skip_expense_description (w : world) (d : user_data) (u : update) : step :=
  add_expense_end w (set_expense_description "" d) u.

Definition add_expense_description (w : world) (d : user_data) (u : update)
    (text : string) : step :=
  add_expense_end w (set_expense_description text d) u.

Definition cancel (w : world) (d : user_data) : step :=
  {| next := Return END;
     out := [reply_text [Msg "Operazione annullata."]];
     data := clear; after := w |}.

(** ** Report commands *)

Definition get_expense_report (w : world) (command : string) (args : list string)
    : list message + (bool * sheets_manager.payload) :=
  let command := Py.lower command in
  let period :=
    if String.eqb command "/report_giorno" then "day"
    else if String.eqb command "/report_settimana" then "week"
    else if String.eqb command "/report_mese" then "month"
    else if String.eqb command "/report_anno" then "year"
    else "month" in
  match args with
  | [] => inr (sheets_manager.get_expense_report (sheets w) (now w) period None)
  | _ =>
      let category := Py.join " " args in
      if negb (bool_decide (category ∈ config.EXPENSE_CATEGORIES))
      then inl [Msg sheets_manager.invalid_category_message]
      else inr (sheets_manager.get_expense_report (sheets w) (now w) period (Some category))
  end.

(** ** Add-event flow *)

Definition add_event_start (w : world) (d : user_data) : step :=
  {| next := Return CALENDAR_EVENT_DESCRIPTION;
     out := [reply_text
               [Msg ("Descrivi l'evento che vuoi aggiungere al calendario." +:+ nl
                     +:+ "Esempio: 'Riunione di lavoro domani alle 15:00 in ufficio'")]];
     data := d; after := w |}.

Definition add_event_description (w : world) (d : user_data) (text : string) : step :=
  let d := set_event_text text d in
  let wait := reply_text [Msg "Sto elaborando la tua richiesta..."] in
  match (nlp_processor.parse_event_request (openai_client w) (answer w) text).1 with
  | (true, nlp_processor.Data result) =>
      match result !! "summary", result !! "start_time", result !! "end_time" with
      | Some _, Some (PDatetime _), Some (PDatetime _) =>
          {| next := Return CALENDAR_EVENT_CONFIRMATION;
             out := [wait; delete_wait_message; reply_confirmation result];
             data := set_event_data result d; after := w |}
      | _, _, _ =>
          {| next := Raise; out := [wait; delete_wait_message];
             data := set_event_data result d; after := w |}
      end
  | (_, result) =>
      {| next := Return CALENDAR_EVENT_DESCRIPTION;
         out := [wait; delete_wait_message;
                 reply_text ([Msg "Errore: "] ++ nlp_message result ++
                             [Msg (nl +:+ nl +:+
                                   "Riprova con una descrizione più chiara o usa /cancel per annullare.")])];
         data := d; after := w |}
  end.

Definition add_event_confirmation (w : world) (d : user_data) (query_data : string) : step :=
  if String.eqb query_data "event_cancel" then
    {| next := Return END;
       out := [query_answer; edit_message_text [Msg "Creazione evento annullata."]];
       data := clear; after := w |}
  else
    match event_data d with
    | None => {| next := Raise; out := [query_answer]; data := d; after := w |}
    | Some event_data =>
        match event_data !! "summary", event_data !! "start_time", event_data !! "end_time" with
        | Some summary, Some start_time, Some end_time =>
            let '((success, result), calendar') :=
              create_event (calendar w) (new_id w) summary start_time end_time
                (dict_get_or_empty event_data "description")
                (dict_get_or_empty event_data "location") in
            if success then
              match isoformat start_time with
              | Some _ =>
                  {| next := Return END;
                     out := [query_answer; edit_created event_data];
                     data := clear; after := with_calendar calendar' w |}
              | None =>
                  {| next := Raise; out := [query_answer];
                     data := d; after := with_calendar calendar' w |}
              end
            else
              {| next := Return END;
                 out := [query_answer;
                         edit_message_text
                           ([Msg "❌ Errore nella creazione dell'evento: "] ++
                            match result with
                            | Message m => [m]
                            | EventId id => [Msg id]
                            end)];
                 data := clear; after := with_calendar calendar' w |}
        | _, _, _ => {| next := Raise; out := [query_answer]; data := d; after := w |}
        end
    end.

(** ** Update-event flow *)

Definition events_text (p : events_payload) : list message :=
  match p with
  | EventsText m => [m]
  | Events _ => []
  end.

Definition update_event_start (w : world) (d : user_data) : step :=
  let wait := reply_text [Msg "Sto recuperando gli eventi..."] in
  match get_upcoming_events (upcoming w) with
  | (false, events) =>
      {| next := Return END;
         out := [wait; delete_wait_message; reply_text ([Msg "Errore: "] ++ events_text events)];
         data := d; after := w |}
  | (true, EventsText m) =>
      {| next := Return END;
         out := [wait; delete_wait_message; reply_text [m]];
         data := d; after := w |}
  | (true, Events events) =>
      {| next := Return CALENDAR_EVENT_SELECTION;
         out := [wait; delete_wait_message; reply_text [Msg "Seleziona l'evento da modificare:"]];
         data := set_events events d; after := w |}
  end.

(** [for event in events: if event['id'] == event_id: ...; break] *)
Definition find_event (event_id : string) (events : list listed) : option listed :=
  List.find (λ event, String.eqb (id event) event_id) events.

Definition update_event_selection (w : world) (d : user_data) (query_data : string) : step :=
  if String.eqb query_data "event_cancel" then
    {| next := Return END;
       out := [query_answer; edit_message_text [Msg "Modifica evento annullata."]];
       data := clear; after := w |}
  else
    let event_id := Py.replace "event_" "" query_data in
    let d := set_event_id event_id d in
    match find_event event_id (default [] (events d)) with
    | None =>
        {| next := Return END;
           out := [query_answer; edit_message_text [Msg "Evento non trovato. Riprova."]];
           data := d; after := w |}
    | Some selected_event =>
        {| next := Return CALENDAR_EVENT_UPDATE;
           out := [query_answer; edit_selected selected_event];
           data := set_selected_event selected_event d; after := w |}
    end.

Definition update_event_changes (w : world) (d : user_data) (text : string) : step :=
  match event_id d with
  | None | Some EmptyString =>
      {| next := Return END;
         out := [reply_text [Msg "Errore: ID evento mancante. Riprova."]];
         data := d; after := w |}
  | Some event_id =>
      let wait := reply_text [Msg "Sto elaborando la tua richiesta..."] in
      match (nlp_processor.parse_event_update_request (openai_client w) (answer w) text event_id).1 with
      | (true, nlp_processor.Data result) =>
          match result !! "event_id" with
          | Some (PStr result_id) =>
              let '((success, message), calendar') :=
                update_event (calendar w) result_id
                  (dict_get result "summary") (dict_get result "start_time")
                  (dict_get result "end_time") (dict_get result "description")
                  (dict_get result "location") in
              {| next := Return END;
                 out := [wait; delete_wait_message;
                         reply_text [Msg (if success then "✅ " else "❌ "); message]];
                 data := clear; after := with_calendar calendar' w |}
          | _ => {| next := Raise; out := [wait; delete_wait_message]; data := d; after := w |}
          end
      | (_, result) =>
          {| next := Return END;
             out := [wait; delete_wait_message;
                     reply_text ([Msg "Errore: "] ++ nlp_message result)];
             data := clear; after := w |}
      end
  end.

(** ** Delete-event flow *)

Definition delete_event_start (w : world) (d : user_data) : step :=
  let wait := reply_text [Msg "Sto recuperando gli eventi..."] in
  match get_upcoming_events (upcoming w) with
  | (false, events) =>
      {| next := Return END;
         out := [wait; delete_wait_message; reply_text ([Msg "Errore: "] ++ events_text events)];
         data := d; after := w |}
  | (true, EventsText m) =>
      {| next := Return END;
         out := [wait; delete_wait_message; reply_text [m]];
         data := d; after := w |}
  | (true, Events events) =>
      {| next := Return CALENDAR_EVENT_SELECTION;
         out := [wait; delete_wait_message;
                 reply_events events
                   (nl +:+ nl +:+
                    "Invia il numero o il nome dell'evento che vuoi cancellare, o l'ID completo.")];
         data := set_events events d; after := w |}
  end.

Definition delete_event_confirmation (w : world) (d : user_data) (event_id : string) : step :=
  let '((success, message), calendar') := delete_event (calendar w) event_id in
  {| next := Return END;
     out := [reply_text [Msg "Sto cancellando l'evento..."]; delete_wait_message;
             reply_text [Msg (if success then "✅ " else "❌ "); message]];
     data := clear; after := with_calendar calendar' w |}.

(** A handler that first sent [sent] and then returns what [s] returns. *)
Definition after_sending (sent : list output) (s : step) : step :=
  {| next := next s; out := sent ++ out s; data := data s; after := after s |}.

(** The numeric branch of [delete_event_selection]: the id at the 1-based
    index the text names, when the text is a number in range. *)
Definition by_number (text : string) (events : list listed) : option string :=
  match Py.match_digits text with
  | Some group =>
      let index := Py.int group - 1 in
      if (0 <=? index) && (index <? Z.of_nat (length events))
      then id <$> events !! Z.to_nat index
      else None
  | None => None
  end.

Definition delete_event_selection (w : world) (d : user_data) (text : string) : step :=
  let events := default [] (events d) in
  match find_event text events with
  | Some event => delete_event_confirmation w d (id event)
  | None =>
      match by_number text events with
      | Some event_id => delete_event_confirmation w d event_id
      | None =>
          let sent := [reply_text [Msg "Sto elaborando la tua richiesta..."];
                       delete_wait_message] in
          match (nlp_processor.parse_event_deletion_request (openai_client w) (answer w)
                   text (nlp_processor.Candidates events)).1 with
          | (true, nlp_processor.EventId result) =>
              after_sending sent (delete_event_confirmation w d result)
          | (true, _) => {| next := Raise; out := sent; data := d; after := w |}
          | (false, result) =>
              {| next := Return CALENDAR_EVENT_SELECTION;
                 out := sent ++
                        [reply_text ([Msg "Errore: "] ++ nlp_message result ++
                                     [Msg (nl +:+ nl +:+ "Riprova o invia /cancel per annullare.")])];
                 data := d; after := w |}
          end
      end
  end.

(** ** The keyboards and the listing command *)

(** [InlineKeyboardButton(text, callback_data=...)] *)
Record button := {
  button_text : string;
  callback_data : string
}.

(** The loop of [add_expense_amount] that lays the category buttons out in
    rows of three: [i] is the index of the next category, [n] the number of
    categories, [row] the row being filled and [keyboard] the rows done. *)
Fixpoint category_rows (n i : Z) (row : list button) (keyboard : list (list button))
    (categories : list string) : list (list button) :=
  match categories with
  | [] => keyboard
  | category :: categories =>
      let row := (row ++ [{| button_text := category;
                             callback_data := "cat_" +:+ category |}])%list in
      if ((i + 1) mod 3 =? 0) || (i =? n - 1)
      then category_rows n (i + 1) [] (keyboard ++ [row])%list categories
      else category_rows n (i + 1) row keyboard categories
  end.

(** The keyboard [add_expense_amount] sends with its question. *)
Definition category_keyboard (categories : list string) : list (list button) :=
  category_rows (Z.of_nat (length categories)) 0 [] [] categories.

(** The rows [update_event_start] makes of the listed events, numbered
    from [i]. *)
Fixpoint event_rows (i : Z) (events : list listed) : list (list button) :=
  match events with
  | [] => []
  | event :: events =>
      [{| button_text := pretty i +:+ ". " +:+ l_summary event +:+ " - " +:+ l_start event;
          callback_data := "event_" +:+ id event |}]
      :: event_rows (i + 1) events
  end.

(** The keyboard [update_event_start] sends: one row for each event, then
    the cancel button. *)
Definition events_keyboard (events : list listed) : list (list button) :=
  (event_rows 1 events
   ++ [[{| button_text := "❌ Annulla"; callback_data := "event_cancel" |}]])%list.

(** [get_events]: the command that lists the coming events. *)
Definition get_events (w : world) : list output :=
  let wait := reply_text [Msg "Sto recuperando gli eventi..."] in
  match get_upcoming_events (upcoming w) with
  | (false, events) =>
      [wait; delete_wait_message; reply_text ([Msg "Errore: "] ++ events_text events)]
  | (true, events) =>
      [wait; delete_wait_message; reply_text [format_events_message events]]
  end.

(** ** The four conversation handlers of [main()] *)

Inductive flow :=
| expense_conv_handler
| event_conv_handler
| update_event_conv_handler
| delete_event_conv_handler.

(** [CommandHandler("cancel", cancel)], the fallback of every flow. *)
Definition fallbacks (w : world) (d : user_data) (u : update) : option step :=
  match u with
  | Command name _ => if String.eqb name "cancel" then Some (cancel w d) else None
  | _ => None
  end.

(** The handlers registered for a state of a flow, tried in order; [None]
    when none of them takes the update. *)
Definition states (f : flow) (state : Z) (w : world) (d : user_data) (u : update)
    : option step :=
  match f, u with
  | expense_conv_handler, Text text =>
      if state =? EXPENSE_AMOUNT then Some (add_expense_amount w d text)
      else if state =? EXPENSE_DESCRIPTION then Some (add_expense_description w d u text)
      else None
  | expense_conv_handler, CallbackQuery query_data =>
      if (state =? EXPENSE_CATEGORY) && Py.startswith "cat_" query_data
      then Some (add_expense_category w d query_data) else None
  | expense_conv_handler, Command name _ =>
      if (state =? EXPENSE_DESCRIPTION) && String.eqb name "skip"
      then Some (skip_expense_description w d u) else None
  | event_conv_handler, Text text =>
      if state =? CALENDAR_EVENT_DESCRIPTION then Some (add_event_description w d text)
      else None
  | event_conv_handler, CallbackQuery query_data =>
      if (state =? CALENDAR_EVENT_CONFIRMATION) && Py.startswith "event_" query_data
      then Some (add_event_confirmation w d query_data) else None
  | update_event_conv_handler, CallbackQuery query_data =>
      if (state =? CALENDAR_EVENT_SELECTION) && Py.startswith "event_" query_data
      then Some (update_event_selection w d query_data) else None
  | update_event_conv_handler, Text text =>
      if state =? CALENDAR_EVENT_UPDATE then Some (update_event_changes w d text)
      else None
  | delete_event_conv_handler, Text text =>
      if state =? CALENDAR_EVENT_SELECTION then Some (delete_event_selection w d text)
      else None
  | _, _ => None
  end.

(** The entry point of a flow. *)
Definition entry_points (f : flow) (w : world) (d : user_data) (u : update)
    : option step :=
  match u with
  | Command name _ =>
      match f with
      | expense_conv_handler =>
          if String.eqb name "spesa" then Some (add_expense_start w d) else None
      | event_conv_handler =>
          if String.eqb name "evento" then Some (add_event_start w d) else None
      | update_event_conv_handler =>
          if String.eqb name "modifica_evento" then Some (update_event_start w d) else None
      | delete_event_conv_handler =>
          if String.eqb name "cancella_evento" then Some (delete_event_start w d) else None
      end
  | _ => None
  end.

(** One update given to a flow whose conversation is in [state] ([None]:
    no conversation is open).  The result is [None] when the flow does not
    take the update. *)
Definition handle_update (f : flow) (state : option Z) (w : world) (d : user_data)
    (u : update) : option step :=
  match state with
  | None => entry_points f w d u
  | Some state =>
      match states f state w d u with
      | Some s => Some s
      | None => fallbacks w d u
      end
  end.

End Controller.
End main.


(* ===================================================================== *)
(** * Concrete libraries and data for the examples *)
(* ===================================================================== *)

Module Samples.

(** ** Decimal numerals as exact rationals

    A stand-in for the interpreter's float on the numerals [123] and
    [123.45], with an optional sign. *)

Fixpoint split_at_dot (s : string) : string * option string :=
  match s with
  | EmptyString => (EmptyString, None)
  | String c s' =>
      if Ascii.eqb c "."%char then (EmptyString, Some s')
      else let '(a, b) := split_at_dot s' in (String c a, b)
  end.

Definition unsigned_decimal (s : string) : option Q :=
  let '(whole, frac) := split_at_dot s in
  let frac := default "" frac in
  if Py.all_digits whole && Py.all_digits frac
     && negb (String.eqb (whole +:+ frac) "")
  then Some (Qmake (Py.int (whole +:+ frac)) (Z.to_pos (10 ^ Z.of_nat (String.length frac))))
  else None.

Definition decimal_of_str (s : string) : option Q :=
  match Py.strip s with
  | String "-" s' => Qopp <$> unsigned_decimal s'
  | String "+" s' => unsigned_decimal s'
  | s' => unsigned_decimal s'
  end.

Fixpoint fraction_digits (fuel : nat) (num den : Z) : string :=
  match fuel with
  | O => ""
  | S fuel =>
      if num =? 0 then ""
      else String (ascii_of_nat (Z.to_nat (48 + 10 * num / den)))
                  (fraction_digits fuel (10 * num mod den) den)
  end.

Definition decimal_str (x : Q) : string :=
  let n := Z.abs (Qnum x) in
  let d := Zpos (Qden x) in
  let frac := fraction_digits 17 (n mod d) d in
  (if Qnum x <? 0 then "-" else "")
  +:+ pretty (n / d) +:+ "." +:+ (if String.eqb frac "" then "0" else frac).

Definition decimal : PyFloat :=
  {| float := Q; float_of_str := decimal_of_str; float_str := decimal_str |}.

(** ** A date parser for the format the extractor asks the model for:
    [YYYY-MM-DD HH:MM] *)

Definition field (start len : nat) (s : string) : option Z :=
  let f := String.substring start len s in
  if Py.all_digits f && (String.length f =? len)%nat then Some (Py.int f) else None.

Definition sep_at (i : nat) (c : ascii) (s : string) : bool :=
  match String.get i s with
  | Some c' => Ascii.eqb c c'
  | None => false
  end.

Definition parse_minutes (s : string) : option datetime :=
  if (String.length s =? 16)%nat
     && sep_at 4 "-" s && sep_at 7 "-" s && sep_at 10 " " s && sep_at 13 ":" s
  then
    y ← field 0 4 s; m ← field 5 2 s; d ← field 8 2 s;
    h ← field 11 2 s; mi ← field 14 2 s;
    if (1 <=? y) && (1 <=? m) && (m <=? 12) && (1 <=? d) && (d <=? days_in_month y m)
       && (h <? 24) && (mi <? 60)
    then Some (make y m d h mi 0 0)
    else None
  else None.

Definition minutes_parser : DateParser := {| parser_parse := parse_minutes |}.

(** ** A week of January 2024: the 8th is a Monday *)

Definition sunday_7 : datetime := make 2024 1 7 0 0 0 0.
Definition monday_8 : datetime := make 2024 1 8 0 0 0 0.
Definition tuesday_9 : datetime := make 2024 1 9 0 0 0 0.
Definition friday_12 : datetime := make 2024 1 12 0 0 0 0.
Definition wednesday_10_1430 : datetime := make 2024 1 10 14 30 0 0.

Definition spent (day : datetime) (amount : Q) (category : string)
    : @sheets_manager.record decimal :=
  @sheets_manager.Build_record decimal (Some day) amount category "".

Definition january_ledger : list (@sheets_manager.record decimal) :=
  [ spent sunday_7 (10 # 1) "Casa"; spent monday_8 (25 # 2) "Trasporti";
    spent tuesday_9 (7 # 1) "Alimentari"; spent friday_12 (3 # 1) "Altro" ].

(** ** Replies of the language model: flat JSON objects of strings and nulls *)

Definition quote : string := String (ascii_of_nat 34) "".

Definition json_value (v : option string) : string :=
  match v with
  | None => "null"
  | Some s => quote +:+ s +:+ quote
  end.

Definition json_field (kv : string * option string) : string :=
  quote +:+ kv.1 +:+ quote +:+ ": " +:+ json_value kv.2.

(** The text of the object, for strings that need no escape. *)
Definition json_object (fields : list (string * option string)) : string :=
  "{" +:+ Py.join ", " (json_field <$> fields) +:+ "}".

(** What [json.loads] makes of that text. *)
Definition loaded_object (fields : list (string * option string)) : pyval :=
  PDict (list_to_map ((λ kv, (kv.1, from_option PStr PNone kv.2)) <$> fields)).

Definition json_reply (fields : list (string * option string)) : nlp_processor.completion :=
  nlp_processor.Reply (json_object fields) (Some (loaded_object fields)).

(** ** Two listed events *)

Definition listed_event (id summary start : string) : calendar_manager.listed :=
  {| calendar_manager.id := id; calendar_manager.l_summary := summary;
     calendar_manager.l_start := start; calendar_manager.l_location := "";
     calendar_manager.l_description := "" |}.

Definition two_events : list calendar_manager.listed :=
  [ listed_event "a1b2c" "Riunione" "10/01/2024 15:00";
    listed_event "d3e4f" "Cena" "11/01/2024 20:00" ].

Definition riunione : calendar_manager.event :=
  {| calendar_manager.summary := Some (PStr "Riunione");
     calendar_manager.location := Some (PStr "Ufficio");
     calendar_manager.description := Some (PStr "Progetto");
     calendar_manager.start_dateTime := Some (make 2024 1 10 15 0 0 0);
     calendar_manager.start_timeZone := Some "Europe/Rome";
     calendar_manager.end_dateTime := Some (make 2024 1 10 16 0 0 0);
     calendar_manager.end_timeZone := Some "Europe/Rome";
     calendar_manager.reminders_useDefault := Some true |}.

Definition cena : calendar_manager.event :=
  {| calendar_manager.summary := Some (PStr "Cena");
     calendar_manager.location := Some (PStr "");
     calendar_manager.description := Some (PStr "");
     calendar_manager.start_dateTime := Some (make 2024 1 11 20 0 0 0);
     calendar_manager.start_timeZone := Some "Europe/Rome";
     calendar_manager.end_dateTime := Some (make 2024 1 11 21 0 0 0);
     calendar_manager.end_timeZone := Some "Europe/Rome";
     calendar_manager.reminders_useDefault := Some true |}.

Definition one_event_calendar : gmap string calendar_manager.event :=
  {[ "a1b2c" := riunione ]}.

Definition two_event_calendar : gmap string calendar_manager.event :=
  <[ "d3e4f" := cena ]> one_event_calendar.

(** The same two events when the calendar has given the first the id "2". *)
Definition two_events_short_id : list calendar_manager.listed :=
  [ listed_event "2" "Riunione" "10/01/2024 15:00";
    listed_event "d3e4f" "Cena" "11/01/2024 20:00" ].

Definition short_id_calendar : gmap string calendar_manager.event :=
  <[ "d3e4f" := cena ]> {[ "2" := riunione ]}.

(** ** Services and sessions *)

#[local] Existing Instance decimal.
#[local] Existing Instance minutes_parser.

(** The services on Wednesday 2024-01-10 at 14:30, the language model
    answering [content] to the next request. *)
Definition services (calendar : gmap string calendar_manager.event)
    (listing : list calendar_manager.listed) (reply : nlp_processor.completion) : main.world :=
  {| main.sheets := sheets_manager.Worksheet january_ledger;
     main.calendar := calendar_manager.Calendar calendar;
     main.upcoming := calendar_manager.Items listing;
     main.openai_client := true;
     main.answer := reply;
     main.new_id := "g7h8i";
     main.now := wednesday_10_1430 |}.

(** The session of the delete flow after the listing. *)
Definition listing_session (listing : list calendar_manager.listed) : main.user_data :=
  main.set_events listing main.clear.

(** The session of the expense flow after the amount 12.50 and the
    category "Trasporti". *)
Definition expense_session : main.user_data :=
  main.set_expense_category "Trasporti" (main.set_expense_amount (1250 # 100) main.clear).

End Samples.

(* ===================================================================== *)
(** * Vocabulary of the specification *)
(* ===================================================================== *)

(** Midnight of the Monday of the week of [now]. *)
Definition monday_midnight (now : datetime) : datetime :=
  (toordinal now - weekday now) * US_PER_DAY.

(** The window the specification gives to the weekly report:
    from the most recent Monday at 00:00 up to [now]. *)
Definition in_week_window (now t : datetime) : Prop :=
  monday_midnight now ≤ t ∧ t ≤ now.

(** [now] is a datetime of 0001-01-07 or later, so that the Monday of its
    week is a date the interpreter can hold. *)
Definition after_first_week (now : datetime) : Prop :=
  MINORDINAL + 6 ≤ toordinal now ≤ MAXORDINAL.

(** [text.replace(',', '.')] seen character by character. *)
Definition comma_to_dot (c : ascii) : ascii :=
  if Ascii.eqb c ","%char then "."%char else c.

Fixpoint map_chars (f : ascii → ascii) (s : string) : string :=
  match s with
  | EmptyString => EmptyString
  | String c s' => String (f c) (map_chars f s')
  end.

(** [text] is the decimal numeral of [i]: digits only, read in base ten. *)
Definition numeral (text : string) (i : Z) : Prop :=
  Py.match_digits text = Some text ∧ Py.int text = i.

(** A time argument of [update_event] as the update flow passes it: a
    datetime, or a value that counts as false. *)
Definition datetime_or_false (v : pyval) : Prop :=
  truthy v = false ∨ ∃ t, v = PDatetime t.

Section LedgerVocabulary.
Context `{PyFloat}.

(** Every date cell of the worksheet converts. *)
Definition all_dated (records : list sheets_manager.record) : Prop :=
  Forall (λ r, is_Some (sheets_manager.Data r)) records.

End LedgerVocabulary.

Section SessionVocabulary.
Context `{PyFloat} `{DateParser}.
Import main.


(** The two places where the update flow stops on a lookup in the session
    itself, before any commit: the pressed button names no stored event, or
    no event id is stored. *)
Definition lookup_fails (f : flow) (state : Z) (d : user_data) (u : update) : Prop :=
  f = update_event_conv_handler ∧
  match u with
  | CallbackQuery query_data =>
      state = CALENDAR_EVENT_SELECTION
      ∧ query_data ≠ "event_cancel"
      ∧ find_event (Py.replace "event_" "" query_data) (default [] (events d)) = None
  | Text _ =>
      state = CALENDAR_EVENT_UPDATE
      ∧ (event_id d = None ∨ event_id d = Some "")
  | Command _ _ => False
  end.





End SessionVocabulary.

(* ===================================================================== *)
(** * Properties of the interpreter's operations *)
(* ===================================================================== *)

Lemma US_PER_DAY_eq : US_PER_DAY = 86400000000.
Proof. reflexivity. Qed.

Lemma US_PER_HOUR_eq : US_PER_HOUR = 3600000000.
Proof. reflexivity. Qed.

Lemma timedelta_days d : timedelta d 0 = d * US_PER_DAY.
Proof. unfold timedelta. lia. Qed.

Lemma timedelta_one_hour : timedelta 0 1 = US_PER_HOUR.
Proof. reflexivity. Qed.

Lemma weekday_range t : 0 ≤ weekday t < 7.
Proof. unfold weekday. apply Z.mod_pos_bound. lia. Qed.

Lemma ordinal_bounds t :
  toordinal t * US_PER_DAY ≤ t < toordinal t * US_PER_DAY + US_PER_DAY.
Proof.
  unfold toordinal. rewrite US_PER_DAY_eq.
  pose proof (Z.div_mod t 86400000000 ltac:(lia)).
  pose proof (Z.mod_pos_bound t 86400000000 ltac:(lia)). lia.
Qed.

(** [now - timedelta(days=now.weekday())] keeps the time of day of [now]. *)
Lemma start_of_week_value now :
  after_first_week now →
  sub now (timedelta (weekday now) 0) = Some (now - weekday now * US_PER_DAY).
Proof.
  intros [Hlo Hhi]. unfold sub, add. rewrite timedelta_days.
  pose proof (weekday_range now) as Hw. pose proof (ordinal_bounds now) as Hb.
  replace (now + - (weekday now * US_PER_DAY)) with (now - weekday now * US_PER_DAY) by lia.
  assert (representable (now - weekday now * US_PER_DAY) = true) as ->; [|done].
  unfold representable, MINORDINAL, MAXORDINAL in *. rewrite US_PER_DAY_eq in *.
  apply andb_true_iff. split; [apply Z.leb_le | apply Z.ltb_lt]; lia.
Qed.

Lemma start_of_week_bounds now :
  monday_midnight now ≤ now - weekday now * US_PER_DAY
  < monday_midnight now + US_PER_DAY.
Proof.
  unfold monday_midnight. pose proof (ordinal_bounds now). lia.
Qed.

Lemma replace_comma_map s : Py.replace "," "." s = map_chars comma_to_dot s.
Proof.
  unfold Py.replace. induction s as [|c s IH]; [done|].
  cbn [Py.replace_scan map_chars Py.startswith String.length Nat.pred].
  unfold comma_to_dot. rewrite (Ascii.eqb_sym "," c).
  destruct (Ascii.eqb c ",") eqn:E; cbn; by rewrite IH.
Qed.

Lemma comma_to_dot_idem c : comma_to_dot (comma_to_dot c) = comma_to_dot c.
Proof. unfold comma_to_dot. destruct (Ascii.eqb c ",") eqn:E; [done | by rewrite E]. Qed.

Lemma replace_comma_idem s :
  Py.replace "," "." (Py.replace "," "." s) = Py.replace "," "." s.
Proof.
  rewrite !replace_comma_map. induction s as [|c s IH]; [done|].
  cbn. by rewrite comma_to_dot_idem, IH.
Qed.

Lemma comma_to_dot_not_comma c : Ascii.eqb "," (comma_to_dot c) = false.
Proof.
  unfold comma_to_dot. destruct (Ascii.eqb c ",") eqn:E; [done|].
  by rewrite Ascii.eqb_sym.
Qed.

(** No comma is left in the text the amount is read from. *)
Lemma map_comma_to_dot_no_comma s : Py.contains "," (map_chars comma_to_dot s) = false.
Proof.
  induction s as [|c s IH]; [done|].
  change (Py.contains "," (map_chars comma_to_dot (String c s)))
    with ((if Ascii.eqb "," (comma_to_dot c) then true else false)
          || Py.contains "," (map_chars comma_to_dot s)).
  by rewrite comma_to_dot_not_comma, IH.
Qed.

(* ===================================================================== *)
(** * The expense ledger *)
(* ===================================================================== *)

Section LedgerProperties.
Context `{PyFloat}.
Import sheets_manager.

Lemma to_datetime_all_dated records :
  all_dated records → is_Some (to_datetime records).
Proof.
  induction 1 as [|r rs [t Ht] _ [df Hdf]]; cbn; [done|].
  rewrite Ht, Hdf. done.
Qed.

Lemma to_datetime_elem records df :
  to_datetime records = Some df →
  ∀ t r, (t, r) ∈ df ↔ r ∈ records ∧ Data r = Some t.
Proof.
  revert df. induction records as [|r0 rs IH]; intros df Hdf t r; cbn in Hdf.
  - inversion Hdf; subst. split; [intros Hin | intros [Hin _]]; inversion Hin.
  - destruct (Data r0) as [t0|] eqn:E0; [|done].
    destruct (to_datetime rs) as [ds|]; [|done].
    inversion Hdf; subst; clear Hdf.
    rewrite elem_of_cons, (IH ds eq_refl t r), elem_of_cons. split.
    + intros [Heq | [Hin Ht]]; [inversion Heq; subst; auto | auto].
    + intros [[-> | Hin] Ht]; [left; congruence | auto].
Qed.

Lemma to_datetime_nil_inv records :
  to_datetime records = Some [] → records = [].
Proof.
  destruct records as [|r rs]; [done|]. cbn.
  destruct (Data r); [|done]. by destruct (to_datetime rs).
Qed.

(** The date filter raises for the weekly report only. *)
Lemma filter_period_is_Some now period df :
  after_first_week now → is_Some (filter_period now period df).
Proof.
  intros Hnow. unfold filter_period. rewrite (start_of_week_value now Hnow).
  repeat (destruct (String.eqb period _); [done|]). done.
Qed.

Lemma filter_period_week now df :
  after_first_week now →
  filter_period now "week" df =
    Some (filter (λ r, now - weekday now * US_PER_DAY ≤ r.1) df, "questa settimana").
Proof.
  intros Hnow. unfold filter_period. cbn [String.eqb Ascii.eqb Bool.eqb].
  by rewrite (start_of_week_value now Hnow).
Qed.

(** Without a category, the report is on the rows that pass the date filter. *)
Lemma reported_rows_no_category records df now period df' period_text :
  to_datetime records = Some df →
  filter_period now period df = Some (df', period_text) →
  reported_rows (get_expense_report (Worksheet records) now period None) = snd <$> df'.
Proof.
  intros Hdf Hf. destruct records as [|r rs].
  - cbn in Hdf. inversion Hdf; subst.
    unfold filter_period in Hf.
    repeat (destruct (String.eqb period _); [try (destruct (sub _ _)); inversion Hf; subst; done|]).
    by inversion Hf.
  - unfold get_expense_report. rewrite Hdf, Hf. cbn [truthy_str].
    by destruct df'.
Qed.

(** The rows of the weekly report are those dated at or after the time of
    day of [now] on the Monday of its week: the bound keeps the time of day
    of [now], and nothing bounds the dates from above. *)
Lemma week_report_rows_exact records now r :
  all_dated records → after_first_week now →
  r ∈ reported_rows (get_expense_report (Worksheet records) now "week" None)
  ↔ r ∈ records ∧ ∃ t, Data r = Some t ∧ now - weekday now * US_PER_DAY ≤ t.
Proof.
  intros Hd Hnow. destruct (to_datetime_all_dated _ Hd) as [df Hdf].
  rewrite (reported_rows_no_category _ _ _ _ _ _ Hdf (filter_period_week now df Hnow)).
  rewrite list_elem_of_fmap. split.
  - intros [[t r'] [-> Hin]]. apply list_elem_of_filter in Hin as [Hle Hin].
    apply (to_datetime_elem _ _ Hdf) in Hin as [Hin Ht].
    cbn in *. eauto.
  - intros [Hin [t [Ht Hle]]]. exists (t, r). split; [done|].
    apply list_elem_of_filter. split; [done|].
    by apply (to_datetime_elem _ _ Hdf).
Qed.

(** C1, as amended.  The weekly report includes every row dated on a day
    after the most recent Monday, whether or not that day is later than
    [now], and excludes every row dated before that Monday at 00:00, so the
    row of the Sunday just before it is excluded.  Nothing is said of a row
    dated that Monday. *)
Theorem week_report_window records now r t :
  all_dated records → after_first_week now →
  r ∈ records → Data r = Some t →
  (monday_midnight now + US_PER_DAY ≤ t →
     r ∈ reported_rows (get_expense_report (Worksheet records) now "week" None))
  ∧ (t < monday_midnight now →
     r ∉ reported_rows (get_expense_report (Worksheet records) now "week" None))
  ∧ (t = monday_midnight now - US_PER_DAY →
     r ∉ reported_rows (get_expense_report (Worksheet records) now "week" None)).
Proof.
  intros Hd Hnow Hin Ht. pose proof (start_of_week_bounds now) as Hb.
  assert (∀ t', t' < monday_midnight now → Data r = Some t' →
            r ∉ reported_rows (get_expense_report (Worksheet records) now "week" None)) as Hout.
  { intros t' Hlt Ht' Hr. apply week_report_rows_exact in Hr as [_ [t'' [Ht'' Hle]]]; [|done..].
    rewrite Ht' in Ht''. inversion Ht''; subst. lia. }
  split; [|split].
  - intros Hle. apply week_report_rows_exact; [done..|]. split; [done|]. exists t. split; [done|lia].
  - intros Hlt. by apply (Hout t).
  - intros ->. apply (Hout (monday_midnight now - US_PER_DAY)); [|done].
    rewrite US_PER_DAY_eq. lia.
Qed.

(** The slip left out of C1: whenever [now] is not exactly midnight, a row
    dated the Monday of the current week is missing from the weekly report. *)
Lemma week_report_misses_monday records now r :
  all_dated records → after_first_week now →
  0 < time_of_day now →
  Data r = Some (monday_midnight now) →
  r ∉ reported_rows (get_expense_report (Worksheet records) now "week" None).
Proof.
  intros Hd Hnow Htod Ht Hr.
  apply week_report_rows_exact in Hr as [_ [t [Ht' Hle]]]; [|done..].
  rewrite Ht in Ht'. inversion Ht'; subst. revert Hle Htod.
  unfold monday_midnight, time_of_day, toordinal. rewrite US_PER_DAY_eq.
  pose proof (Z.div_mod now 86400000000 ltac:(lia)). lia.
Qed.

(** C9.  On a worksheet without records, the report is the successful
    text "Nessuna spesa registrata." for every period and every category
    argument, valid or not: the check for an empty worksheet comes before
    the validation of the category, so the rejection of an invalid category
    does not happen. *)
Theorem empty_ledger_report now period category :
  get_expense_report (Worksheet []) now period category
  = (true, Text "Nessuna spesa registrata.")
  ∧ get_expense_report (Worksheet []) now period category
    ≠ (false, Text invalid_category_message).
Proof. split; [reflexivity | discriminate]. Qed.

Lemma not_in_categories_spec (category : string) :
  not_in_categories (Some category) = true ↔ category ∉ config.EXPENSE_CATEGORIES.
Proof.
  unfold not_in_categories. rewrite negb_true_iff, bool_decide_eq_false. done.
Qed.

(** C3, as amended.  For a category outside the configured set,
    [add_expense] rejects with the invalid-category message whatever the
    amount, the description and the state of the spreadsheet; and
    [get_expense_report], when the category is not the empty string and the
    worksheet holds at least one record (all dates readable), rejects with
    the same message, which lists the configured categories. *)
Theorem invalid_category_rejected (category : string) :
  category ∉ config.EXPENSE_CATEGORIES →
  (∀ svc now amount description,
     add_expense svc now amount (Some category) description
     = Some ((false, invalid_category_message), svc))
  ∧ (∀ records now period,
       category ≠ "" → records ≠ [] → all_dated records → after_first_week now →
       get_expense_report (Worksheet records) now period (Some category)
       = (false, Text invalid_category_message))
  ∧ invalid_category_message
    = "Categoria non valida. Categorie disponibili: Alimentari, Trasporti, Casa, Bollette, Salute, Intrattenimento, Abbigliamento, Regali, Altro".
Proof.
  intros Hcat. apply not_in_categories_spec in Hcat. split; [|split; [|done]].
  - intros svc now amount description. unfold add_expense. by rewrite Hcat.
  - intros records now period Hne Hrec Hd Hnow.
    destruct (to_datetime_all_dated _ Hd) as [df Hdf].
    destruct (filter_period_is_Some now period df Hnow) as [[df' pt] Hf].
    unfold get_expense_report. destruct records as [|r rs]; [done|].
    rewrite Hdf, Hf, Hcat. destruct category; [done|]. done.
Qed.

End LedgerProperties.

Section LedgerChecks.
#[local] Existing Instance Samples.decimal.
Import sheets_manager Samples.

Lemma wednesday_after_first_week : after_first_week wednesday_10_1430.
Proof. unfold after_first_week. vm_compute. split; discriminate. Qed.

Lemma january_ledger_dated : all_dated january_ledger.
Proof. repeat constructor; by eexists. Qed.

(** The weekly report of Wednesday 2024-01-10 at 14:30 on the January
    ledger holds the rows of Tuesday the 9th and of Friday the 12th. *)
Lemma january_week_report :
  reported_rows (get_expense_report (Worksheet january_ledger) wednesday_10_1430 "week" None)
  = [ spent tuesday_9 (7 # 1) "Alimentari"; spent friday_12 (3 # 1) "Altro" ].
Proof. reflexivity. Qed.

(** C1, as stated, fails on the January ledger at Wednesday 2024-01-10
    14:30, in both directions: the row of Monday the 8th lies in the window
    and is not reported, and the row of Friday the 12th, which lies after
    [now], is reported. *)
Lemma week_report_window_counterexample :
  let reported :=
    reported_rows (get_expense_report (Worksheet january_ledger) wednesday_10_1430 "week" None) in
  (∃ r t, r ∈ january_ledger ∧ Data r = Some t ∧ in_week_window wednesday_10_1430 t
          ∧ r ∉ reported)
  ∧ (∃ r t, r ∈ reported ∧ Data r = Some t ∧ ¬ in_week_window wednesday_10_1430 t).
Proof.
  cbv zeta. rewrite january_week_report. split.
  - exists (spent monday_8 (25 # 2) "Trasporti"), monday_8.
    split; [apply list_elem_of_further, list_elem_of_here|].
    split; [reflexivity|]. split.
    + unfold in_week_window. vm_compute. split; discriminate.
    + intros Hin.
      apply elem_of_cons in Hin as [Heq | Hin]; [discriminate Heq|].
      apply elem_of_cons in Hin as [Heq | Hin]; [discriminate Heq|].
      inversion Hin.
  - exists (spent friday_12 (3 # 1) "Altro"), friday_12.
    split; [apply list_elem_of_further, list_elem_of_here|].
    split; [reflexivity|].
    unfold in_week_window. vm_compute. intros [_ Hle]. by apply Hle.
Qed.

(** C1, as amended, on the January ledger: the Tuesday row is reported and
    the row of Sunday the 7th is not. *)
Lemma week_report_window_witness :
  spent tuesday_9 (7 # 1) "Alimentari"
    ∈ reported_rows
        (get_expense_report (Worksheet january_ledger) wednesday_10_1430 "week" None)
  ∧ spent sunday_7 (10 # 1) "Casa"
      ∉ reported_rows
          (get_expense_report (Worksheet january_ledger) wednesday_10_1430 "week" None).
Proof.
  split.
  - refine (proj1 (week_report_window january_ledger wednesday_10_1430
                     (spent tuesday_9 (7 # 1) "Alimentari") tuesday_9
                     january_ledger_dated wednesday_after_first_week _ eq_refl) _).
    + do 2 apply list_elem_of_further. apply list_elem_of_here.
    + vm_compute. discriminate.
  - refine (proj2 (proj2 (week_report_window january_ledger wednesday_10_1430
                            (spent sunday_7 (10 # 1) "Casa") sunday_7
                            january_ledger_dated wednesday_after_first_week _ eq_refl)) _).
    + apply list_elem_of_here.
    + vm_compute. reflexivity.
Defined.

(** C3, as stated, fails on an empty worksheet: the report for the
    category "Viaggi", which is not configured, is not a rejection. *)
Lemma invalid_category_rejected_counterexample :
  ("Viaggi" ∉ config.EXPENSE_CATEGORIES)
  ∧ get_expense_report (Worksheet []) wednesday_10_1430 "month" (Some "Viaggi")
    = (true, Text "Nessuna spesa registrata.")
  ∧ get_expense_report (Worksheet []) wednesday_10_1430 "month" (Some "Viaggi")
    ≠ (false, Text invalid_category_message).
Proof.
  split; [|split; [reflexivity | discriminate]].
  apply not_in_categories_spec. reflexivity.
Qed.

(** C3, as amended, for the category "Viaggi" on the January ledger. *)
Lemma invalid_category_rejected_witness :
  add_expense (Worksheet january_ledger) wednesday_10_1430 (AmountFloat (25 # 2))
    (Some "Viaggi") ""
  = Some ((false, invalid_category_message), Worksheet january_ledger)
  ∧ get_expense_report (Worksheet january_ledger) wednesday_10_1430 "week" (Some "Viaggi")
    = (false, Text invalid_category_message).
Proof.
  assert ("Viaggi" ∉ config.EXPENSE_CATEGORIES) as Hcat
    by (apply not_in_categories_spec; reflexivity).
  destruct (invalid_category_rejected "Viaggi" Hcat) as [Hadd [Hrep _]].
  split; [apply Hadd|].
  apply Hrep; [discriminate | discriminate | apply january_ledger_dated
              | apply wednesday_after_first_week].
Defined.

End LedgerChecks.

(* ===================================================================== *)
(** * The calendar adapter *)
(* ===================================================================== *)

Section CalendarProperties.
Import calendar_manager.

Lemma assign_time_false set v e : truthy v = false → assign_time set v e = Some e.
Proof. unfold assign_time. by intros ->. Qed.

Lemma assign_time_datetime set t e : assign_time set (PDatetime t) e = Some (set t e).
Proof. reflexivity. Qed.

(** C2, as amended.  [update_event] on a stored event succeeds and leaves a
    field as it was when its argument is absent ([None]); a description or a
    location that is present is written even when it is the empty string; a
    start or end datetime that is present is written; a summary is written
    only when it is not empty, and an empty summary leaves the title as it
    was; the zones, the reminders and all other events keep their values. *)
Theorem update_event_frame events event_id e
    summary start_time end_time description location :
  events !! event_id = Some e →
  datetime_or_false start_time → datetime_or_false end_time →
  ∃ e',
    update_event (Calendar events) event_id summary start_time end_time description location
    = ((true, Quoted "Evento '" (calendar_manager.summary e') "' aggiornato con successo."),
       Calendar (<[event_id := e']> events))
    ∧ calendar_manager.summary e'
      = (if truthy summary then Some summary else calendar_manager.summary e)
    ∧ calendar_manager.description e'
      = (if is_None description then calendar_manager.description e else Some description)
    ∧ calendar_manager.location e'
      = (if is_None location then calendar_manager.location e else Some location)
    ∧ start_dateTime e'
      = (if truthy start_time then isoformat start_time else start_dateTime e)
    ∧ end_dateTime e'
      = (if truthy end_time then isoformat end_time else end_dateTime e)
    ∧ start_timeZone e' = start_timeZone e
    ∧ end_timeZone e' = end_timeZone e
    ∧ reminders_useDefault e' = reminders_useDefault e
    ∧ (∀ other, other ≠ event_id → <[event_id := e']> events !! other = events !! other).
Proof.
  intros He Hs Hend. unfold update_event, apply_update. rewrite He.
  set (e1 := if truthy summary then set_summary summary e else e).
  set (e2 := if negb (is_None description) then set_description description e1 else e1).
  set (e3 := if negb (is_None location) then set_location location e2 else e2).
  assert (∃ e4, assign_time set_start_dateTime start_time e3 = Some e4
                ∧ e4 = (if truthy start_time
                        then match isoformat start_time with
                             | Some t => set_start_dateTime t e3 | None => e3 end
                        else e3)) as (e4 & -> & He4).
  { destruct Hs as [Hf | [t ->]]; [rewrite assign_time_false, Hf by done | cbn]; eauto. }
  assert (∃ e5, assign_time set_end_dateTime end_time e4 = Some e5
                ∧ e5 = (if truthy end_time
                        then match isoformat end_time with
                             | Some t => set_end_dateTime t e4 | None => e4 end
                        else e4)) as (e5 & He5' & He5).
  { destruct Hend as [Hf | [t ->]]; [rewrite assign_time_false, Hf by done | cbn]; eauto. }
  cbn [mbind option_bind]. rewrite He5'. exists e5. split; [done|].
  subst e5 e4 e3 e2 e1.
  destruct Hs as [Hs | [ts ->]], Hend as [Hend | [te ->]];
    rewrite ?Hs, ?Hend; cbn [truthy isoformat];
    destruct (truthy summary), (is_None description), (is_None location);
    cbn; repeat split; try done; intros other Hne; by apply lookup_insert_ne.
Qed.

(** [create_event] without an end time stores the start plus one hour. *)
Lemma create_event_default_end events new_id summary start description location :
  representable (start + US_PER_HOUR) = true →
  create_event (Calendar events) new_id summary (PDatetime start) PNone description location
  = ((true, EventId new_id),
     Calendar (<[new_id := {| calendar_manager.summary := Some summary;
                              calendar_manager.location := Some location;
                              calendar_manager.description := Some description;
                              start_dateTime := Some start;
                              start_timeZone := Some "Europe/Rome";
                              end_dateTime := Some (start + US_PER_HOUR);
                              end_timeZone := Some "Europe/Rome";
                              reminders_useDefault := Some true |}]> events)).
Proof.
  intros Hr. unfold create_event, plus_one_hour, add. cbn [is_None].
  rewrite timedelta_one_hour, Hr. reflexivity.
Qed.

(** Past the last hour of year 9999 the default end cannot be computed and
    no event is created. *)
Lemma create_event_overflow events new_id summary start description location :
  representable (start + US_PER_HOUR) = false →
  create_event (Calendar events) new_id summary (PDatetime start) PNone description location
  = ((false, Message (Msg "Errore imprevisto nella creazione dell'evento.")), Calendar events).
Proof.
  intros Hr. unfold create_event, plus_one_hour, add. cbn [is_None].
  rewrite timedelta_one_hour, Hr. reflexivity.
Qed.

End CalendarProperties.

Section CalendarChecks.
Import calendar_manager Samples.

(** C2, as stated, fails for a summary that is present and empty: the
    update succeeds and the calendar is as before, with the title
    "Riunione". *)
Lemma update_event_frame_counterexample :
  is_None (PStr "") = false
  ∧ update_event (Calendar one_event_calendar) "a1b2c" (PStr "") PNone PNone PNone PNone
    = ((true, Quoted "Evento '" (Some (PStr "Riunione")) "' aggiornato con successo."),
       Calendar one_event_calendar)
  ∧ calendar_manager.summary <$> one_event_calendar !! "a1b2c" = Some (Some (PStr "Riunione")).
Proof. split; [|split]; reflexivity. Qed.

(** C2, as amended, on the sample calendar: an empty description is
    written, the absent location and end are kept, the new start is
    written. *)
Lemma update_event_frame_witness :
  ∃ e',
    (update_event (Calendar one_event_calendar) "a1b2c"
       PNone (PDatetime (make 2024 1 11 9 0 0 0)) PNone (PStr "") PNone).2
    = Calendar (<["a1b2c" := e']> one_event_calendar)
    ∧ calendar_manager.summary e' = Some (PStr "Riunione")
    ∧ calendar_manager.description e' = Some (PStr "")
    ∧ calendar_manager.location e' = Some (PStr "Ufficio")
    ∧ start_dateTime e' = Some (make 2024 1 11 9 0 0 0)
    ∧ end_dateTime e' = Some (make 2024 1 10 16 0 0 0).
Proof.
  destruct (update_event_frame one_event_calendar "a1b2c" riunione
              PNone (PDatetime (make 2024 1 11 9 0 0 0)) PNone (PStr "") PNone
              eq_refl (or_intror (ex_intro _ _ eq_refl)) (or_introl eq_refl))
    as (e' & Hres & Hsum & Hdesc & Hloc & Hstart & Hend & _).
  exists e'. rewrite Hres. repeat split; assumption.
Defined.

End CalendarChecks.

(* ===================================================================== *)
(** * The extractor *)
(* ===================================================================== *)

Section ExtractorProperties.
Context `{DateParser}.
Import nlp_processor.




Lemma dict_get_insert_ne (d : gmap string pyval) k k' v :
  k ≠ k' → dict_get (<[k := v]> d) k' = dict_get d k'.
Proof. intros Hne. unfold dict_get. by rewrite lookup_insert_ne. Qed.


(** A successful update extraction names the event it was asked about. *)
Lemma update_of_event_id update_data event_id d :
  update_of update_data event_id = (true, Data d) → d !! "event_id" = Some (PStr event_id).
Proof.
  unfold update_of. destruct (all_None update_data); [done|].
  destruct (truthy (dict_get update_data "start_time")).
  - destruct (parse_local _); [|done]. intros [= <-]. by rewrite lookup_insert_eq.
  - intros [= <-]. by rewrite lookup_insert_eq.
Qed.

Lemma update_of_success update_data event_id p :
  update_of update_data event_id = (true, p) → ∃ d, p = Data d.
Proof.
  unfold update_of. destruct (all_None update_data); [done|].
  destruct (truthy (dict_get update_data "start_time")).
  - destruct (parse_local _); [|done]. intros [= <-]. eauto.
  - intros [= <-]. eauto.
Qed.

(** The default end of a new event: when the reply has a title and a start
    that parses, and its end is missing, empty or does not parse, the
    extracted event ends one hour after its start. *)
Lemma new_event_default_end (event_data : gmap string pyval) start :
  truthy (dict_get event_data "summary") = true →
  truthy (dict_get event_data "start_time") = true →
  parse_local (dict_get event_data "start_time") = Some start →
  truthy (dict_get event_data "end_time") = false
    ∨ parse_local (dict_get event_data "end_time") = None →
  representable (start + US_PER_HOUR) = true →
  new_event_of event_data
  = (true, Data (<["end_time" := PDatetime (start + US_PER_HOUR)]>
                   (<["start_time" := PDatetime start]> event_data))).
Proof.
  intros Hsum Hst Hp Hend Hr. unfold new_event_of.
  rewrite Hsum, Hst, Hp. cbn [negb]. rewrite dict_get_insert_ne by done.
  assert ((if truthy (dict_get event_data "end_time")
           then parse_local (dict_get event_data "end_time") else None) = None) as ->.
  { destruct Hend as [Hf | Hn]; [by rewrite Hf | rewrite Hn].
    by destruct (truthy (dict_get event_data "end_time")). }
  unfold add. by rewrite timedelta_one_hour, Hr.
Qed.


(** The index the model's reply names is looked up in the list. *)
Lemma deletion_target_success events content p :
  deletion_target events content = (true, p) →
  ∃ e, e ∈ events ∧ p = EventId (calendar_manager.id e).
Proof.
  unfold deletion_target. destruct (Py.contains _ _); [done|].
  destruct (Py.search_digits _) as [group|]; [|done].
  destruct (_ && _); [|done].
  destruct (events !! _) as [e|] eqn:E; [|done].
  intros [= <-]. exists e. split; [|done]. by eapply list_elem_of_lookup_2.
Qed.

Lemma parse_event_deletion_request_success client answer text events p :
  (parse_event_deletion_request client answer text (Candidates events)).1 = (true, p) →
  ∃ e, e ∈ events ∧ p = EventId (calendar_manager.id e).
Proof.
  unfold parse_event_deletion_request. destruct client; [|done]. cbn [negb].
  destruct events as [|e0 es]; [done|]. destruct answer as [|content loaded]; [done|].
  apply deletion_target_success.
Qed.

(** C10, as amended.  With an empty list of candidates, or with the text of
    an error in place of the list, the resolver sends no request to the
    language model and reports a failure: when an API key is set, the
    failure is "Non ci sono eventi da eliminare." for the empty list and the
    given text for an error text; when no key is set, it is the message of
    the missing key in both cases. *)
Theorem deletion_without_candidates client answer text :
  parse_event_deletion_request client answer text (Candidates [])
  = ((false, Message (if client then Msg "Non ci sono eventi da eliminare." else no_client)), [])
  ∧ ∀ error,
      parse_event_deletion_request client answer text (ErrorText error)
      = ((false, Message (if client then Msg error else no_client)), []).
Proof. by destruct client. Qed.

End ExtractorProperties.

Section ExtractorChecks.
#[local] Existing Instance Samples.minutes_parser.
Import nlp_processor Samples.



(** An end time that does not parse, alone in the reply, gives a
    successful extraction whose directive changes nothing. *)
Lemma unparsable_end_alone :
  parse_event_update_request true
    (json_reply [("summary", None); ("start_time", None); ("end_time", Some "tardi");
                 ("location", None); ("description", None)])
    "finisce tardi" "a1b2c"
  = ((true, Data (list_to_map [("summary", PNone); ("start_time", PNone);
                               ("end_time", PNone); ("location", PNone);
                               ("description", PNone); ("event_id", PStr "a1b2c")])),
     ["finisce tardi"]).
Proof. reflexivity. Qed.

(** C10, as stated, fails when no API key is set: the failure for an empty
    list of candidates is the message of the missing key. *)
Lemma deletion_without_candidates_counterexample :
  parse_event_deletion_request false ApiRaises "la cena" (Candidates [])
  = ((false, Message no_client), [])
  ∧ no_client ≠ Msg "Non ci sono eventi da eliminare.".
Proof. split; [reflexivity | discriminate]. Qed.

End ExtractorChecks.

(* ===================================================================== *)
(** * The conversation controller *)
(* ===================================================================== *)

Section ControllerProperties.
Context `{PyFloat} `{DateParser}.
Import calendar_manager main.

(** C6.  The amount handler reads a text with every comma taken as a dot:
    the text it parses is the text with each comma replaced by a dot, in
    which no comma is left.  When that text is a number the handler stores
    the number and goes on to the category, otherwise it asks again and
    stores nothing.  So two texts that differ only in writing a comma or a
    dot - "12,50" and "12.50" - are read to the same result, and replacing
    commas by dots a second time changes nothing. *)
Theorem amount_comma_or_dot w d text :
  Py.replace "," "." text = map_chars comma_to_dot text
  ∧ Py.contains "," (map_chars comma_to_dot text) = false
  ∧ add_expense_amount w d text
    = match float_of_str (map_chars comma_to_dot text) with
      | Some amount =>
          {| next := Return EXPENSE_CATEGORY;
             out := [reply_text [Msg "Seleziona la categoria della spesa:"]];
             data := set_expense_amount amount d; after := w |}
      | None =>
          {| next := Return EXPENSE_AMOUNT;
             out := [reply_text [Msg "L'importo deve essere un numero. Riprova:"]];
             data := d; after := w |}
      end
  ∧ (∀ text', map_chars comma_to_dot text' = map_chars comma_to_dot text →
              add_expense_amount w d text' = add_expense_amount w d text)
  ∧ add_expense_amount w d (map_chars comma_to_dot text) = add_expense_amount w d text
  ∧ map_chars comma_to_dot (map_chars comma_to_dot text) = map_chars comma_to_dot text
  ∧ Py.replace "," "." (Py.replace "," "." text) = Py.replace "," "." text.
Proof.
  assert (map_chars comma_to_dot (map_chars comma_to_dot text) = map_chars comma_to_dot text)
    as Hidem by (rewrite <-!replace_comma_map; apply replace_comma_idem).
  split_and!.
  - apply replace_comma_map.
  - apply map_comma_to_dot_no_comma.
  - unfold add_expense_amount. rewrite replace_comma_map.
    by destruct (float_of_str (map_chars comma_to_dot text)).
  - intros text' Heq. unfold add_expense_amount. by rewrite !replace_comma_map, Heq.
  - unfold add_expense_amount. by rewrite !replace_comma_map, Hidem.
  - exact Hidem.
  - apply replace_comma_idem.
Qed.


Lemma delete_event_confirmation_ends w d event_id :
  next (delete_event_confirmation w d event_id) = Return END
  ∧ data (delete_event_confirmation w d event_id) = clear.
Proof.
  unfold delete_event_confirmation.
  by destruct (delete_event (calendar w) event_id) as [[success message] calendar'].
Qed.

Lemma by_number_in_range (evs : list listed) text i :
  numeral text i → 1 ≤ i ≤ Z.of_nat (length evs) →
  ∃ e, evs !! Z.to_nat (i - 1) = Some e ∧ by_number text evs = Some (id e).
Proof.
  intros [Hm Hi] Hr. unfold by_number. rewrite Hm, Hi.
  destruct (evs !! Z.to_nat (i - 1)) as [e|] eqn:E.
  - exists e. split; [done|].
    assert ((0 <=? i - 1) && (i - 1 <? Z.of_nat (length evs)) = true) as ->; [|done].
    apply andb_true_iff. split; [apply Z.leb_le | apply Z.ltb_lt]; lia.
  - apply lookup_ge_None in E. lia.
Qed.

Lemma by_number_out_of_range (evs : list listed) text i :
  numeral text i → ¬ (1 ≤ i ≤ Z.of_nat (length evs)) → by_number text evs = None.
Proof.
  intros [Hm Hi] Hr. unfold by_number. rewrite Hm, Hi.
  assert ((0 <=? i - 1) && (i - 1 <? Z.of_nat (length evs)) = false) as ->; [|done].
  apply andb_false_iff.
  destruct (Z.leb_spec 0 (i - 1)); [right; apply Z.ltb_ge; lia | by left].
Qed.

Lemma find_event_elem event_id (evs : list listed) e :
  find_event event_id evs = Some e → e ∈ evs ∧ id e = event_id.
Proof.
  unfold find_event. intros Hf. apply find_some in Hf as [Hin Heq].
  split; [by apply list_elem_of_In | by apply String.eqb_eq].
Qed.

(** No exception escapes the selection handler of the delete flow: the
    index the text or the model names is checked against the list. *)
Lemma delete_event_selection_returns w d text :
  (next (delete_event_selection w d text) = Return END
   ∧ data (delete_event_selection w d text) = clear)
  ∨ (next (delete_event_selection w d text) = Return CALENDAR_EVENT_SELECTION
     ∧ data (delete_event_selection w d text) = d
     ∧ after (delete_event_selection w d text) = w).
Proof.
  unfold delete_event_selection.
  destruct (find_event text _); [left; apply delete_event_confirmation_ends|].
  destruct (by_number text _); [left; apply delete_event_confirmation_ends|].
  destruct (nlp_processor.parse_event_deletion_request _ _ _ _).1 as [[] p] eqn:E.
  - apply parse_event_deletion_request_success in E as (e & _ & ->).
    left. apply delete_event_confirmation_ends.
  - by right.
Qed.

(** C4, as amended.  In the delete flow, for a text that is the numeral of
    [i] and is not itself the id of a listed event (an id is looked for
    first): when [1 ≤ i ≤ n] the handler deletes the [i]-th listed event;
    when [i] is out of range the text goes to the extractor, and the handler
    either reports the extractor's failure and stays in the selection state
    with the session and the services untouched, or deletes the listed
    event the extractor's reply names; in no case does an exception escape. *)
Theorem delete_by_number w d evs text i :
  events d = Some evs → numeral text i → find_event text evs = None →
  (1 ≤ i ≤ Z.of_nat (length evs) →
     ∃ e, evs !! Z.to_nat (i - 1) = Some e
          ∧ delete_event_selection w d text = delete_event_confirmation w d (id e))
  ∧ (¬ (1 ≤ i ≤ Z.of_nat (length evs)) →
     let sent := [reply_text [Msg "Sto elaborando la tua richiesta..."];
                  delete_wait_message] in
     match (nlp_processor.parse_event_deletion_request (openai_client w) (answer w) text
              (nlp_processor.Candidates evs)).1 with
     | (false, failure) =>
         delete_event_selection w d text
         = {| next := Return CALENDAR_EVENT_SELECTION;
              out := sent ++
                     [reply_text ([Msg "Errore: "] ++ nlp_message failure ++
                                  [Msg (nl +:+ nl +:+ "Riprova o invia /cancel per annullare.")])];
              data := d; after := w |}
     | (true, chosen) =>
         ∃ e, e ∈ evs ∧ chosen = nlp_processor.EventId (id e)
              ∧ delete_event_selection w d text
                = after_sending sent (delete_event_confirmation w d (id e))
     end)
  ∧ next (delete_event_selection w d text) ≠ Raise.
Proof.
  intros Hev Hnum Hfind. split; [|split].
  - intros Hr. destruct (by_number_in_range evs text i Hnum Hr) as (e & He & Hby).
    exists e. split; [done|].
    unfold delete_event_selection. rewrite Hev.
    change (default [] (Some evs)) with evs. cbv zeta. by rewrite Hfind, Hby.
  - intros Hr. unfold delete_event_selection. rewrite Hev.
    change (default [] (Some evs)) with evs. cbv zeta.
    rewrite Hfind, (by_number_out_of_range evs text i Hnum Hr).
    destruct (nlp_processor.parse_event_deletion_request _ _ _ _).1 as [[] p] eqn:E; [|done].
    apply parse_event_deletion_request_success in E as (e & Hin & ->). eauto.
  - destruct (delete_event_selection_returns w d text) as [[-> _] | [-> _]]; done.
Qed.

(** ** What each handler does to the session *)



Lemma parse_event_update_request_success client answer text event_id p :
  (nlp_processor.parse_event_update_request client answer text event_id).1 = (true, p) →
  ∃ d, p = nlp_processor.Data d ∧ d !! "event_id" = Some (PStr event_id).
Proof.
  unfold nlp_processor.parse_event_update_request. destruct client; [|done]. cbn [negb].
  destruct answer as [|content [[]|]]; try done. cbn [fst]. intros Hu.
  destruct (update_of_success _ _ _ Hu) as [d ->]. exists d. split; [done|].
  by apply (update_of_event_id _ _ _ Hu).
Qed.












(** The stop of the update flow on a button that names no stored event
    ends the conversation and leaves the list of events and the id in the
    session. *)
Lemma update_event_selection_keeps_session w d query_data :
  query_data ≠ "event_cancel" →
  find_event (Py.replace "event_" "" query_data) (default [] (events d)) = None →
  next (update_event_selection w d query_data) = Return END
  ∧ data (update_event_selection w d query_data)
    = set_event_id (Py.replace "event_" "" query_data) d.
Proof.
  intros Hq Hf. unfold update_event_selection.
  apply String.eqb_neq in Hq. rewrite Hq.
  change (events (set_event_id (Py.replace "event_" "" query_data) d)) with (events d).
  by rewrite Hf.
Qed.

(** The add-event flow from the description to the confirmation: with no
    end time in the reply, the event the calendar receives ends one hour
    after it starts. *)
Lemma add_event_flow_default_end w d (event_data : gmap string pyval) content text events start :
  openai_client w = true →
  answer w = nlp_processor.Reply content (Some (PDict event_data)) →
  calendar w = Calendar events →
  truthy (dict_get event_data "summary") = true →
  truthy (dict_get event_data "start_time") = true →
  nlp_processor.parse_local (dict_get event_data "start_time") = Some start →
  truthy (dict_get event_data "end_time") = false
    ∨ nlp_processor.parse_local (dict_get event_data "end_time") = None →
  representable (start + US_PER_HOUR) = true →
  let s1 := add_event_description w d text in
  let s2 := add_event_confirmation (after s1) (data s1) "event_confirm" in
  next s1 = Return CALENDAR_EVENT_CONFIRMATION
  ∧ next s2 = Return END ∧ data s2 = clear
  ∧ ∃ e, calendar (after s2) = Calendar (<[new_id w := e]> events)
         ∧ start_dateTime e = Some start
         ∧ end_dateTime e = Some (start + US_PER_HOUR).
Proof.
  intros Hc Ha Hcal Hsum Hst Hp Hend Hr.
  assert (∃ summary, event_data !! "summary" = Some summary) as [summary Hs].
  { unfold dict_get in Hsum. destruct (event_data !! "summary"); [eauto | done]. }
  set (stored := <["end_time" := PDatetime (start + US_PER_HOUR)]>
                   (<["start_time" := PDatetime start]> event_data)).
  assert (stored !! "summary" = Some summary) as E1 by (subst stored; by simplify_map_eq).
  assert (stored !! "start_time" = Some (PDatetime start)) as E2
    by (subst stored; by simplify_map_eq).
  assert (stored !! "end_time" = Some (PDatetime (start + US_PER_HOUR))) as E3
    by (subst stored; by simplify_map_eq).
  cbv zeta. unfold add_event_description. rewrite Hc, Ha.
  unfold nlp_processor.parse_event_request. cbn [negb fst].
  rewrite (new_event_default_end event_data start Hsum Hst Hp Hend Hr).
  fold stored. rewrite E1, E2, E3.
  split; [done|]. unfold add_event_confirmation.
  cbn [String.eqb Ascii.eqb Bool.eqb main.data main.after main.event_data
       main.set_event_data main.set_event_text].
  rewrite E1, E2, E3, Hcal. cbn.
  split; [reflexivity|]. split; [reflexivity|]. eexists. repeat split; reflexivity.
Qed.

(** C5.  For a start one hour after which is still a datetime: the
    extraction of a new event whose reply has a title and this start, and
    whose end is missing, empty or does not parse, succeeds with the end one
    hour after the start; the add-event flow then creates the event with
    that end; [create_event] without an end time creates the event with the
    end one hour after the start; and this end is not before the start. *)
Theorem event_end_defaults_to_one_hour start :
  representable (start + US_PER_HOUR) = true →
  (∀ (event_data : gmap string pyval) content text,
     truthy (dict_get event_data "summary") = true →
     truthy (dict_get event_data "start_time") = true →
     nlp_processor.parse_local (dict_get event_data "start_time") = Some start →
     truthy (dict_get event_data "end_time") = false
       ∨ nlp_processor.parse_local (dict_get event_data "end_time") = None →
     nlp_processor.parse_event_request true
       (nlp_processor.Reply content (Some (PDict event_data))) text
     = ((true, nlp_processor.Data
                 (<["end_time" := PDatetime (start + US_PER_HOUR)]>
                    (<["start_time" := PDatetime start]> event_data))),
        [text])
     ∧ ∀ w d events,
         openai_client w = true →
         answer w = nlp_processor.Reply content (Some (PDict event_data)) →
         calendar w = Calendar events →
         let s1 := add_event_description w d text in
         let s2 := add_event_confirmation (after s1) (data s1) "event_confirm" in
         ∃ e, calendar (after s2) = Calendar (<[new_id w := e]> events)
              ∧ start_dateTime e = Some start
              ∧ end_dateTime e = Some (start + US_PER_HOUR))
  ∧ (∀ events new_id summary description location,
       ∃ e, create_event (Calendar events) new_id summary (PDatetime start) PNone
              description location
            = ((true, EventId new_id), Calendar (<[new_id := e]> events))
            ∧ start_dateTime e = Some start
            ∧ end_dateTime e = Some (start + US_PER_HOUR))
  ∧ start ≤ start + US_PER_HOUR.
Proof.
  intros Hr. split; [|split].
  - intros event_data content text Hsum Hst Hp Hend. split.
    + unfold nlp_processor.parse_event_request. cbn [negb].
      by rewrite (new_event_default_end event_data start Hsum Hst Hp Hend Hr).
    + intros w d events Hc Ha Hcal.
      apply (add_event_flow_default_end w d event_data content text events start
               Hc Ha Hcal Hsum Hst Hp Hend Hr).
  - intros events new_id summary description location.
    eexists. split; [apply (create_event_default_end _ _ _ _ _ _ Hr) | split; reflexivity].
  - rewrite US_PER_HOUR_eq. lia.
Qed.

(** A listing that fails when a flow is entered ends the conversation at
    once and leaves the session as it was. *)
Lemma entry_failure_keeps_session w d :
  (get_upcoming_events (upcoming w)).1 = false →
  next (update_event_start w d) = Return END ∧ data (update_event_start w d) = d
  ∧ next (delete_event_start w d) = Return END ∧ data (delete_event_start w d) = d.
Proof.
  unfold update_event_start, delete_event_start.
  destruct (get_upcoming_events (upcoming w)) as [[] p]; [done|]. by intros _.
Qed.

End ControllerProperties.

Section ControllerChecks.
#[local] Existing Instance Samples.decimal.
#[local] Existing Instance Samples.minutes_parser.
Import calendar_manager main Samples.

(** The amounts "12,50" and "12.50" are stored as the same number. *)
Lemma amount_12_50 :
  expense_amount (data (add_expense_amount
                          (services two_event_calendar two_events nlp_processor.ApiRaises)
                          clear "12,50"))
  = Some (1250 # 100)
  ∧ expense_amount (data (add_expense_amount
                            (services two_event_calendar two_events nlp_processor.ApiRaises)
                            clear "12.50"))
    = Some (1250 # 100).
Proof. split; reflexivity. Qed.

(** C6 on "12,50": the handler stores twelve and a half and goes on to the
    category, as it does on "12.50"; on "dodici" it asks again and stores
    nothing. *)
Lemma amount_comma_or_dot_witness :
  add_expense_amount (services two_event_calendar two_events nlp_processor.ApiRaises)
    clear "12,50"
  = {| next := Return EXPENSE_CATEGORY;
       out := [reply_text [Msg "Seleziona la categoria della spesa:"]];
       data := set_expense_amount (1250 # 100) clear;
       after := services two_event_calendar two_events nlp_processor.ApiRaises |}
  ∧ add_expense_amount (services two_event_calendar two_events nlp_processor.ApiRaises)
      clear "12,50"
    = add_expense_amount (services two_event_calendar two_events nlp_processor.ApiRaises)
        clear "12.50"
  ∧ add_expense_amount (services two_event_calendar two_events nlp_processor.ApiRaises)
      clear "dodici"
    = {| next := Return EXPENSE_AMOUNT;
         out := [reply_text [Msg "L'importo deve essere un numero. Riprova:"]];
         data := clear;
         after := services two_event_calendar two_events nlp_processor.ApiRaises |}.
Proof.
  split; [|split].
  - exact (proj1 (proj2 (proj2 (amount_comma_or_dot
             (services two_event_calendar two_events nlp_processor.ApiRaises)
             clear "12,50")))).
  - exact (proj1 (proj2 (proj2 (proj2 (amount_comma_or_dot
             (services two_event_calendar two_events nlp_processor.ApiRaises)
             clear "12.50")))) "12,50" eq_refl).
  - exact (proj1 (proj2 (proj2 (amount_comma_or_dot
             (services two_event_calendar two_events nlp_processor.ApiRaises)
             clear "dodici")))).
Defined.

(** C4, as stated, fails in both parts.  When the first of two listed
    events has the id "2", the text "2" deletes the first event and the
    second stays in the calendar; and with two listed events, the text "5"
    deletes the first event when the language model answers "1". *)
Lemma delete_by_number_counterexample :
  (numeral "2" 2
   ∧ delete_event_selection
       (services short_id_calendar two_events_short_id nlp_processor.ApiRaises)
       (listing_session two_events_short_id) "2"
     = delete_event_confirmation
         (services short_id_calendar two_events_short_id nlp_processor.ApiRaises)
         (listing_session two_events_short_id) "2"
   ∧ calendar (after (delete_event_selection
                        (services short_id_calendar two_events_short_id nlp_processor.ApiRaises)
                        (listing_session two_events_short_id) "2"))
     = Calendar {[ "d3e4f" := cena ]})
  ∧ (numeral "5" 5
     ∧ next (delete_event_selection
               (services two_event_calendar two_events
                  (nlp_processor.Reply "1" (Some (PNum 1))))
               (listing_session two_events) "5")
       = Return END
     ∧ calendar (after (delete_event_selection
                          (services two_event_calendar two_events
                             (nlp_processor.Reply "1" (Some (PNum 1))))
                          (listing_session two_events) "5"))
       = Calendar {[ "d3e4f" := cena ]}).
Proof. repeat split; reflexivity. Qed.

(** C4, as amended, on the two listed events: "2" deletes the second, and
    "5" is a reported failure when the language model answers that it found
    nothing. *)
Lemma delete_by_number_witness :
  delete_event_selection
    (services two_event_calendar two_events nlp_processor.ApiRaises)
    (listing_session two_events) "2"
  = delete_event_confirmation
      (services two_event_calendar two_events nlp_processor.ApiRaises)
      (listing_session two_events) "d3e4f"
  ∧ delete_event_selection
      (services two_event_calendar two_events (nlp_processor.Reply "non trovato" None))
      (listing_session two_events) "5"
    = {| next := Return CALENDAR_EVENT_SELECTION;
         out := [reply_text [Msg "Sto elaborando la tua richiesta..."];
                 delete_wait_message;
                 reply_text [Msg "Errore: "; nlp_processor.not_identified;
                             Msg (nl +:+ nl +:+ "Riprova o invia /cancel per annullare.")]];
         data := listing_session two_events;
         after := services two_event_calendar two_events
                    (nlp_processor.Reply "non trovato" None) |}.
Proof.
  split.
  - destruct (proj1 (delete_by_number
                       (services two_event_calendar two_events nlp_processor.ApiRaises)
                       (listing_session two_events) two_events "2" 2
                       eq_refl (conj eq_refl eq_refl) eq_refl)
                ltac:(cbn; lia)) as (e & He & Heq).
    cbn in He. inversion He; subst e. exact Heq.
  - exact (proj1 (proj2 (delete_by_number
                       (services two_event_calendar two_events
                          (nlp_processor.Reply "non trovato" None))
                       (listing_session two_events) two_events "5" 5
                       eq_refl (conj eq_refl eq_refl) eq_refl))
             ltac:(cbn; lia)).
Defined.

(** C5 on the reply to "riunione domani alle 15 in ufficio": without an end
    time, the extracted event starts at 15:00 of the next day and ends at
    16:00; and [create_event] called without an end stores 16:00 as well. *)
Lemma event_end_defaults_to_one_hour_witness :
  nlp_processor.parse_event_request true
    (json_reply [("summary", Some "riunione"); ("start_time", Some "2024-01-11 15:00");
                 ("end_time", None); ("location", Some "ufficio"); ("description", Some "")])
    "riunione domani alle 15 in ufficio"
  = ((true, nlp_processor.Data
              (list_to_map [("summary", PStr "riunione");
                            ("start_time", PDatetime (make 2024 1 11 15 0 0 0));
                            ("end_time", PDatetime (make 2024 1 11 16 0 0 0));
                            ("location", PStr "ufficio"); ("description", PStr "")])),
     ["riunione domani alle 15 in ufficio"])
  ∧ ∃ e, create_event (Calendar one_event_calendar) "g7h8i" (PStr "riunione")
           (PDatetime (make 2024 1 11 15 0 0 0)) PNone (PStr "") (PStr "ufficio")
         = ((true, EventId "g7h8i"), Calendar (<["g7h8i" := e]> one_event_calendar))
         ∧ start_dateTime e = Some (make 2024 1 11 15 0 0 0)
         ∧ end_dateTime e = Some (make 2024 1 11 16 0 0 0).
Proof.
  destruct (event_end_defaults_to_one_hour (make 2024 1 11 15 0 0 0) eq_refl)
    as (Hextract & Hcreate & _).
  split.
  - exact (proj1 (Hextract
             (list_to_map [("summary", PStr "riunione");
                           ("start_time", PStr "2024-01-11 15:00");
                           ("end_time", PNone); ("location", PStr "ufficio");
                           ("description", PStr "")])
             (json_object [("summary", Some "riunione");
                           ("start_time", Some "2024-01-11 15:00");
                           ("end_time", None); ("location", Some "ufficio");
                           ("description", Some "")])
             "riunione domani alle 15 in ufficio"
             eq_refl eq_refl eq_refl (or_introl eq_refl))).
  - exact (Hcreate one_event_calendar "g7h8i" (PStr "riunione") (PStr "") (PStr "ufficio")).
Defined.


(** The scenario of the specification: the amount "12,50", the category
    "Trasporti" and [/skip] add one row dated today to the worksheet, and
    the confirmation names the amount and the category. *)
Lemma expense_scenario :
  let w := services two_event_calendar two_events nlp_processor.ApiRaises in
  let s1 := add_expense_amount w clear "12,50" in
  let s2 := add_expense_category (after s1) (data s1) "cat_Trasporti" in
  let s3 := skip_expense_description (after s2) (data s2) (Command "skip" []) in
  next s1 = Return EXPENSE_CATEGORY
  ∧ next s2 = Return EXPENSE_DESCRIPTION
  ∧ next s3 = Return END
  ∧ data s3 = clear
  ∧ out s3 = [reply_text [Msg "Spesa di 12.5€ aggiunta nella categoria 'Trasporti'."]]
  ∧ sheets (after s3)
    = sheets_manager.Worksheet
        (january_ledger ++ [spent (make 2024 1 10 0 0 0 0) (1250 # 100) "Trasporti"]).
Proof. repeat split; reflexivity. Qed.

(** The stop on a stale button: with the two events listed, the button of
    an event that is no longer listed ends the update flow and the session
    still holds the list and the id. *)
Lemma stale_button_keeps_session :
  let s := update_event_selection
             (services two_event_calendar two_events nlp_processor.ApiRaises)
             (listing_session two_events) "event_z9y8x" in
  next s = Return END
  ∧ events (data s) = Some two_events
  ∧ event_id (data s) = Some "z9y8x".
Proof. repeat split; reflexivity. Qed.

End ControllerChecks.

(* ===================================================================== *)
(** * More on the expense ledger *)
(* ===================================================================== *)

Section LedgerReports.
Context `{PyFloat}.
Import sheets_manager.

Lemma to_datetime_snd records df :
  to_datetime records = Some df → snd <$> df = records.
Proof.
  revert df. induction records as [|r rs IH]; intros df; cbn.
  - by intros [= <-].
  - destruct (Data r); [|done]. destruct (to_datetime rs) as [ds|]; [|done].
    intros [= <-]. cbn. by rewrite (IH ds).
Qed.

Lemma sublist_fmap_snd {A B} (l1 l2 : list (A * B)) :
  l1 `sublist_of` l2 → (snd <$> l1) `sublist_of` (snd <$> l2).
Proof. induction 1; cbn; [constructor | by apply sublist_skip | by apply sublist_cons]. Qed.

Lemma filter_period_sublist now period df df' period_text :
  filter_period now period df = Some (df', period_text) → df' `sublist_of` df.
Proof.
  unfold filter_period.
  destruct (String.eqb period "day"); [intros [= <- _]; apply sublist_filter|].
  destruct (String.eqb period "week").
  { destruct (sub _ _); [|done]. intros [= <- _]. apply sublist_filter. }
  destruct (String.eqb period "month").
  { intros [= <- _]. etrans; apply sublist_filter. }
  destruct (String.eqb period "year"); [intros [= <- _]; apply sublist_filter|].
  by intros [= <- _].
Qed.

(** The rows of a report, once the dates are read and the date filter is
    computed. *)
Lemma reported_rows_eq records df now period df' period_text category :
  to_datetime records = Some df →
  filter_period now period df = Some (df', period_text) →
  reported_rows (get_expense_report (Worksheet records) now period category)
  = if truthy_str category
    then if not_in_categories category then []
         else snd <$> filter (λ r, Categoria r.2 = str_opt category) df'
    else snd <$> df'.
Proof.
  intros Hdf Hf. destruct records as [|r rs].
  - cbn in Hdf. injection Hdf as <-.
    apply filter_period_sublist, sublist_nil_r in Hf as ->.
    cbn. by destruct (truthy_str category), (not_in_categories category).
  - unfold get_expense_report. rewrite Hdf, Hf.
    destruct (truthy_str category); [|by destruct df'].
    destruct (not_in_categories category); [done|].
    by destruct (filter _ df').
Qed.

(** When the dates cannot be read or the date filter raises, nothing is
    reported. *)
Lemma reported_rows_error records now period category :
  to_datetime records = None
  ∨ (∃ df, to_datetime records = Some df ∧ filter_period now period df = None) →
  reported_rows (get_expense_report (Worksheet records) now period category) = [].
Proof.
  intros Herr. unfold get_expense_report. destruct records as [|r rs]; [done|].
  destruct Herr as [-> | (df & -> & ->)]; done.
Qed.

(** X1.  A report never shows a row the worksheet does not hold, and shows
    the rows in the order of the worksheet. *)
Theorem report_rows_sublist records now period category :
  reported_rows (get_expense_report (Worksheet records) now period category)
    `sublist_of` records.
Proof.
  destruct (to_datetime records) as [df|] eqn:Hdf.
  2:{ rewrite reported_rows_error by auto. apply sublist_nil_l. }
  destruct (filter_period now period df) as [[df' pt]|] eqn:Hf.
  2:{ rewrite reported_rows_error by eauto. apply sublist_nil_l. }
  rewrite (reported_rows_eq _ _ _ _ _ _ _ Hdf Hf), <-(to_datetime_snd _ _ Hdf).
  pose proof (filter_period_sublist _ _ _ _ _ Hf) as Hsub.
  destruct (truthy_str category); [|by apply sublist_fmap_snd].
  destruct (not_in_categories category); [apply sublist_nil_l|].
  apply sublist_fmap_snd. etrans; [apply sublist_filter | done].
Qed.

(** X2.  With a configured category, the report is the report without a
    category restricted to the rows of that category. *)
Theorem report_category_filter records now period (category : string) r :
  category ∈ config.EXPENSE_CATEGORIES →
  r ∈ reported_rows (get_expense_report (Worksheet records) now period (Some category))
  ↔ r ∈ reported_rows (get_expense_report (Worksheet records) now period None)
    ∧ Categoria r = category.
Proof.
  intros Hin.
  assert (not_in_categories (Some category) = false) as Hv.
  { unfold not_in_categories. by rewrite negb_false_iff, bool_decide_eq_true. }
  assert (truthy_str (Some category) = true) as Ht.
  { destruct category; [|done]. exfalso. revert Hin. apply not_in_categories_spec. reflexivity. }
  destruct (to_datetime records) as [df|] eqn:Hdf.
  2:{ rewrite !reported_rows_error by auto. split; [intros Hr | intros [Hr _]]; inversion Hr. }
  destruct (filter_period now period df) as [[df' pt]|] eqn:Hf.
  2:{ rewrite !reported_rows_error by eauto. split; [intros Hr | intros [Hr _]]; inversion Hr. }
  rewrite !(reported_rows_eq _ _ _ _ _ _ _ Hdf Hf), Ht, Hv. cbn [truthy_str str_opt default from_option].
  rewrite !list_elem_of_fmap. split.
  - intros [[t r'] [-> Hr]]. apply list_elem_of_filter in Hr as [Hc Hr]. split; [|done].
    by exists (t, r').
  - intros [[[t r'] [-> Hr]] Hc]. exists (t, r'). split; [done|].
    by apply list_elem_of_filter.
Qed.

(** X3.  A period other than "day", "week", "month" and "year" is read
    as the whole ledger: without a category the report is on every row. *)
Theorem report_other_period_is_all records now period :
  all_dated records →
  period ≠ "day" → period ≠ "week" → period ≠ "month" → period ≠ "year" →
  reported_rows (get_expense_report (Worksheet records) now period None) = records.
Proof.
  intros Hd H1 H2 H3 H4. destruct (to_datetime_all_dated _ Hd) as [df Hdf].
  apply String.eqb_neq in H1, H2, H3, H4.
  assert (filter_period now period df = Some (df, "totali")) as Hf.
  { unfold filter_period. by rewrite H1, H2, H3, H4. }
  rewrite (reported_rows_eq _ _ _ _ _ _ _ Hdf Hf). cbn [truthy_str].
  by apply to_datetime_snd.
Qed.

(** X4.  The daily report is on the rows dated the calendar day of [now],
    the monthly report on the rows of its month and year; every row of the
    monthly report is in the yearly report. *)
Theorem report_day_month_year records now r :
  all_dated records →
  (r ∈ reported_rows (get_expense_report (Worksheet records) now "day" None)
   ↔ r ∈ records ∧ ∃ t, Data r = Some t ∧ toordinal t = toordinal now)
  ∧ (r ∈ reported_rows (get_expense_report (Worksheet records) now "month" None)
     ↔ r ∈ records ∧ ∃ t, Data r = Some t ∧ month t = month now ∧ year t = year now)
  ∧ (r ∈ reported_rows (get_expense_report (Worksheet records) now "month" None) →
     r ∈ reported_rows (get_expense_report (Worksheet records) now "year" None)).
Proof.
  intros Hd. destruct (to_datetime_all_dated _ Hd) as [df Hdf].
  assert (∀ df' pt period,
            filter_period now period df = Some (df', pt) →
            r ∈ reported_rows (get_expense_report (Worksheet records) now period None)
            ↔ ∃ t, (t, r) ∈ df') as Hrep.
  { intros df' pt period Hf. rewrite (reported_rows_eq _ _ _ _ _ _ _ Hdf Hf). cbn [truthy_str].
    rewrite list_elem_of_fmap. split.
    - intros [[t r'] [-> Hr]]. by exists t.
    - intros [t Hr]. by exists (t, r). }
  assert (r ∈ reported_rows (get_expense_report (Worksheet records) now "month" None)
          ↔ r ∈ records ∧ ∃ t, Data r = Some t ∧ month t = month now ∧ year t = year now)
    as Hmonth.
  { rewrite (Hrep _ _ "month" eq_refl). split.
    - intros [t Hr]. apply list_elem_of_filter in Hr as [Hy Hr].
      apply list_elem_of_filter in Hr as [Hm Hr].
      apply (to_datetime_elem _ _ Hdf) in Hr as [Hr Ht]. cbn in *. eauto.
    - intros [Hr (t & Ht & Hm & Hy)]. exists t.
      apply list_elem_of_filter. split; [done|]. apply list_elem_of_filter. split; [done|].
      by apply (to_datetime_elem _ _ Hdf). }
  split; [|split; [exact Hmonth|]].
  - rewrite (Hrep _ _ "day" eq_refl). split.
    + intros [t Hr]. apply list_elem_of_filter in Hr as [Ho Hr].
      apply (to_datetime_elem _ _ Hdf) in Hr as [Hr Ht]. cbn in *. eauto.
    + intros [Hr (t & Ht & Ho)]. exists t. apply list_elem_of_filter. split; [done|].
      by apply (to_datetime_elem _ _ Hdf).
  - intros Hr. apply Hmonth in Hr as [Hr (t & Ht & Hm & Hy)].
    apply (Hrep _ _ "year" eq_refl). exists t. apply list_elem_of_filter. split; [done|].
    by apply (to_datetime_elem _ _ Hdf).
Qed.

(** X5.  One date cell on which the conversion raises - a text such as
    "2024-01-10", which is not in the format - makes every report on the
    worksheet fail, whatever the period and the category.  (A cell the
    conversion reads as missing does not raise and is not such a cell.) *)
Theorem report_unreadable_date records now period category r :
  r ∈ records → Data r = None →
  get_expense_report (Worksheet records) now period category
  = (false, Text "Errore nella generazione del report.").
Proof.
  intros Hin Hr.
  assert (to_datetime records = None) as Hdf.
  { induction Hin as [r rs | r r' rs Hin IH]; cbn.
    - by rewrite Hr.
    - rewrite (IH Hr). by destruct (Data r'). }
  unfold get_expense_report. destruct records as [|r0 rs]; [inversion Hin|].
  by rewrite Hdf.
Qed.

(** X6.  On a worksheet with readable dates, a report without a category
    or with a configured one succeeds, also when no row passes the filters:
    then it is a text, not a failure. *)
Theorem report_succeeds records now period category :
  all_dated records → after_first_week now →
  category = None ∨ (∃ c, category = Some c ∧ c ∈ config.EXPENSE_CATEGORIES) →
  (get_expense_report (Worksheet records) now period category).1 = true
  ∧ (reported_rows (get_expense_report (Worksheet records) now period category) = [] →
     ∃ text, get_expense_report (Worksheet records) now period category = (true, Text text)).
Proof.
  intros Hd Hnow Hcat. destruct (to_datetime_all_dated _ Hd) as [df Hdf].
  destruct (filter_period_is_Some now period df Hnow) as [[df' pt] Hf].
  assert (truthy_str category = true → not_in_categories category = false) as Hv.
  { destruct Hcat as [-> | (c & -> & Hin)]; [done|]. intros _.
    unfold not_in_categories. by rewrite negb_false_iff, bool_decide_eq_true. }
  unfold get_expense_report, reported_rows. destruct records as [|r0 rs]; [eauto|].
  rewrite Hdf, Hf. destruct (truthy_str category).
  - rewrite (Hv eq_refl). destruct (filter _ df'); cbn; [eauto|]. split; [done|]. done.
  - destruct df'; cbn; [eauto|]. split; [done|]. done.
Qed.



(** X8.  What [add_expense] does to the worksheet: when it reports a
    failure the spreadsheet is as before, and when it reports success the
    worksheet has exactly one more row, at the end. *)
Theorem add_expense_effect svc now amount category description :
  match add_expense svc now amount category description with
  | Some ((false, _), svc') => svc' = svc
  | Some ((true, _), svc') =>
      ∃ records row, svc = Worksheet records ∧ svc' = Worksheet (records ++ [row])
  | None => amount = AmountNone
  end.
Proof.
  unfold add_expense. destruct (not_in_categories category); [done|].
  destruct amount as [x|text|]; cbn [float_call]; [| |done].
  - destruct svc; [done..|]. eauto.
  - destruct (float_of_str text); [|done]. destruct svc; [done..|]. eauto.
Qed.



(** X10.  The weekly report is on the rows dated at or after the Monday of
    the week of [now] at the time of day of [now].  So for rows dated at
    midnight, as the date cells are, and a [now] that is not midnight, it is
    on the rows dated on or after the Tuesday of that week. *)
Theorem week_report_exact records now r :
  all_dated records → after_first_week now →
  (r ∈ reported_rows (get_expense_report (Worksheet records) now "week" None)
   ↔ r ∈ records ∧ ∃ t, Data r = Some t ∧ monday_midnight now + time_of_day now ≤ t)
  ∧ (0 < time_of_day now →
     ∀ t, r ∈ records → Data r = Some t → time_of_day t = 0 →
          (r ∈ reported_rows (get_expense_report (Worksheet records) now "week" None)
           ↔ monday_midnight now + US_PER_DAY ≤ t)).
Proof.
  intros Hd Hnow.
  assert (now - weekday now * US_PER_DAY = monday_midnight now + time_of_day now) as Hstart.
  { unfold monday_midnight, time_of_day, toordinal. rewrite US_PER_DAY_eq.
    pose proof (Z.div_mod now 86400000000 ltac:(lia)). lia. }
  split.
  - rewrite (week_report_rows_exact records now r Hd Hnow). by rewrite Hstart.
  - intros Htod t Hin Ht Hmid.
    rewrite (week_report_rows_exact records now r Hd Hnow), Hstart.
    assert (time_of_day now < US_PER_DAY) as Hlt.
    { unfold time_of_day. rewrite US_PER_DAY_eq. apply Z.mod_pos_bound. lia. }
    assert (∃ k, t = k * US_PER_DAY) as [k ->].
    { exists (t / US_PER_DAY). revert Hmid. unfold time_of_day. rewrite US_PER_DAY_eq.
      pose proof (Z.div_mod t 86400000000 ltac:(lia)). lia. }
    unfold monday_midnight in *. rewrite US_PER_DAY_eq in *. split.
    + intros [_ (t' & Ht' & Hle)]. rewrite Ht in Ht'. injection Ht' as <-. nia.
    + intros Hle. split; [done|]. eexists. split; [done|]. lia.
Qed.

End LedgerReports.

Section LedgerReportChecks.
#[local] Existing Instance Samples.decimal.
Import sheets_manager Samples.

(** X2 on the January ledger: the monthly report for "Casa". *)
Lemma report_category_filter_witness :
  spent sunday_7 (10 # 1) "Casa"
    ∈ reported_rows (get_expense_report (Worksheet january_ledger)
                       wednesday_10_1430 "month" (Some "Casa")).
Proof.
  apply (report_category_filter january_ledger wednesday_10_1430 "month" "Casa").
  - do 2 apply list_elem_of_further. apply list_elem_of_here.
  - split; [apply list_elem_of_here | reflexivity].
Defined.

(** X3 on the January ledger: the period "decade" gives every row. *)
Lemma report_other_period_is_all_witness :
  reported_rows (get_expense_report (Worksheet january_ledger) wednesday_10_1430 "decade" None)
  = january_ledger.
Proof.
  apply (report_other_period_is_all january_ledger wednesday_10_1430 "decade"
           january_ledger_dated); discriminate.
Defined.

(** X4 on the January ledger: no row is dated the 10th; the Friday row is
    in the monthly report, hence in the yearly one. *)
Lemma report_day_month_year_witness :
  spent friday_12 (3 # 1) "Altro"
    ∈ reported_rows (get_expense_report (Worksheet january_ledger)
                       wednesday_10_1430 "year" None).
Proof.
  destruct (report_day_month_year january_ledger wednesday_10_1430
              (spent friday_12 (3 # 1) "Altro") january_ledger_dated)
    as (_ & Hmonth & Hyear).
  apply Hyear, Hmonth. split.
  - do 3 apply list_elem_of_further. apply list_elem_of_here.
  - exists friday_12. repeat split; reflexivity.
Defined.

(** X5: after the January rows, a row whose date was written "2024-01-10",
    on which the conversion raises. *)
Lemma report_unreadable_date_witness :
  get_expense_report
    (Worksheet (january_ledger
                ++ [@Build_record decimal None (5 # 1) "Altro" "data scritta 2024-01-10"]))
    wednesday_10_1430 "all" None
  = (false, Text "Errore nella generazione del report.").
Proof.
  apply (report_unreadable_date _ wednesday_10_1430 "all" None
           (@Build_record decimal None (5 # 1) "Altro" "data scritta 2024-01-10")); [|reflexivity].
  apply elem_of_app. right. apply list_elem_of_here.
Defined.

(** X6 on the January ledger: the daily report for "Salute" is a text. *)
Lemma report_succeeds_witness :
  ∃ text,
    get_expense_report (Worksheet january_ledger) wednesday_10_1430 "day" (Some "Salute")
    = (true, Text text).
Proof.
  refine (proj2 (report_succeeds january_ledger wednesday_10_1430 "day" (Some "Salute")
                   january_ledger_dated wednesday_after_first_week
                   (or_intror (ex_intro _ "Salute" (conj eq_refl _)))) eq_refl).
  do 4 apply list_elem_of_further. apply list_elem_of_here.
Defined.



(** X10 on the January ledger at 14:30 of Wednesday the 10th: the Friday
    row is reported. *)
Lemma week_report_exact_witness :
  spent friday_12 (3 # 1) "Altro"
    ∈ reported_rows
        (get_expense_report (Worksheet january_ledger) wednesday_10_1430 "week" None).
Proof.
  apply (proj1 (week_report_exact january_ledger wednesday_10_1430
                  (spent friday_12 (3 # 1) "Altro")
                  january_ledger_dated wednesday_after_first_week)).
  split.
  - do 3 apply list_elem_of_further. apply list_elem_of_here.
  - exists friday_12. split; [reflexivity|]. vm_compute. discriminate.
Defined.

End LedgerReportChecks.

(* ===================================================================== *)
(** * More on the calendar adapter *)
(* ===================================================================== *)

Section CalendarOperations.
Import calendar_manager.

(** X11.  What the three operations do to the calendar: one that reports
    a failure leaves it as it was; a successful [create_event] adds one
    event under the id the service gives; a successful [update_event] or
    [delete_event] finds the event and rewrites or removes that id only. *)
Theorem calendar_effects svc event_id summary start_time end_time description location :
  match create_event svc event_id summary start_time end_time description location with
  | ((false, _), svc') => svc' = svc
  | ((true, p), svc') =>
      p = EventId event_id
      ∧ ∃ events e, svc = Calendar events ∧ svc' = Calendar (<[event_id := e]> events)
  end
  ∧ match update_event svc event_id summary start_time end_time description location with
    | ((false, _), svc') => svc' = svc
    | ((true, _), svc') =>
        ∃ events e e', svc = Calendar events ∧ events !! event_id = Some e
                       ∧ svc' = Calendar (<[event_id := e']> events)
    end
  ∧ match delete_event svc event_id with
    | ((false, _), svc') => svc' = svc
    | ((true, _), svc') =>
        ∃ events e, svc = Calendar events ∧ events !! event_id = Some e
                    ∧ svc' = Calendar (delete event_id events)
    end.
Proof.
  split; [|split].
  - unfold create_event. destruct svc as [| |events]; [done| |].
    + by destruct (_ ≫= _).
    + destruct (_ ≫= _) as [e|]; [|done]. split; [done|]. by exists events, e.
  - unfold update_event. destruct svc as [| |events]; [done..|].
    destruct (events !! event_id) as [e|] eqn:He; [|done].
    destruct (apply_update _ _ _ _ _ e) as [e'|]; [|done]. by exists events, e, e'.
  - unfold delete_event. destruct svc as [| |events]; [done..|].
    destruct (events !! event_id) as [e|] eqn:He; [|done]. by exists events, e.
Qed.

(** X12.  [delete_event] on an event the calendar holds succeeds, names
    the title the event had, removes that id and no other; a second
    deletion of the same id is a failure that changes nothing. *)
Theorem delete_event_removes events event_id e :
  events !! event_id = Some e →
  delete_event (Calendar events) event_id
  = ((true, Quoted "Evento '"
              (Some (default (PStr "Evento sconosciuto") (calendar_manager.summary e)))
              "' eliminato con successo."),
     Calendar (delete event_id events))
  ∧ delete event_id events !! event_id = None
  ∧ (∀ other, other ≠ event_id → delete event_id events !! other = events !! other)
  ∧ delete_event (Calendar (delete event_id events)) event_id
    = ((false, Caught "Errore nell'eliminazione dell'evento: "),
       Calendar (delete event_id events)).
Proof.
  intros He. unfold delete_event. rewrite He, lookup_delete_eq.
  repeat split; try done. intros other Hne. by apply lookup_delete_ne.
Qed.

(** X13.  Creating an event under a fresh id and deleting that id gives
    back the calendar as it was, and the deletion names the title given at
    creation. *)
Theorem create_then_delete events new_id summary start_time end_time description location p svc' :
  events !! new_id = None →
  create_event (Calendar events) new_id summary start_time end_time description location
  = ((true, p), svc') →
  delete_event svc' new_id
  = ((true, Quoted "Evento '" (Some summary) "' eliminato con successo."), Calendar events).
Proof.
  intros Hfresh. unfold create_event.
  destruct (_ ≫= _) as [e|] eqn:Hbody; [|done]. intros [= _ <-].
  assert (calendar_manager.summary e = Some summary) as Hs.
  { destruct (if is_None end_time then plus_one_hour start_time else Some end_time); [|done].
    cbn in Hbody. destruct (isoformat start_time); [|done]. cbn in Hbody.
    destruct (isoformat p0); [|done]. cbn in Hbody. by injection Hbody as <-. }
  unfold delete_event. rewrite lookup_insert_eq, Hs, delete_insert_id by done. done.
Qed.

(** X14.  An update that brings no value - an empty or absent title, no
    description, no location, empty or absent times - succeeds and leaves
    the calendar exactly as it was. *)
Theorem update_with_nothing events event_id e summary start_time end_time :
  events !! event_id = Some e →
  truthy summary = false → truthy start_time = false → truthy end_time = false →
  update_event (Calendar events) event_id summary start_time end_time PNone PNone
  = ((true, Quoted "Evento '" (calendar_manager.summary e) "' aggiornato con successo."),
     Calendar events).
Proof.
  intros He Hs Hst Hen. unfold update_event, apply_update. rewrite He, Hs.
  cbn [is_None negb]. cbv zeta. rewrite (assign_time_false _ start_time) by done.
  cbn [mbind option_bind]. rewrite (assign_time_false _ end_time) by done.
  by rewrite insert_id.
Qed.

(** X15.  On a calendar that answers, [create_event] succeeds exactly
    when the start is a datetime and the end is either absent, with the
    start more than an hour before the last datetime, or a datetime; in
    every other case the calendar is left as it was. *)
Theorem create_event_succeeds_iff events new_id summary start_time end_time description
    location :
  ((create_event (Calendar events) new_id summary start_time end_time description
      location).1.1 = true
   ↔ ∃ start, start_time = PDatetime start
       ∧ ((end_time = PNone ∧ representable (start + US_PER_HOUR) = true)
          ∨ ∃ t, end_time = PDatetime t))
  ∧ ((create_event (Calendar events) new_id summary start_time end_time description
        location).1.1 = false
     → (create_event (Calendar events) new_id summary start_time end_time description
          location).2 = Calendar events).
Proof.
  unfold create_event, plus_one_hour, add.
  destruct start_time as [| | | | | |start];
    try (destruct end_time; cbn; (split; [split; [done | by intros (? & ? & _)] | done])).
  rewrite timedelta_one_hour.
  destruct end_time as [| | | | | |t]; cbn [is_None isoformat mbind option_bind fmap option_fmap
                                            option_map];
    try (cbn; (split; [split; [done | by intros (? & _ & [[? _] | [? ?]])] | done])).
  - destruct (representable (start + US_PER_HOUR)) eqn:Hr; cbn; (split; [split|done]).
    + intros _. exists start. split; [done|]. by left.
    + done.
    + done.
    + intros (start' & [= <-] & [[_ Hr'] | [? ?]]); [congruence | done].
  - split; [split|done]; [|done]. intros _. exists start. split; [done|]. right. by exists t.
Qed.

Lemma string_app_cons c s1 s2 : String c s1 +:+ s2 = String c (s1 +:+ s2).
Proof. reflexivity. Qed.

Lemma string_length_app s1 s2 :
  String.length (s1 +:+ s2) = (String.length s1 + String.length s2)%nat.
Proof.
  induction s1 as [|c s1 IH]; [done|]. rewrite string_app_cons. simpl. by rewrite IH.
Qed.

Lemma substring_prefix_length n s :
  (n ≤ String.length s)%nat → String.length (String.substring 0 n s) = n.
Proof.
  revert s. induction n as [|n IH]; intros s Hn.
  - by destruct s.
  - destruct s as [|c s]; cbn in *; [lia|]. rewrite IH; lia.
Qed.

(** X16.  In the list of events a description of at most 50 characters is
    shown as it is, and a longer one is cut to 50: its first 47 characters
    and three dots. *)
Theorem shown_description_bound desc :
  (String.length (shown_description desc) ≤ 50)%nat
  ∧ ((String.length desc ≤ 50)%nat → shown_description desc = desc)
  ∧ ((50 < String.length desc)%nat →
     shown_description desc = String.substring 0 47 desc +:+ "..."
     ∧ String.length (shown_description desc) = 50%nat).
Proof.
  unfold shown_description.
  destruct (Nat.ltb_spec 50 (String.length desc)) as [Hlong | Hshort].
  - rewrite string_length_app, substring_prefix_length by lia. cbn. split; [lia|].
    split; [lia | done].
  - split; [done|]. split; [done | lia].
Qed.

End CalendarOperations.

Section CalendarOperationChecks.
Import calendar_manager Samples.

(** X12 on the calendar of two events: the dinner is deleted. *)
Lemma delete_event_removes_witness :
  delete_event (Calendar two_event_calendar) "d3e4f"
  = ((true, Quoted "Evento '" (Some (PStr "Cena")) "' eliminato con successo."),
     Calendar (delete "d3e4f" two_event_calendar)).
Proof. exact (proj1 (delete_event_removes two_event_calendar "d3e4f" cena eq_refl)). Defined.

(** X13 on the calendar of one event: a dentist appointment comes and goes. *)
Lemma create_then_delete_witness :
  delete_event
    (create_event (Calendar one_event_calendar) "g7h8i" (PStr "Dentista")
       (PDatetime (make 2024 1 12 9 0 0 0)) PNone (PStr "") (PStr "")).2
    "g7h8i"
  = ((true, Quoted "Evento '" (Some (PStr "Dentista")) "' eliminato con successo."),
     Calendar one_event_calendar).
Proof.
  exact (create_then_delete one_event_calendar "g7h8i" (PStr "Dentista")
           (PDatetime (make 2024 1 12 9 0 0 0)) PNone (PStr "") (PStr "") _ _
           eq_refl eq_refl).
Defined.

(** X14 on the calendar of one event, with an empty title. *)
Lemma update_with_nothing_witness :
  update_event (Calendar one_event_calendar) "a1b2c" (PStr "") PNone (PStr "") PNone PNone
  = ((true, Quoted "Evento '" (Some (PStr "Riunione")) "' aggiornato con successo."),
     Calendar one_event_calendar).
Proof.
  exact (update_with_nothing one_event_calendar "a1b2c" riunione (PStr "") PNone (PStr "")
           eq_refl eq_refl eq_refl eq_refl).
Defined.

(** X16 on a description of 60 characters. *)
Lemma shown_description_bound_witness :
  shown_description "Portare i documenti firmati e la copia del contratto di sede"
  = "Portare i documenti firmati e la copia del cont...".
Proof.
  exact (proj1 (proj2 (proj2 (shown_description_bound
           "Portare i documenti firmati e la copia del contratto di sede")) ltac:(cbn; lia))).
Defined.

End CalendarOperationChecks.

(* ===================================================================== *)
(** * More on the extractor *)
(* ===================================================================== *)

Section ExtractorShapes.
Context `{DateParser}.
Import nlp_processor.

(** X17.  [parse_event_request] sends one request when an API key is set
    and none otherwise.  It succeeds only on a reply that is a JSON object
    with a title and a start that parses; the result is then that object
    with the start replaced by its datetime and the end by a datetime - the
    parsed end, or one hour after the start - and every other key as the
    model gave it. *)
Theorem new_event_extraction client answer text :
  (parse_event_request client answer text).2 = (if client then [text] else [])
  ∧ ∀ p, (parse_event_request client answer text).1 = (true, p) →
      client = true
      ∧ ∃ content (event_data : gmap string pyval) start end_time,
          answer = Reply content (Some (PDict event_data))
          ∧ truthy (dict_get event_data "summary") = true
          ∧ parse_local (dict_get event_data "start_time") = Some start
          ∧ (end_time = start + US_PER_HOUR
             ∨ parse_local (dict_get event_data "end_time") = Some end_time)
          ∧ p = Data (<["end_time" := PDatetime end_time]>
                        (<["start_time" := PDatetime start]> event_data)).
Proof.
  unfold parse_event_request. destruct client; cbn [negb]; [|done].
  split; [by destruct answer as [|content [[]|]]|].
  intros p. destruct answer as [|content [[]|]]; try done. cbn [fst].
  unfold new_event_of.
  destruct (truthy (dict_get entries "summary")) eqn:Hsum; [|done].
  destruct (truthy (dict_get entries "start_time")); [|done]. cbn [negb].
  destruct (parse_local (dict_get entries "start_time")) as [start|] eqn:Hst; [|done].
  rewrite dict_get_insert_ne by done.
  destruct (truthy (dict_get entries "end_time")).
  - destruct (parse_local (dict_get entries "end_time")) as [end_time|] eqn:Hen.
    + intros [= <-]. split; [done|]. exists content, entries, start, end_time. split_and!; auto.
    + unfold add. rewrite timedelta_one_hour.
      destruct (representable (start + US_PER_HOUR)); [|done].
      intros [= <-]. split; [done|]. exists content, entries, start, (start + US_PER_HOUR). split_and!; auto.
  - unfold add. rewrite timedelta_one_hour.
    destruct (representable (start + US_PER_HOUR)); [|done].
    intros [= <-]. split; [done|]. exists content, entries, start, (start + US_PER_HOUR). split_and!; auto.
Qed.

Lemma datetime_or_false_falsy v : truthy v = false → datetime_or_false v.
Proof. by left. Qed.

(** X18.  A successful [parse_event_update_request] comes from a reply
    that is a JSON object; its directive names the event it was asked about,
    holds as start and as end either a datetime or a value that counts as
    false, and has every other key as the model gave it. *)
Theorem update_directive_shape client answer text event_id p :
  (parse_event_update_request client answer text event_id).1 = (true, p) →
  ∃ content (update_data d : gmap string pyval),
    answer = Reply content (Some (PDict update_data))
    ∧ p = Data d
    ∧ d !! "event_id" = Some (PStr event_id)
    ∧ datetime_or_false (dict_get d "start_time")
    ∧ datetime_or_false (dict_get d "end_time")
    ∧ ∀ key, key ≠ "start_time" → key ≠ "end_time" → key ≠ "event_id" →
             d !! key = update_data !! key.
Proof.
  unfold parse_event_update_request. destruct client; cbn [negb]; [|done].
  destruct answer as [|content [[]|]]; try done. cbn [fst]. unfold update_of.
  destruct (all_None entries); [done|].
  set (ud1 := if truthy (dict_get entries "start_time")
              then match parse_local (dict_get entries "start_time") with
                   | Some start_time => Some (<["start_time" := PDatetime start_time]> entries)
                   | None => None
                   end
              else Some entries).
  destruct ud1 as [ud|] eqn:Hud; [|done]. subst ud1.
  assert (datetime_or_false (dict_get ud "start_time")
          ∧ dict_get ud "end_time" = dict_get entries "end_time"
          ∧ ∀ key, key ≠ "start_time" → ud !! key = entries !! key) as (Hst & Hen & Hfr).
  { destruct (truthy (dict_get entries "start_time")) eqn:Ht.
    - destruct (parse_local _) as [start|]; [|done]. injection Hud as <-.
      split; [|split].
      + right. exists start. unfold dict_get. by rewrite lookup_insert_eq.
      + by apply dict_get_insert_ne.
      + intros key Hk. by apply lookup_insert_ne.
    - injection Hud as <-. split; [by left | done]. }
  rewrite Hen.
  intros [= <-]. exists content, entries. eexists. split; [done|]. split; [done|].
  split; [by rewrite lookup_insert_eq|].
  rewrite !(dict_get_insert_ne _ "event_id") by done.
  destruct (truthy (dict_get entries "end_time")) eqn:Hte.
  - destruct (parse_local (dict_get entries "end_time")) as [end_time|].
    + rewrite dict_get_insert_ne by done. split; [done|]. split.
      * right. exists end_time. unfold dict_get. by rewrite lookup_insert_eq.
      * intros key H1 H2 H3. rewrite !lookup_insert_ne by done. by apply Hfr.
    + rewrite dict_get_insert_ne by done. split; [done|]. split.
      * left. unfold dict_get. by rewrite lookup_insert_eq.
      * intros key H1 H2 H3. rewrite !lookup_insert_ne by done. by apply Hfr.
  - split; [done|]. split.
    + left. by rewrite Hen.
    + intros key H1 H2 H3. rewrite lookup_insert_ne by done. by apply Hfr.
Qed.

End ExtractorShapes.

(** ** Replies that are numerals *)

Lemma digit_not_space c : Py.isdigit c = true → Py.isspace c = false.
Proof. destruct c as [[] [] [] [] [] [] [] []]; vm_compute; congruence. Qed.

Lemma digit_lower c : Py.isdigit c = true → Py.lower_char c = c.
Proof. destruct c as [[] [] [] [] [] [] [] []]; vm_compute; congruence. Qed.

Lemma digit_not_n c : Py.isdigit c = true → Ascii.eqb "n" c = false.
Proof. destruct c as [[] [] [] [] [] [] [] []]; vm_compute; congruence. Qed.

Lemma take_digits_all s : Py.take_digits s = s → Py.all_digits s = true.
Proof.
  induction s as [|c s IH]; [done|]. simpl. destruct (Py.isdigit c); [|done].
  intros [= Hs]. by rewrite IH.
Qed.

Lemma all_digits_take s : Py.all_digits s = true → Py.take_digits s = s.
Proof.
  induction s as [|c s IH]; [done|]. simpl. destruct (Py.isdigit c); [|done].
  intros Hs. by rewrite IH.
Qed.

Lemma numeral_digits text i :
  numeral text i → Py.all_digits text = true ∧ text ≠ "".
Proof.
  intros [Hm _]. unfold Py.match_digits in Hm.
  destruct (String.length (Py.take_digits text) =? 0)%nat eqn:Hl; [done|].
  destruct (_ || _); [|done]. injection Hm as Hm. split; [by apply take_digits_all|].
  intros ->. done.
Qed.

Lemma all_digits_rev_app s1 s2 :
  Py.all_digits (String.rev_app s1 s2) = Py.all_digits s1 && Py.all_digits s2.
Proof.
  revert s2. induction s1 as [|c s1 IH]; intros s2; [done|]. simpl. rewrite IH. simpl.
  destruct (Py.isdigit c), (Py.all_digits s1); done.
Qed.

Lemma all_digits_rev s : Py.all_digits (String.rev s) = Py.all_digits s.
Proof. unfold String.rev. rewrite all_digits_rev_app. simpl. apply andb_true_r. Qed.

Lemma string_app_nil_r s : s +:+ "" = s.
Proof. induction s as [|c s IH]; [done|]. by rewrite string_app_cons, IH. Qed.

Lemma string_rev_app_rev_app s1 s2 s3 :
  String.rev_app (String.rev_app s1 s2) s3 = String.rev_app s2 (s1 +:+ s3).
Proof.
  revert s2 s3. induction s1 as [|c s1 IH]; intros s2 s3; [done|]. simpl. by rewrite IH, string_app_cons.
Qed.

Lemma string_rev_involutive s : String.rev (String.rev s) = s.
Proof. unfold String.rev. rewrite string_rev_app_rev_app. simpl. apply string_app_nil_r. Qed.

Lemma lstrip_digits s : Py.all_digits s = true → Py.lstrip s = s.
Proof.
  destruct s as [|c s]; [done|]. simpl. intros Hd. apply andb_true_iff in Hd as [Hc _].
  by rewrite (digit_not_space c Hc).
Qed.

Lemma strip_digits s : Py.all_digits s = true → Py.strip s = s.
Proof.
  intros Hd. unfold Py.strip, Py.rstrip. rewrite (lstrip_digits s Hd).
  rewrite lstrip_digits by (by rewrite all_digits_rev). apply string_rev_involutive.
Qed.

Lemma lower_digits s : Py.all_digits s = true → Py.lower s = s.
Proof.
  induction s as [|c s IH]; [done|]. simpl. intros Hd. apply andb_true_iff in Hd as [Hc Hs].
  by rewrite (digit_lower c Hc), IH.
Qed.

Lemma digits_without_non_trovato s :
  Py.all_digits s = true → Py.contains "non trovato" s = false.
Proof.
  induction s as [|c s IH]; [done|]. intros Hd. simpl in Hd.
  apply andb_true_iff in Hd as [Hc Hs].
  change (Py.contains "non trovato" (String c s))
    with (Py.startswith "non trovato" (String c s) || Py.contains "non trovato" s).
  rewrite (IH Hs), orb_false_r.
  change (Py.startswith "non trovato" (String c s))
    with (if Ascii.eqb "n" c then Py.startswith "on trovato" s else false).
  by rewrite (digit_not_n c Hc).
Qed.

Lemma search_digits_all s :
  Py.all_digits s = true → s ≠ "" → Py.search_digits s = Some s.
Proof.
  destruct s as [|c s]; [done|]. intros Hd _. cbn [Py.search_digits].
  pose proof Hd as Hd'. simpl in Hd'. apply andb_true_iff in Hd' as [-> _].
  by rewrite all_digits_take.
Qed.

Section DeletionReplies.
Context `{DateParser}.
Import nlp_processor.

(** X19.  When the list of candidates is not empty and the model answers
    with the numeral of [i], of no more digits than [int] reads: for
    [1 ≤ i ≤ n] the resolver returns the id of the [i]-th listed event, and
    for any other number, 0 included, it reports "Numero evento non
    valido."; a reply that contains "non trovato" is a failure whatever else
    it contains. *)
Theorem deletion_by_reply text (events : list calendar_manager.listed) content loaded i :
  events ≠ [] →
  (numeral content i → (String.length content ≤ 4300)%nat →
     (1 ≤ i ≤ Z.of_nat (length events) →
        ∃ e, events !! Z.to_nat (i - 1) = Some e
             ∧ parse_event_deletion_request true (Reply content loaded) text (Candidates events)
               = ((true, EventId (calendar_manager.id e)), [text]))
     ∧ (¬ (1 ≤ i ≤ Z.of_nat (length events)) →
        parse_event_deletion_request true (Reply content loaded) text (Candidates events)
        = ((false, Message (Msg "Numero evento non valido.")), [text])))
  ∧ (Py.contains "non trovato" (Py.lower (Py.strip content)) = true →
     parse_event_deletion_request true (Reply content loaded) text (Candidates events)
     = ((false, Message not_identified), [text])).
Proof.
  intros Hne. unfold parse_event_deletion_request. cbn [negb].
  destruct events as [|e0 es]; [done|]. set (events := e0 :: es). split.
  - intros Hnum _. destruct (numeral_digits content i Hnum) as [Hd Hnz].
    destruct Hnum as [_ Hi]. unfold deletion_target.
    rewrite (strip_digits content Hd), (lower_digits content Hd),
      (digits_without_non_trovato content Hd), (search_digits_all content Hd Hnz), Hi.
    split.
    + intros Hr.
      assert ((0 <=? i - 1) && (i - 1 <? Z.of_nat (length events)) = true) as ->.
      { apply andb_true_iff. split; [apply Z.leb_le | apply Z.ltb_lt]; lia. }
      destruct (events !! Z.to_nat (i - 1)) as [e|] eqn:E; [by exists e|].
      apply lookup_ge_None in E. lia.
    + intros Hr.
      assert ((0 <=? i - 1) && (i - 1 <? Z.of_nat (length events)) = false) as ->; [|done].
      apply andb_false_iff.
      destruct (Z.leb_spec 0 (i - 1)); [right; apply Z.ltb_ge; lia | by left].
  - intros Hc. unfold deletion_target. by rewrite Hc.
Qed.

End DeletionReplies.

Section ExtractorShapeChecks.
#[local] Existing Instance Samples.minutes_parser.
Import nlp_processor Samples.

(** X17 on a reply with both times: the end is the parsed one. *)
Lemma new_event_extraction_witness :
  ∃ content (event_data : gmap string pyval) start end_time,
    json_reply [("summary", Some "Cena"); ("start_time", Some "2024-01-11 20:00");
                ("end_time", Some "2024-01-11 22:30")]
    = Reply content (Some (PDict event_data))
    ∧ truthy (dict_get event_data "summary") = true
    ∧ parse_local (dict_get event_data "start_time") = Some start
    ∧ (end_time = start + US_PER_HOUR
       ∨ parse_local (dict_get event_data "end_time") = Some end_time)
    ∧ Data (list_to_map [("summary", PStr "Cena");
                         ("start_time", PDatetime (make 2024 1 11 20 0 0 0));
                         ("end_time", PDatetime (make 2024 1 11 22 30 0 0))])
      = Data (<["end_time" := PDatetime end_time]>
                (<["start_time" := PDatetime start]> event_data)).
Proof.
  exact (proj2 (proj2 (new_event_extraction true
           (json_reply [("summary", Some "Cena"); ("start_time", Some "2024-01-11 20:00");
                        ("end_time", Some "2024-01-11 22:30")])
           "cena domani dalle 20 alle 22:30") _ eq_refl)).
Defined.

(** X18 on a reply that moves the start and leaves the end empty. *)
Lemma update_directive_shape_witness :
  ∃ content (update_data d : gmap string pyval),
    json_reply [("start_time", Some "2024-01-12 09:00"); ("end_time", Some "");
                ("location", Some "Sala 2")]
    = Reply content (Some (PDict update_data))
    ∧ Data (list_to_map [("start_time", PDatetime (make 2024 1 12 9 0 0 0));
                         ("end_time", PStr ""); ("location", PStr "Sala 2");
                         ("event_id", PStr "a1b2c")])
      = Data d
    ∧ d !! "event_id" = Some (PStr "a1b2c")
    ∧ datetime_or_false (dict_get d "start_time")
    ∧ datetime_or_false (dict_get d "end_time")
    ∧ ∀ key, key ≠ "start_time" → key ≠ "end_time" → key ≠ "event_id" →
             d !! key = update_data !! key.
Proof.
  exact (update_directive_shape true
           (json_reply [("start_time", Some "2024-01-12 09:00"); ("end_time", Some "");
                        ("location", Some "Sala 2")])
           "spostala alle 9 in Sala 2" "a1b2c" _ eq_refl).
Defined.

(** X19 on the two listed events: "2" names the second, "0" is not valid. *)
Lemma deletion_by_reply_witness :
  parse_event_deletion_request true (Reply "2" (Some (PNum 2))) "la cena" (Candidates two_events)
  = ((true, EventId "d3e4f"), ["la cena"])
  ∧ parse_event_deletion_request true (Reply "0" (Some (PNum 0))) "la cena"
      (Candidates two_events)
    = ((false, Message (Msg "Numero evento non valido.")), ["la cena"]).
Proof.
  split.
  - destruct (proj1 (proj1 (deletion_by_reply "la cena" two_events "2" (Some (PNum 2)) 2
                              ltac:(discriminate)) (conj eq_refl eq_refl) ltac:(cbn; lia))
                ltac:(cbn; lia))
      as (e & He & Heq).
    cbn in He. injection He as <-. exact Heq.
  - exact (proj2 (proj1 (deletion_by_reply "la cena" two_events "0" (Some (PNum 0)) 0
                           ltac:(discriminate)) (conj eq_refl eq_refl) ltac:(cbn; lia))
             ltac:(cbn; lia)).
Defined.

End ExtractorShapeChecks.

(* ===================================================================== *)
(** * More on the conversations *)
(* ===================================================================== *)

(** ** [str.replace] on a prefix *)

Lemma startswith_app p s : Py.startswith p (p +:+ s) = true.
Proof.
  induction p as [|a p IH]; [done|]. rewrite string_app_cons. simpl.
  by rewrite Ascii.eqb_refl.
Qed.

Lemma replace_scan_skip old new p s :
  Py.replace_scan old new (String.length p) (p +:+ s) = Py.replace_scan old new 0 s.
Proof. induction p as [|a p IH]; [done|]. rewrite string_app_cons. simpl. exact IH. Qed.

Lemma replace_scan_absent old new s :
  Py.contains old s = false → Py.replace_scan old new 0 s = s.
Proof.
  induction s as [|c s IH]; [done|].
  change (Py.contains old (String c s))
    with (Py.startswith old (String c s) || Py.contains old s).
  intros Hc. apply orb_false_iff in Hc as [Hs Hr].
  change (Py.replace_scan old new 0 (String c s))
    with (if Py.startswith old (String c s)
          then new +:+ Py.replace_scan old new (Nat.pred (String.length old)) s
          else String c (Py.replace_scan old new 0 s)).
  by rewrite Hs, (IH Hr).
Qed.

(** [(old + s).replace(old, new) == new + s] when [old] is not empty and
    does not occur in [s]. *)
Lemma replace_prefix a old new s :
  Py.contains (String a old) s = false →
  Py.replace (String a old) new (String a old +:+ s) = new +:+ s.
Proof.
  intros Hc. unfold Py.replace. rewrite string_app_cons.
  change (Py.replace_scan (String a old) new 0 (String a (old +:+ s)))
    with (if Py.startswith (String a old) (String a (old +:+ s))
          then new +:+ Py.replace_scan (String a old) new (String.length old) (old +:+ s)
          else String a (Py.replace_scan (String a old) new 0 (old +:+ s))).
  rewrite <-string_app_cons, startswith_app, replace_scan_skip.
  by rewrite (replace_scan_absent _ _ _ Hc).
Qed.


Section Keyboards.
Context `{PyFloat} `{DateParser}.
Import calendar_manager main.
Local Open Scope list_scope.

(** The rows the loop of [add_expense_amount] adds: the buttons come in
    the order of the categories, a row holds one to three of them, and a
    row that is not the last holds three. *)
Lemma category_rows_spec categories : ∀ n i row keyboard,
  n = i + Z.of_nat (length categories) →
  (categories ≠ [] → Z.of_nat (length row) = i mod 3) →
  (categories = [] → row = []) →
  ∃ rows,
    category_rows n i row keyboard categories = keyboard ++ rows
    ∧ concat rows
      = row ++ ((λ c, {| button_text := c; callback_data := "cat_" +:+ c |}) <$> categories)
    ∧ Forall (λ r, (1 ≤ length r ≤ 3)%nat) rows
    ∧ ∀ j r, rows !! j = Some r → (S j < length rows)%nat → length r = 3%nat.
Proof.
  induction categories as [|c cs IH]; intros n i row keyboard Hn Hlen Hnil.
  - exists []. rewrite (Hnil eq_refl). cbn. rewrite app_nil_r.
    split_and!; [done | done | constructor | by intros j r Hj].
  - specialize (Hlen ltac:(done)). cbn [category_rows].
    pose proof (Z.mod_pos_bound i 3 ltac:(lia)) as Hi.
    pose proof (Z.mod_pos_bound (i + 1) 3 ltac:(lia)) as Hi1.
    cbn [length] in Hn.
    destruct (((i + 1) mod 3 =? 0) || (i =? n - 1)) eqn:Hflush.
    + destruct (IH n (i + 1) []
                  (keyboard ++ [row ++ [{| button_text := c; callback_data := "cat_" +:+ c |}]]))
        as (rows & Heq & Hcat & Hall & Hfull).
      * lia.
      * intros Hcs. apply orb_true_iff in Hflush as [Hm | Hlast].
        -- apply Z.eqb_eq in Hm. cbn. lia.
        -- apply Z.eqb_eq in Hlast. destruct cs; [done | cbn [length] in Hn; lia].
      * done.
      * exists ((row ++ [{| button_text := c; callback_data := "cat_" +:+ c |}]) :: rows).
        split_and!.
        -- by rewrite Heq, <-app_assoc.
        -- cbn [concat]. rewrite Hcat. cbn. by rewrite <-app_assoc.
        -- constructor; [|done]. rewrite length_app. cbn. lia.
        -- intros [|j] r Hj Hlt.
           ++ injection Hj as <-. rewrite length_app. cbn.
              destruct rows as [|r0 rows]; [cbn in Hlt; lia|].
              destruct cs as [|c' cs].
              { apply Forall_cons in Hall as [Hr0 _]. destruct r0; [cbn in Hr0; lia | done]. }
              cbn [length] in Hn.
              apply orb_true_iff in Hflush as [Hm | Hlast];
                [apply Z.eqb_eq in Hm | apply Z.eqb_eq in Hlast; lia].
              assert (i mod 3 = 2) by (revert Hm; Z.div_mod_to_equations; lia). lia.
           ++ apply (Hfull j r Hj). cbn in Hlt. lia.
    + apply orb_false_iff in Hflush as [Hm Hlast].
      apply Z.eqb_neq in Hm. apply Z.eqb_neq in Hlast.
      assert (cs ≠ []) as Hcs by (intros ->; cbn in Hn; lia).
      destruct (IH n (i + 1)
                  (row ++ [{| button_text := c; callback_data := "cat_" +:+ c |}]) keyboard)
        as (rows & Heq & Hcat & Hall & Hfull).
      * lia.
      * intros _. rewrite length_app. cbn.
        assert ((i + 1) mod 3 = i mod 3 + 1) by (revert Hm; Z.div_mod_to_equations; lia). lia.
      * done.
      * exists rows. split_and!; [done | | done | done].
        rewrite Hcat. by rewrite <-app_assoc.
Qed.

(** X20.  The category keyboard shows every category once, in the order
    of the list, on a button whose data is "cat_" and the category; a row
    holds one to three buttons and every row but the last holds three. *)
Theorem category_keyboard_rows categories :
  concat (category_keyboard categories)
  = (λ c, {| button_text := c; callback_data := "cat_" +:+ c |}) <$> categories
  ∧ Forall (λ row, (1 ≤ length row ≤ 3)%nat) (category_keyboard categories)
  ∧ ∀ j row, category_keyboard categories !! j = Some row →
             (S j < length (category_keyboard categories))%nat → length row = 3%nat.
Proof.
  unfold category_keyboard.
  destruct (category_rows_spec categories (Z.of_nat (length categories)) 0 [] [])
    as (rows & -> & Hcat & Hall & Hfull); [lia | done | done |].
  cbn [app]. by rewrite Hcat.
Qed.

End Keyboards.

Lemma string_app_inv_head p s1 s2 : p +:+ s1 = p +:+ s2 → s1 = s2.
Proof.
  induction p as [|a p IH]; [done|]. rewrite !string_app_cons. intros [= Hs]. by apply IH.
Qed.

Lemma first_char_differs s1 s2 : String.get 0 s1 ≠ String.get 0 s2 → s1 ≠ s2.
Proof. by intros Hne ->. Qed.

Section ControllerFlows.
Context `{PyFloat} `{DateParser}.
Import calendar_manager main.
Local Open Scope list_scope.

(** ** Buttons *)

(** X21.  The press of a category button is taken in the category state
    and stores the text that follows "cat_": for a category that does not
    itself contain "cat_", the category of the button. *)
Theorem category_button_round_trip w d c :
  Py.contains "cat_" c = false →
  handle_update expense_conv_handler (Some EXPENSE_CATEGORY) w d
    (CallbackQuery ("cat_" +:+ c))
  = Some (add_expense_category w d ("cat_" +:+ c))
  ∧ next (add_expense_category w d ("cat_" +:+ c)) = Return EXPENSE_DESCRIPTION
  ∧ data (add_expense_category w d ("cat_" +:+ c)) = set_expense_category c d.
Proof.
  intros Hc. split; [|split; [done|]].
  - unfold handle_update, states. by rewrite startswith_app.
  - unfold add_expense_category. cbn [data]. by rewrite (replace_prefix "c" "at_" "" c Hc).
Qed.

Lemma find_event_present (evs : list listed) e :
  e ∈ evs → ∃ e', find_event (id e) evs = Some e' ∧ id e' = id e ∧ e' ∈ evs.
Proof.
  intros He. unfold find_event.
  destruct (find _ evs) as [e'|] eqn:Hf.
  - apply find_some in Hf as [Hin Heq]. exists e'.
    split; [done|]. split; [by apply String.eqb_eq | by apply list_elem_of_In].
  - apply list_elem_of_In in He. apply (find_none _ _ Hf) in He.
    by rewrite String.eqb_refl in He.
Qed.

Lemma event_rows_button (evs : list listed) e : ∀ i,
  e ∈ evs → ∃ b, [b] ∈ event_rows i evs ∧ callback_data b = "event_" +:+ id e.
Proof.
  induction evs as [|e0 evs IH]; intros i He; [by apply elem_of_nil in He|].
  apply elem_of_cons in He as [-> | He]; cbn [event_rows].
  - eexists. split; [apply list_elem_of_here | done].
  - destruct (IH (i + 1) He) as (b & Hb & Hd). exists b.
    split; [by apply list_elem_of_further | done].
Qed.

(** The selection handler of the update flow on the button of a listed
    event. *)
Lemma update_event_selection_button w d (evs : list listed) e :
  events d = Some evs → e ∈ evs →
  Py.contains "event_" (id e) = false → id e ≠ "cancel" →
  ∃ e', update_event_selection w d ("event_" +:+ id e)
        = {| next := Return CALENDAR_EVENT_UPDATE;
             out := [query_answer; edit_selected e'];
             data := set_selected_event e' (set_event_id (id e) d);
             after := w |}
        ∧ id e' = id e ∧ e' ∈ evs.
Proof.
  intros Hev He Hc Hne. unfold update_event_selection.
  assert (String.eqb ("event_" +:+ id e) "event_cancel" = false) as ->.
  { apply String.eqb_neq. intros Heq. apply Hne.
    by apply (string_app_inv_head "event_" (id e) "cancel"). }
  rewrite (replace_prefix "e" "vent_" "" (id e) Hc).
  change ("" +:+ id e) with (id e).
  change (events (set_event_id (id e) d)) with (events d). rewrite Hev.
  destruct (find_event_present evs e He) as (e' & Hf & Hid & Hin).
  change (default [] (Some evs)) with evs. rewrite Hf. by exists e'.
Qed.

(** X22.  In the update flow the keyboard has a button for every listed
    event, and its press selects an event with the id of that button - for
    an id that does not contain "event_" and is not "cancel", the data of
    the cancel button. *)
Theorem event_button_selects w d (evs : list listed) e :
  events d = Some evs → e ∈ evs →
  Py.contains "event_" (id e) = false → id e ≠ "cancel" →
  (∃ b, [b] ∈ events_keyboard evs ∧ callback_data b = "event_" +:+ id e)
  ∧ handle_update update_event_conv_handler (Some CALENDAR_EVENT_SELECTION) w d
      (CallbackQuery ("event_" +:+ id e))
    = Some (update_event_selection w d ("event_" +:+ id e))
  ∧ next (update_event_selection w d ("event_" +:+ id e)) = Return CALENDAR_EVENT_UPDATE
  ∧ event_id (data (update_event_selection w d ("event_" +:+ id e))) = Some (id e)
  ∧ ∃ e', selected_event (data (update_event_selection w d ("event_" +:+ id e))) = Some e'
          ∧ id e' = id e ∧ e' ∈ evs.
Proof.
  intros Hev He Hc Hne. split; [|split].
  - destruct (event_rows_button evs e 1 He) as (b & Hb & Hd). exists b.
    split; [|done]. unfold events_keyboard. apply elem_of_app. by left.
  - unfold handle_update, states. by rewrite startswith_app.
  - destruct (update_event_selection_button w d evs e Hev He Hc Hne) as (e' & -> & Hid & Hin).
    split; [done|]. split; [done|]. by exists e'.
Qed.

(** ** The expense flow from the amount to the sheet *)


(** ** The report commands *)

Lemma report_never_invalid_category svc now period category :
  sheets_manager.truthy_str category = false
    ∨ sheets_manager.not_in_categories category = false →
  (sheets_manager.get_expense_report svc now period category).2
  ≠ sheets_manager.Text sheets_manager.invalid_category_message.
Proof.
  intros Hcat. unfold sheets_manager.get_expense_report.
  assert (∀ s, String.get 0 s ≠ Some "C"%char →
               sheets_manager.Text s
               ≠ sheets_manager.Text sheets_manager.invalid_category_message) as Hdiff.
  { intros s Hs [= Heq]. apply Hs. by rewrite Heq. }
  destruct svc as [| |[|r records]]; try (by apply Hdiff).
  destruct (sheets_manager.to_datetime _); [|by apply Hdiff].
  destruct (sheets_manager.filter_period _ _ _) as [[df period_text]|]; [|by apply Hdiff].
  destruct (sheets_manager.truthy_str category).
  - destruct Hcat as [Hcat | Hcat]; [done|]. rewrite Hcat.
    destruct (filter _ df); [by apply Hdiff | done].
  - destruct df; [by apply Hdiff | done].
Qed.

(** X24.  A report command with arguments that do not name a category of
    the configuration answers with the list of categories, whatever the
    state of the sheet - also when it is empty or cannot be reached; and a
    report that the command does ask of the sheet never comes back as the
    invalid-category answer. *)
Theorem report_command_category w command args :
  (args ≠ [] → Py.join " " args ∉ config.EXPENSE_CATEGORIES →
     get_expense_report w command args = inl [Msg sheets_manager.invalid_category_message])
  ∧ ∀ r, get_expense_report w command args = inr r →
         r.2 ≠ sheets_manager.Text sheets_manager.invalid_category_message.
Proof.
  unfold get_expense_report. split.
  - intros Hargs Hnot. destruct args as [|a args]; [done|]. cbv beta iota zeta.
    destruct (bool_decide _) eqn:Hb; [|done]. by apply bool_decide_eq_true_1 in Hb.
  - intros r. destruct args as [|a args]; cbv beta iota zeta.
    + intros [= <-]. apply report_never_invalid_category. by left.
    + generalize (Py.join " " (a :: args)). intros category.
      destruct (bool_decide _) eqn:Hb; [|done]. cbn [negb]. intros [= <-].
      apply report_never_invalid_category. right.
      unfold sheets_manager.not_in_categories. by rewrite Hb.
Qed.

(** ** What a step writes *)

Lemma create_event_success_start svc new_id summary start_time end_time description location
    p svc' :
  create_event svc new_id summary start_time end_time description location = ((true, p), svc') →
  isoformat start_time ≠ None.
Proof.
  intros Hc Hn. unfold create_event in Hc. rewrite Hn in Hc.
  destruct svc; [done| |];
    destruct (if is_None end_time then plus_one_hour start_time else Some end_time);
    cbn in Hc; done.
Qed.

Lemma add_expense_end_writes w d u :
  calendar (after (add_expense_end w d u)) = calendar w
  ∧ (sheets (after (add_expense_end w d u)) = sheets w
     ∨ (next (add_expense_end w d u) = Return END ∧ data (add_expense_end w d u) = clear)).
Proof.
  unfold add_expense_end.
  destruct (sheets_manager.add_expense _ _ _ _ _) as [[[success message] sheets']|]; cbn; auto.
Qed.

Lemma add_event_confirmation_writes w d query_data :
  sheets (after (add_event_confirmation w d query_data)) = sheets w
  ∧ (calendar (after (add_event_confirmation w d query_data)) = calendar w
     ∨ (next (add_event_confirmation w d query_data) = Return END
        ∧ data (add_event_confirmation w d query_data) = clear)).
Proof.
  unfold add_event_confirmation. destruct (String.eqb query_data "event_cancel"); [by auto|].
  destruct (event_data d) as [stored|]; [|by auto].
  destruct (stored !! "summary") as [summary|]; [|by auto].
  destruct (stored !! "start_time") as [start_time|]; [|by auto].
  destruct (stored !! "end_time") as [end_time|]; [|by auto].
  destruct (create_event _ _ _ _ _ _ _) as [[[] result] calendar'] eqn:Ec; [|by auto].
  destruct (isoformat start_time) eqn:Ei; [by auto|].
  by destruct (create_event_success_start _ _ _ _ _ _ _ _ _ Ec).
Qed.

Lemma update_event_changes_writes w d text :
  sheets (after (update_event_changes w d text)) = sheets w
  ∧ (calendar (after (update_event_changes w d text)) = calendar w
     ∨ (next (update_event_changes w d text) = Return END
        ∧ data (update_event_changes w d text) = clear)).
Proof.
  unfold update_event_changes.
  destruct (event_id d) as [[|c event_id]|]; [by auto | | by auto].
  destruct (nlp_processor.parse_event_update_request _ _ _ _).1 as [[] p] eqn:E; [|by auto].
  apply parse_event_update_request_success in E as (r & -> & ->).
  by destruct (update_event _ _ _ _ _ _ _) as [[success message] calendar']; auto.
Qed.

Lemma delete_event_confirmation_sheets w d event_id :
  sheets (after (delete_event_confirmation w d event_id)) = sheets w.
Proof.
  unfold delete_event_confirmation.
  by destruct (delete_event (calendar w) event_id) as [[success message] calendar'].
Qed.

Lemma delete_event_selection_writes w d text :
  sheets (after (delete_event_selection w d text)) = sheets w
  ∧ (calendar (after (delete_event_selection w d text)) = calendar w
     ∨ (next (delete_event_selection w d text) = Return END
        ∧ data (delete_event_selection w d text) = clear)).
Proof.
  unfold delete_event_selection.
  destruct (find_event text _);
    [split; [apply delete_event_confirmation_sheets
            | right; apply delete_event_confirmation_ends]|].
  destruct (by_number text _);
    [split; [apply delete_event_confirmation_sheets
            | right; apply delete_event_confirmation_ends]|].
  destruct (nlp_processor.parse_event_deletion_request _ _ _ _).1 as [[] p] eqn:E; [|by auto].
  apply parse_event_deletion_request_success in E as (e & _ & ->).
  split; [apply delete_event_confirmation_sheets
         | right; apply delete_event_confirmation_ends].
Qed.

Lemma update_event_selection_after w d query_data :
  after (update_event_selection w d query_data) = w.
Proof.
  unfold update_event_selection. destruct (String.eqb _ _); [done|].
  by destruct (find_event _ _).
Qed.

Lemma add_event_description_after w d text : after (add_event_description w d text) = w.
Proof.
  unfold add_event_description.
  destruct (nlp_processor.parse_event_request _ _ _).1 as [[] [m|r|i]]; try done.
  by destruct (r !! "summary"), (r !! "start_time") as [[]|], (r !! "end_time") as [[]|].
Qed.

Lemma listing_start_after w d :
  after (update_event_start w d) = w ∧ after (delete_event_start w d) = w.
Proof.
  unfold update_event_start, delete_event_start.
  by destruct (get_upcoming_events (upcoming w)) as [[] []].
Qed.

(** X25.  What a handled update writes: an expense conversation never
    changes the calendar and a calendar conversation never changes the
    sheet; and a step that changes the sheet or the calendar ends its
    conversation with the session cleared. *)
Theorem writes_end_conversation f state w d u s :
  handle_update f state w d u = Some s →
  (f = expense_conv_handler → calendar (after s) = calendar w)
  ∧ (f ≠ expense_conv_handler → sheets (after s) = sheets w)
  ∧ ((sheets (after s) = sheets w ∧ calendar (after s) = calendar w)
     ∨ (next s = Return END ∧ data s = clear)).
Proof.
  intros Hh.
  assert (after s = w
          ∨ (f = expense_conv_handler ∧ ∃ d' u', s = add_expense_end w d' u')
          ∨ (f ≠ expense_conv_handler
             ∧ ((∃ q, s = add_event_confirmation w d q)
                ∨ (∃ t, s = update_event_changes w d t)
                ∨ (∃ t, s = delete_event_selection w d t)))) as Hcases.
  { unfold handle_update in Hh. destruct state as [state|].
    - destruct (states f state w d u) as [s'|] eqn:Es.
      2:{ destruct u as [text|name args|query_data]; cbn in Hh; try done.
          destruct (String.eqb name "cancel"); inversion Hh; subst. by left. }
      inversion Hh; subst s'; clear Hh. unfold states in Es.
      destruct f, u as [text|name args|query_data]; try done.
      + destruct (state =? EXPENSE_AMOUNT).
        { inversion Es; subst. left. unfold add_expense_amount.
          by destruct (float_of_str _). }
        destruct (state =? EXPENSE_DESCRIPTION); [|done].
        inversion Es; subst. right. left. split; [done|].
        by exists (set_expense_description text d), (Text text).
      + destruct (_ && _); [|done]. inversion Es; subst. right. left. split; [done|].
        by exists (set_expense_description "" d), (Command name args).
      + destruct (_ && _); [|done]. inversion Es; subst. by left.
      + destruct (state =? CALENDAR_EVENT_DESCRIPTION); [|done]. inversion Es; subst.
        left. apply add_event_description_after.
      + destruct (_ && _); [|done]. inversion Es; subst. right. right.
        split; [done|]. left. by exists query_data.
      + destruct (state =? CALENDAR_EVENT_UPDATE); [|done]. inversion Es; subst.
        right. right. split; [done|]. right. left. by exists text.
      + destruct (_ && _); [|done]. inversion Es; subst. left.
        apply update_event_selection_after.
      + destruct (state =? CALENDAR_EVENT_SELECTION); [|done]. inversion Es; subst.
        right. right. split; [done|]. right. right. by exists text.
    - unfold entry_points in Hh. destruct u as [text|name args|query_data]; try done.
      destruct f; destruct (String.eqb name _); inversion Hh; subst; left; try done;
        apply listing_start_after. }
  destruct Hcases as [-> | [(-> & d' & u' & ->) | (Hf & [(q & ->) | [(t & ->) | (t & ->)]])]].
  - by auto.
  - destruct (add_expense_end_writes w d' u') as [Hc Hs].
    split_and!; [done | by intros ? | destruct Hs; [left | right]; done].
  - destruct (add_event_confirmation_writes w d q) as [Hs Hc].
    split_and!; [by intros ? | done | destruct Hc; [left | right]; done].
  - destruct (update_event_changes_writes w d t) as [Hs Hc].
    split_and!; [by intros ? | done | destruct Hc; [left | right]; done].
  - destruct (delete_event_selection_writes w d t) as [Hs Hc].
    split_and!; [by intros ? | done | destruct Hc; [left | right]; done].
Qed.

(** ** The delete and update flows on a listed event *)

(** X26.  In the delete flow a text that is the id of a listed event
    deletes that id: the conversation ends with the session cleared and the
    calendar is left without the id, with every other event as it was; the
    reply reports the title of the deleted event, or the failure when the
    calendar no longer held the id. *)
Theorem delete_by_id w d (evs : list listed) cal e :
  events d = Some evs → e ∈ evs → calendar w = Calendar cal →
  next (delete_event_selection w d (id e)) = Return END
  ∧ data (delete_event_selection w d (id e)) = clear
  ∧ calendar (after (delete_event_selection w d (id e))) = Calendar (delete (id e) cal)
  ∧ out (delete_event_selection w d (id e))
    = [reply_text [Msg "Sto cancellando l'evento..."]; delete_wait_message;
       reply_text
         match cal !! id e with
         | Some ev =>
             [Msg "✅ ";
              Quoted "Evento '"
                (Some (default (PStr "Evento sconosciuto") (calendar_manager.summary ev)))
                "' eliminato con successo."]
         | None => [Msg "❌ "; Caught "Errore nell'eliminazione dell'evento: "]
         end].
Proof.
  intros Hev He Hcal. unfold delete_event_selection. rewrite Hev.
  change (default [] (Some evs)) with evs.
  destruct (find_event_present evs e He) as (e' & -> & -> & _).
  unfold delete_event_confirmation, delete_event. rewrite Hcal.
  destruct (cal !! id e) as [ev|] eqn:Hl; cbn; [done|].
  by rewrite (delete_id _ _ Hl).
Qed.

Lemma update_event_service svc event_id summary start_time end_time description location :
  (update_event svc event_id summary start_time end_time description location).2 = svc
  ∨ ∃ cal ev ev', svc = Calendar cal ∧ cal !! event_id = Some ev
       ∧ (update_event svc event_id summary start_time end_time description location).2
         = Calendar (<[event_id := ev']> cal).
Proof.
  unfold update_event. destruct svc as [| |cal]; [by left..|].
  destruct (cal !! event_id) as [ev|] eqn:Hl; [|by left].
  destruct (apply_update _ _ _ _ _ ev) as [ev'|]; [|by left].
  right. by exists cal, ev, ev'.
Qed.

(** X27.  The update flow from the command to the commit, on the button
    of a listed event: whatever the text and whatever the language model
    answers, the conversation ends, the sheet is not touched, and the
    calendar is left as it was or differs in the event of the pressed
    button only. *)
Theorem update_flow_selected_only w d (evs : list listed) e text :
  upcoming w = Items evs → e ∈ evs →
  Py.contains "event_" (id e) = false → id e ≠ "cancel" →
  let s1 := update_event_start w d in
  let s2 := update_event_selection (after s1) (data s1) ("event_" +:+ id e) in
  let s3 := update_event_changes (after s2) (data s2) text in
  next s1 = Return CALENDAR_EVENT_SELECTION
  ∧ next s2 = Return CALENDAR_EVENT_UPDATE
  ∧ next s3 = Return END
  ∧ sheets (after s3) = sheets w
  ∧ (calendar (after s3) = calendar w
     ∨ ∃ cal ev ev', calendar w = Calendar cal ∧ cal !! id e = Some ev
                     ∧ calendar (after s3) = Calendar (<[id e := ev']> cal)).
Proof.
  intros Hup He Hc Hne. cbv zeta.
  assert (update_event_start w d
          = {| next := Return CALENDAR_EVENT_SELECTION;
               out := [reply_text [Msg "Sto recuperando gli eventi..."]; delete_wait_message;
                       reply_text [Msg "Seleziona l'evento da modificare:"]];
               data := set_events evs d; after := w |}) as ->.
  { unfold update_event_start. rewrite Hup.
    destruct evs as [|e0 evs]; [by apply elem_of_nil in He | done]. }
  cbn [next data after].
  destruct (update_event_selection_button w (set_events evs d) evs e eq_refl He Hc Hne)
    as (e' & -> & Hid & Hin).
  cbn [next data after]. split; [done|]. split; [done|].
  unfold update_event_changes.
  cbn [event_id set_selected_event set_event_id set_events].
  clear Hc Hne Hid. destruct (id e) as [|c i]; [by auto|].
  destruct (nlp_processor.parse_event_update_request _ _ _ _).1 as [[] p] eqn:E; [|by auto].
  apply parse_event_update_request_success in E as (r & -> & ->).
  pose proof (update_event_service (calendar w) (String c i) (dict_get r "summary")
                (dict_get r "start_time") (dict_get r "end_time")
                (dict_get r "description") (dict_get r "location")) as Hu.
  destruct (update_event _ _ _ _ _ _ _) as [[success message] calendar'].
  cbn in Hu |- *. split; [done|]. split; [done|].
  destruct Hu as [-> | (cal & ev & ev' & Hcal & Hl & ->)]; [by left|].
  right. by exists cal, ev, ev'.
Qed.

(** ** An end time given in the request *)

Lemma new_event_given_end (event_data : gmap string pyval) start end_time :
  truthy (dict_get event_data "summary") = true →
  truthy (dict_get event_data "start_time") = true →
  nlp_processor.parse_local (dict_get event_data "start_time") = Some start →
  truthy (dict_get event_data "end_time") = true →
  nlp_processor.parse_local (dict_get event_data "end_time") = Some end_time →
  nlp_processor.new_event_of event_data
  = (true, nlp_processor.Data (<["end_time" := PDatetime end_time]>
                                 (<["start_time" := PDatetime start]> event_data))).
Proof.
  intros Hsum Hst Hp Hen Hpe. unfold nlp_processor.new_event_of.
  rewrite Hsum, Hst, Hp. cbn [negb]. rewrite dict_get_insert_ne by done.
  by rewrite Hen, Hpe.
Qed.

(** X28.  The add-event flow with both times in the reply of the language
    model: the event is created with the start and the end as they were
    parsed, with no check that the end is after the start. *)
Theorem add_event_flow_given_end w d (event_data : gmap string pyval) content text cal
    start end_time :
  openai_client w = true →
  answer w = nlp_processor.Reply content (Some (PDict event_data)) →
  calendar w = Calendar cal →
  truthy (dict_get event_data "summary") = true →
  truthy (dict_get event_data "start_time") = true →
  nlp_processor.parse_local (dict_get event_data "start_time") = Some start →
  truthy (dict_get event_data "end_time") = true →
  nlp_processor.parse_local (dict_get event_data "end_time") = Some end_time →
  let s1 := add_event_description w d text in
  let s2 := add_event_confirmation (after s1) (data s1) "event_confirm" in
  next s1 = Return CALENDAR_EVENT_CONFIRMATION
  ∧ next s2 = Return END ∧ data s2 = clear
  ∧ ∃ e, calendar (after s2) = Calendar (<[new_id w := e]> cal)
         ∧ start_dateTime e = Some start
         ∧ end_dateTime e = Some end_time.
Proof.
  intros Hc Ha Hcal Hsum Hst Hp Hen Hpe.
  assert (∃ summary, event_data !! "summary" = Some summary) as [summary Hs].
  { unfold dict_get in Hsum. destruct (event_data !! "summary"); [eauto | done]. }
  set (stored := <["end_time" := PDatetime end_time]>
                   (<["start_time" := PDatetime start]> event_data)).
  assert (stored !! "summary" = Some summary) as E1 by (subst stored; by simplify_map_eq).
  assert (stored !! "start_time" = Some (PDatetime start)) as E2
    by (subst stored; by simplify_map_eq).
  assert (stored !! "end_time" = Some (PDatetime end_time)) as E3
    by (subst stored; by simplify_map_eq).
  cbv zeta. unfold add_event_description. rewrite Hc, Ha.
  unfold nlp_processor.parse_event_request. cbn [negb fst].
  rewrite (new_event_given_end event_data start end_time Hsum Hst Hp Hen Hpe).
  fold stored. rewrite E1, E2, E3.
  split; [done|]. unfold add_event_confirmation.
  cbn [String.eqb Ascii.eqb Bool.eqb main.data main.after main.event_data
       main.set_event_data main.set_event_text].
  rewrite E1, E2, E3, Hcal. cbn.
  split; [reflexivity|]. split; [reflexivity|]. eexists. repeat split; reflexivity.
Qed.

(** ** Stops that keep the session *)

(** X29.  Entering a flow never clears the session: the entry handler
    leaves it as it is, or adds the list of events to it when it opens a
    selection.  And the two stops of the update flow on a lookup - a button
    that names no stored event, a missing event id - end the conversation
    with the session kept, the first one with the id of the button added. *)
Theorem stops_keep_session f w d u s :
  (handle_update f None w d u = Some s →
     after s = w
     ∧ (data s = d
        ∨ ∃ evs, upcoming w = Items evs ∧ evs ≠ []
                 ∧ next s = Return CALENDAR_EVENT_SELECTION ∧ data s = set_events evs d))
  ∧ (∀ state, handle_update f (Some state) w d u = Some s →
       lookup_fails f state d u →
       next s = Return END ∧ after s = w
       ∧ (data s = d
          ∨ ∃ q, u = CallbackQuery q ∧ data s = set_event_id (Py.replace "event_" "" q) d)).
Proof.
  split.
  - unfold handle_update, entry_points. destruct u as [text|name args|query_data]; try done.
    destruct f; destruct (String.eqb name _); try done; intros [= <-];
      try (split; [done | by left]).
    + unfold update_event_start.
      destruct (upcoming w) as [| | |[|e evs]] eqn:Hup; cbn; (split; [done|]); try by left.
      right. by exists (e :: evs).
    + unfold delete_event_start.
      destruct (upcoming w) as [| | |[|e evs]] eqn:Hup; cbn; (split; [done|]); try by left.
      right. by exists (e :: evs).
  - intros state Hh [-> Hl]. unfold handle_update, states in Hh.
    destruct u as [text|name args|query_data]; [| done |].
    + destruct Hl as [-> Hid]. cbn in Hh. injection Hh as <-.
      unfold update_event_changes.
      destruct Hid as [-> | ->]; (split; [done|]); split; by auto.
    + destruct Hl as (-> & Hq & Hf). cbn [Z.eqb CALENDAR_EVENT_SELECTION andb] in Hh.
      destruct (Py.startswith "event_" query_data); [|done]. injection Hh as <-.
      destruct (update_event_selection_keeps_session w d query_data Hq Hf) as [Hn Hd].
      split; [done|]. split; [apply update_event_selection_after|].
      right. by exists query_data.
Qed.

End ControllerFlows.

Section ControllerFlowChecks.
#[local] Existing Instance Samples.decimal.
#[local] Existing Instance Samples.minutes_parser.
Import calendar_manager main Samples.
Local Open Scope list_scope.

(** X21 on the button of "Casa". *)
Lemma category_button_round_trip_witness :
  data (add_expense_category
          (services two_event_calendar two_events nlp_processor.ApiRaises)
          (set_expense_amount (1250 # 100) clear) "cat_Casa")
  = set_expense_category "Casa" (set_expense_amount (1250 # 100) clear).
Proof.
  exact (proj2 (proj2 (category_button_round_trip
           (services two_event_calendar two_events nlp_processor.ApiRaises)
           (set_expense_amount (1250 # 100) clear) "Casa" eq_refl))).
Defined.

(** X22 on the button of the dinner, the second of the two listed events. *)
Lemma event_button_selects_witness :
  next (update_event_selection
          (services two_event_calendar two_events nlp_processor.ApiRaises)
          (listing_session two_events) "event_d3e4f")
  = Return CALENDAR_EVENT_UPDATE
  ∧ event_id (data (update_event_selection
                      (services two_event_calendar two_events nlp_processor.ApiRaises)
                      (listing_session two_events) "event_d3e4f"))
    = Some "d3e4f".
Proof.
  destruct (event_button_selects
              (services two_event_calendar two_events nlp_processor.ApiRaises)
              (listing_session two_events) two_events
              (listed_event "d3e4f" "Cena" "11/01/2024 20:00")
              eq_refl ltac:(apply list_elem_of_further, list_elem_of_here)
              eq_refl ltac:(discriminate))
    as (_ & _ & Hn & Hi & _).
  exact (conj Hn Hi).
Defined.


(** X24 on "/report_mese Viaggi" with a sheet that cannot be reached. *)
Lemma report_command_category_witness :
  get_expense_report
    (with_sheets sheets_manager.NoSpreadsheet
       (services two_event_calendar two_events nlp_processor.ApiRaises))
    "/report_mese" ["Viaggi"]
  = inl [Msg sheets_manager.invalid_category_message].
Proof.
  refine (proj1 (report_command_category
                   (with_sheets sheets_manager.NoSpreadsheet
                      (services two_event_calendar two_events nlp_processor.ApiRaises))
                   "/report_mese" ["Viaggi"]) ltac:(discriminate) _).
  unfold config.EXPENSE_CATEGORIES. rewrite !elem_of_cons, elem_of_nil.
  intros Hin. repeat (destruct Hin as [Hin | Hin]; [discriminate Hin|]). exact Hin.
Defined.

(** X25 on [/skip] at the end of the expense flow: the calendar is as it
    was. *)
Lemma writes_end_conversation_witness :
  calendar (after (skip_expense_description
                     (services two_event_calendar two_events nlp_processor.ApiRaises)
                     expense_session (Command "skip" [])))
  = Calendar two_event_calendar.
Proof.
  exact (proj1 (writes_end_conversation expense_conv_handler (Some EXPENSE_DESCRIPTION)
                  (services two_event_calendar two_events nlp_processor.ApiRaises)
                  expense_session (Command "skip" []) _ eq_refl) eq_refl).
Defined.

(** X26 on the id of the dinner. *)
Lemma delete_by_id_witness :
  calendar (after (delete_event_selection
                     (services two_event_calendar two_events nlp_processor.ApiRaises)
                     (listing_session two_events) "d3e4f"))
  = Calendar (delete "d3e4f" two_event_calendar).
Proof.
  exact (proj1 (proj2 (proj2 (delete_by_id
           (services two_event_calendar two_events nlp_processor.ApiRaises)
           (listing_session two_events) two_events two_event_calendar
           (listed_event "d3e4f" "Cena" "11/01/2024 20:00")
           eq_refl ltac:(apply list_elem_of_further, list_elem_of_here) eq_refl)))).
Defined.

(** X27 on the button of the meeting and a reply that moves it to room 2. *)
Lemma update_flow_selected_only_witness :
  next (update_event_changes
          (services two_event_calendar two_events
             (json_reply [("location", Some "Sala 2")]))
          (set_selected_event (listed_event "a1b2c" "Riunione" "10/01/2024 15:00")
             (set_event_id "a1b2c" (set_events two_events clear)))
          "spostala in Sala 2")
  = Return END.
Proof.
  exact (proj1 (proj2 (proj2 (update_flow_selected_only
           (services two_event_calendar two_events
              (json_reply [("location", Some "Sala 2")]))
           clear two_events (listed_event "a1b2c" "Riunione" "10/01/2024 15:00")
           "spostala in Sala 2"
           eq_refl ltac:(apply list_elem_of_here) eq_refl ltac:(discriminate))))).
Defined.

(** X28 on a reply whose end, 19:00, is before its start, 20:00: the event
    is created with these times. *)
Lemma add_event_flow_given_end_witness :
  ∃ e, calendar (after (add_event_confirmation
                          (services one_event_calendar []
                             (json_reply [("summary", Some "Cena");
                                          ("start_time", Some "2024-01-11 20:00");
                                          ("end_time", Some "2024-01-11 19:00")]))
                          (data (add_event_description
                                   (services one_event_calendar []
                                      (json_reply [("summary", Some "Cena");
                                                   ("start_time", Some "2024-01-11 20:00");
                                                   ("end_time", Some "2024-01-11 19:00")]))
                                   clear "cena domani dalle 20 alle 19"))
                          "event_confirm"))
       = Calendar (<["g7h8i" := e]> one_event_calendar)
       ∧ start_dateTime e = Some (make 2024 1 11 20 0 0 0)
       ∧ end_dateTime e = Some (make 2024 1 11 19 0 0 0).
Proof.
  exact (proj2 (proj2 (proj2 (add_event_flow_given_end
           (services one_event_calendar []
              (json_reply [("summary", Some "Cena"); ("start_time", Some "2024-01-11 20:00");
                           ("end_time", Some "2024-01-11 19:00")]))
           clear
           (list_to_map [("summary", PStr "Cena"); ("start_time", PStr "2024-01-11 20:00");
                         ("end_time", PStr "2024-01-11 19:00")])
           (json_object [("summary", Some "Cena"); ("start_time", Some "2024-01-11 20:00");
                         ("end_time", Some "2024-01-11 19:00")])
           "cena domani dalle 20 alle 19" one_event_calendar
           (make 2024 1 11 20 0 0 0) (make 2024 1 11 19 0 0 0)
           eq_refl eq_refl eq_refl eq_refl eq_refl eq_refl eq_refl eq_refl)))).
Defined.

End ControllerFlowChecks.
